(** * audio-recorder: a Rocq model of the capture / buffer / flush logic

    The repository has two front-ends around the [sounddevice] capture
    library: a Tk GUI ([audio_recorder.py], class [AudioRecorder]) and a
    command-line tool ([audio_recorder_cli.py], class [AudioRecorderCLI]).
    This development embeds the parts of both that the specification talks
    about: the quantisation [np.int16(audio * 32767)], the producer/consumer
    buffering, the start/stop logic of the GUI, and the prompt / record /
    save flow of the CLI together with its process exit code. *)

From Stdlib Require Import ZArith Lia Bool List String Ascii.
From Stdlib Require Import Floats.SpecFloat.
From stdpp Require Import base option list strings gmap.

Local Open Scope Z_scope.

(** ** Single-precision floats

    [sounddevice] delivers [float32] samples.  They are modelled with the
    IEEE-754 specification of the standard library, instantiated at the
    binary32 parameters. *)

Module Float32.

Definition prec : Z := 24.
Definition emax : Z := 128.

Definition float32 := spec_float.

Definition valid (x : float32) : bool := valid_binary prec emax x.

(** [x * y] on [float32], rounding to nearest, ties to even. *)
Definition mul (x y : float32) : float32 := SFmul prec emax x y.

(** The [float32] nearest to an integer (the conversion NumPy applies to a
    Python [int] operand of a [float32] array). *)
Definition of_Z (n : Z) : float32 := binary_normalize prec emax n 0 false.

Definition one : float32 := Eval vm_compute in of_Z 1.

Definition abs (x : float32) : float32 := SFabs x.

Definition leb (x y : float32) : bool := SFleb x y.

(** Magnitude of a finite float [m * 2^e], rounded toward zero. *)
Definition trunc_mag (m : positive) (e : Z) : Z :=
  match e with
  | Z0 => Zpos m
  | Zpos p => Zpos m * 2 ^ Zpos p
  | Zneg p => Zpos m / 2 ^ Zpos p
  end.

(** Rounding toward zero to an integer; [None] for NaN and the
    infinities, which have no integer part. *)
Definition trunc (x : float32) : option Z :=
  match x with
  | S754_zero _ => Some 0
  | S754_finite s m e => Some (cond_Zopp s (trunc_mag m e))
  | S754_infinity _ | S754_nan => None
  end.

End Float32.

(** ** The C conversion behind [np.int16]

    [np.int16(a)] on a [float32] array runs NumPy's cast loop, a C
    conversion [(npy_short) f] per element.  As compiled for x86-64 this is
    [cvttss2si] to a 32-bit register (truncation toward zero, with the
    "integer indefinite" value [-2^31] for NaN, infinities and values that
    do not fit 32 bits) followed by keeping the low 16 bits, read as a
    two's-complement number. *)

Module Cast.

Definition int16_min : Z := -32768.
Definition int16_max : Z := 32767.

Definition cvttss2si (x : Float32.float32) : Z :=
  match Float32.trunc x with
  | Some t => if (- 2 ^ 31 <=? t) && (t <? 2 ^ 31) then t else - 2 ^ 31
  | None => - 2 ^ 31
  end.

(** The low 16 bits of [z] as a signed number. *)
Definition wrap16 (z : Z) : Z := (z + 32768) mod 65536 - 32768.

Definition np_int16 (x : Float32.float32) : Z := wrap16 (cvttss2si x).

(** What a saturating conversion would give; the code has no such step. *)
Definition saturate16 (z : Z) : Z := Z.max int16_min (Z.min int16_max z).

End Cast.

(** ** Arrays of samples

    A block handed to the callback, and the concatenated recording, are
    two-dimensional [float32] arrays of shape [(frames, channels)]: a list
    of rows together with the row width. *)

Record ndarray (A : Type) : Type := mk_ndarray {
  ncols : nat;
  rows : list (list A)
}.
Arguments mk_ndarray {A} _ _.
Arguments ncols {A} _.
Arguments rows {A} _.

Definition sample_block := ndarray Float32.float32.

(** [len(a)]: the number of rows. *)
Definition nd_len {A} (a : ndarray A) : nat := length (rows a).

(** Element-wise map ([a * 32767], [np.int16(a)]). *)
Definition nd_map {A B} (f : A -> B) (a : ndarray A) : ndarray B :=
  mk_ndarray (ncols a) (map (map f) (rows a)).

(** [np.concatenate(l, axis=0)]: [None] stands for the [ValueError] raised
    on an empty list or on blocks of different widths. *)
Definition np_concatenate {A} (l : list (ndarray A)) : option (ndarray A) :=
  match l with
  | [] => None
  | a :: l' =>
      if forallb (fun b => Nat.eqb (ncols b) (ncols a)) l'
      then Some (mk_ndarray (ncols a) (concat (map rows l)))
      else None
  end.

(** ** Quantisation: [np.int16(audio * 32767)] *)

Module Quantize.

(** The Python integer [32767] as a [float32] operand. *)
Definition scale : Float32.float32 := Eval vm_compute in Float32.of_Z 32767.

Definition quantize_sample (x : Float32.float32) : Z :=
  Cast.np_int16 (Float32.mul x scale).

Definition quantize (audio : sample_block) : ndarray Z :=
  nd_map quantize_sample audio.

(** A valid sample of magnitude at most one. *)
Definition in_unit (x : Float32.float32) : Prop :=
  Float32.valid x = true /\ Float32.leb (Float32.abs x) Float32.one = true.

(** Two concrete samples: 0.5, and the [float32] nearest to 1.0001. *)
Definition half : Float32.float32 := S754_finite false 8388608 (-24).
Definition just_above_one : Float32.float32 :=
  S754_finite false 8389447 (-23).

(** The sample 70000.0, far outside the unit range. *)
Definition seventy_thousand : Float32.float32 :=
  S754_finite false 8960000 (-7).

End Quantize.

(** Reading the rounding records of [SpecFloat]: a shift lost something
    when the round or the sticky bit is set. *)
Definition inexact (mrs : shr_record) : bool := shr_r mrs || shr_s mrs.

Definition is_exact (l : location) : bool :=
  match l with loc_Exact => true | _ => false end.

(** ** Python string operations used by the code

    A string is a sequence of characters with code points 0 to 255 (the
    Latin-1 range), each held in one [ascii]; text with other characters
    is outside the model.  On that range the functions below follow
    Python's: white space is what [str.isspace] accepts, case folding is
    that of [str.lower], and the decimal digits are the ten ASCII ones. *)

Module Py.

Local Open Scope string_scope.

Definition is_space (c : ascii) : bool :=
  let n := N_of_ascii c in
  (((9 <=? n) && (n <=? 13)) || ((28 <=? n) && (n <=? 32))
   || (n =? 133) || (n =? 160))%N.

Definition is_digit (c : ascii) : bool :=
  let n := N_of_ascii c in ((48 <=? n) && (n <=? 57))%N.

Definition digit_value (c : ascii) : Z := Z.of_N (N_of_ascii c) - 48.

Definition lower_char (c : ascii) : ascii :=
  let n := N_of_ascii c in
  if (((65 <=? n) && (n <=? 90))
      || ((192 <=? n) && (n <=? 222) && negb (n =? 215)))%N
  then ascii_of_N (n + 32) else c.

(** [s.lower()] *)
Fixpoint lower (s : string) : string :=
  match s with
  | EmptyString => EmptyString
  | String c s' => String (lower_char c) (lower s')
  end.

(** [s.endswith(suffix)] *)
Fixpoint endswith (s suffix : string) : bool :=
  if String.eqb s suffix then true
  else match s with
       | EmptyString => false
       | String _ s' => endswith s' suffix
       end.

(** [sub in s] *)
Fixpoint contains (sub s : string) : bool :=
  if String.prefix sub s then true
  else match s with
       | EmptyString => false
       | String _ s' => contains sub s'
       end.

Fixpoint lstrip (s : string) : string :=
  match s with
  | EmptyString => EmptyString
  | String c s' => if is_space c then lstrip s' else s
  end.

Fixpoint rstrip (s : string) : string :=
  match s with
  | EmptyString => EmptyString
  | String c s' =>
      let r := rstrip s' in
      if is_space c && String.eqb r EmptyString then EmptyString
      else String c r
  end.

(** [s.strip()] *)
Definition strip (s : string) : string := rstrip (lstrip s).

(** [s or default] for strings: the empty string is falsy. *)
Definition or_default (s default : string) : string :=
  if String.eqb s EmptyString then default else s.

(** The part of [s] before its last ["."], when there is one. *)
Fixpoint before_last_dot (s : string) : option string :=
  match s with
  | EmptyString => None
  | String c s' =>
      match before_last_dot s' with
      | Some h => Some (String c h)
      | None => if Ascii.eqb c "." then Some EmptyString else None
      end
  end.

(** [s.rsplit('.', 1)[0]] *)
Definition rsplit_dot_head (s : string) : string :=
  match before_last_dot s with
  | Some h => h
  | None => s
  end.

(** Digits after the first one; a single ["_"] may separate digits. *)
Fixpoint parse_digits (s : string) (acc : Z) (after_underscore : bool)
  : option Z :=
  match s with
  | EmptyString => if after_underscore then None else Some acc
  | String c s' =>
      if is_digit c then parse_digits s' (10 * acc + digit_value c) false
      else if Ascii.eqb c "_" then
             if after_underscore then None else parse_digits s' acc true
           else None
  end.

Definition parse_nat (s : string) : option Z :=
  match s with
  | String c s' => if is_digit c then parse_digits s' (digit_value c) false
                   else None
  | EmptyString => None
  end.

(** [int(s)] on a decimal literal; [None] stands for [ValueError]. *)
Definition int (s : string) : option Z :=
  match strip s with
  | String "+" r => parse_nat r
  | String "-" r => option_map Z.opp (parse_nat r)
  | t => parse_nat t
  end.

End Py.

(** ** Devices, streams and files *)

(** One entry of [sd.query_devices()].  PortAudio reports the default rate
    as a float holding a whole number of hertz; the field holds the value
    [int(d['default_samplerate'])] that the code uses. *)
Record device_info : Type := mk_device {
  name : string;
  max_input_channels : Z;
  default_samplerate : Z
}.

(** The keyword arguments of one [sd.InputStream(...)] call; [blocksize] is
    [None] when the call does not pass it. *)
Record stream_params : Type := mk_stream {
  sp_samplerate : option Z;
  sp_device : option nat;
  sp_channels : Z;
  sp_dtype : string;
  sp_blocksize : option Z
}.

(** Files on disk.  A WAV file is its header fields and sample rows; the
    output of the external encoder is opaque. *)
Inductive file : Type :=
  | WavPCM (rate : Z) (nchannels : nat) (bits : Z) (data : list (list Z))
  | WavFloat (rate : Z) (nchannels : nat) (data : list (list Float32.float32))
  | Encoded (payload : list Z).

Abbreviation filesystem := (gmap string file).

(** [scipy.io.wavfile.write(path, rate, data)] for an [int16] array: the
    channel count of the header is [data.shape[1]], the sample width that of
    the array's element type. *)
Definition wav_of_int16 (rate : Z) (data : ndarray Z) : file :=
  WavPCM rate (ncols data) 16 (rows data).

Definition wav_of_float32 (rate : Z) (data : sample_block) : file :=
  WavFloat rate (ncols data) (rows data).

(** [input_devices = [(i, d) for i, d in enumerate(device_list)
                      if d['max_input_channels'] > 0]] *)
Fixpoint enumerate_from {A} (i : nat) (l : list A) : list (nat * A) :=
  match l with
  | [] => []
  | x :: l' => (i, x) :: enumerate_from (S i) l'
  end.

Definition input_devices_of (device_list : list device_info)
  : list (nat * device_info) :=
  filter (fun p => 0 <? max_input_channels (snd p))
         (enumerate_from 0 device_list).

(** ** The command-line front-end ([audio_recorder_cli.py]) *)

Module Cli.

Local Open Scope string_scope.
Local Open Scope Z_scope.

(** Python exceptions that occur in the modelled code. *)
Inductive exn : Type :=
  | KeyboardInterrupt
  | SystemExit (code : Z)
  | ValueError
  | TypeError
  | EOFError
  | PortAudioError
  | ZeroDivisionError
  | OSError
  | TimeoutExpired.

(** [except Exception] catches everything but [KeyboardInterrupt] and
    [SystemExit], which derive from [BaseException] only. *)
Definition is_Exception (e : exn) : bool :=
  match e with
  | KeyboardInterrupt | SystemExit _ => false
  | _ => true
  end.

(** Lines written to the console.  Each constructor is one [print] (or
    one banner made of several); numbers shown to the user are kept as
    arguments. *)
Inductive msg : Type :=
  | NoInputDevices
  | FoundDevices (n : nat)
  | InvalidDeviceNumber
  | EnterValidNumber
  | CancelledByUser            (* the prompts' handlers *)
  | CancelledByUserRun         (* the handler of [run] *)
  | SampleRateOk (rate : Z)
  | DeviceDoesNotSupport (rate : Z)
  | UsingDeviceDefault (rate : Z)
  | InvalidRateChoice
  | InvalidInput
  | ChannelsOk (n : Z)
  | InvalidChannelChoice
  | ConfigurationComplete
  | OpeningStream (p : stream_params)
  | RecordingStarted
  | RecordingStoppedByUser
  | RecordingError (e : exn)
  | RecordingCompleted (nframes : nat)
  | NoFramesToSave
  | AudioData (nrows : nat)
  | SavingAsWav (path : string)
  | SavingAsAac (path : string)
  | FileSaved (path : string) (format : string)
  | FfmpegNotAvailable
  | FallingBackToWav
  | FfmpegError (stderr : string)
  | FfmpegTimedOut
  | AacConversionError (e : exn)
  | ErrorSavingFile (e : exn)
  | AllDone
  | FatalError (e : exn).

(** The lines that announce a failure or a cancellation. *)
Definition is_failure_notice (m : msg) : bool :=
  match m with
  | NoInputDevices | CancelledByUser | CancelledByUserRun | FatalError _
  | RecordingError _ | NoFramesToSave | ErrorSavingFile _
  | FfmpegError _ | FfmpegTimedOut | AacConversionError _ => true
  | _ => false
  end.

(** What the user does at one [input()] call. *)
Inductive input_event : Type :=
  | Typed (line : string)
  | CtrlC.

(** How a capture session goes once [record] is entered: the stream may
    fail to open; otherwise the driver calls the callback on each
    delivered block until the user presses Ctrl+C or the stream fails. *)
Inductive session_end : Type := Interrupted | StreamFailed.

Record session : Type := mk_session {
  opens : bool;
  delivered : list sample_block;
  ending : session_end
}.

(** What one run of [ffmpeg] does: it exits with a return code, having
    written its output file or not, or exceeds the time limit, or cannot
    be started. *)
Inductive ffmpeg_run : Type :=
  | Exited (returncode : Z) (stderr : string) (written : option file)
  | TimedOut (written : option file)
  | NotStarted.

(** The world outside the program. *)
Record env : Type := mk_env {
  ffmpeg_version_ok : bool;                 (* [check_ffmpeg()] *)
  query_devices : list device_info;
  check_input_settings : option nat -> Z -> bool;
  capture : session;
  writable : string -> bool;                (* can [path] be written? *)
  ffmpeg : ffmpeg_run;
  timestamp : string                        (* [datetime.now().strftime] *)
}.

(** The recorder object together with the console and the disk. *)
Record state : Type := mk_state {
  recording : bool;
  frames : list sample_block;
  device : option nat;
  samplerate : option Z;
  channels : Z;
  dtype : string;
  output_format : string;
  has_ffmpeg : bool;
  console : list msg;
  streams : list stream_params;             (* [sd.InputStream] calls *)
  fs : filesystem
}.

Definition set_recording (b : bool) (s : state) : state :=
  mk_state b (frames s) (device s) (samplerate s) (channels s) (dtype s)
           (output_format s) (has_ffmpeg s) (console s) (streams s) (fs s).
Definition set_frames (l : list sample_block) (s : state) : state :=
  mk_state (recording s) l (device s) (samplerate s) (channels s) (dtype s)
           (output_format s) (has_ffmpeg s) (console s) (streams s) (fs s).
Definition set_device (d : option nat) (s : state) : state :=
  mk_state (recording s) (frames s) d (samplerate s) (channels s) (dtype s)
           (output_format s) (has_ffmpeg s) (console s) (streams s) (fs s).
Definition set_samplerate (r : option Z) (s : state) : state :=
  mk_state (recording s) (frames s) (device s) r (channels s) (dtype s)
           (output_format s) (has_ffmpeg s) (console s) (streams s) (fs s).
Definition set_channels (c : Z) (s : state) : state :=
  mk_state (recording s) (frames s) (device s) (samplerate s) c (dtype s)
           (output_format s) (has_ffmpeg s) (console s) (streams s) (fs s).
Definition print (m : msg) (s : state) : state :=
  mk_state (recording s) (frames s) (device s) (samplerate s) (channels s)
           (dtype s) (output_format s) (has_ffmpeg s) (console s ++ [m])
           (streams s) (fs s).
Definition log_stream (p : stream_params) (s : state) : state :=
  mk_state (recording s) (frames s) (device s) (samplerate s) (channels s)
           (dtype s) (output_format s) (has_ffmpeg s) (console s)
           (streams s ++ [p]) (fs s).
Definition set_fs (f : filesystem) (s : state) : state :=
  mk_state (recording s) (frames s) (device s) (samplerate s) (channels s)
           (dtype s) (output_format s) (has_ffmpeg s) (console s)
           (streams s) f.

(** The result of a method: a returned value or a raised exception, with
    the state it leaves. *)
Inductive outcome (A : Type) : Type :=
  | Return (a : A) (s : state)
  | Raise (e : exn) (s : state).
Arguments Return {A} _ _.
Arguments Raise {A} _ _.

Definition state_of {A} (r : outcome A) : state :=
  match r with
  | Return _ s => s
  | Raise _ s => s
  end.

(** What the prompts leave alone: they only set the device, the rate and
    the channel count, and write to the console. *)
Definition untouched_by_prompts (s s' : state) : Prop :=
  recording s' = recording s /\ frames s' = frames s
  /\ dtype s' = dtype s /\ output_format s' = output_format s
  /\ has_ffmpeg s' = has_ffmpeg s /\ streams s' = streams s
  /\ fs s' = fs s.

(** [__init__]: the defaults, then the probe for ffmpeg. *)
Definition init (e : env) : state :=
  mk_state false [] None (Some 48000) 2 "float32"
           (if ffmpeg_version_ok e then "aac" else "wav")
           (ffmpeg_version_ok e) [] [] ∅.

(** [list_devices] *)
Definition list_devices (e : env) (s : state)
  : list (nat * device_info) * state :=
  let input_devices := input_devices_of (query_devices e) in
  match input_devices with
  | [] => ([], print NoInputDevices s)
  | _ => (input_devices, print (FoundDevices (length input_devices)) s)
  end.

(** [callback]: runs on the driver's thread, once per block. *)
Definition callback (indata : sample_block) (s : state) : state :=
  set_frames (frames s ++ [indata]) s.

(** The [for idx, device in input_devices] search of [select_device]. *)
Fixpoint find_device (device_idx : Z) (input_devices : list (nat * device_info))
  : option (nat * device_info) :=
  match input_devices with
  | [] => None
  | (idx, d) :: rest =>
      if Z.of_nat idx =? device_idx then Some (idx, d)
      else find_device device_idx rest
  end.

(** [select_device]: its [while True] loop makes one [input()] call per
    round, so it is a recursion on the remaining console input.  Running
    out of input is the [EOFError] of [input()]. *)
Fixpoint select_device (input_devices : list (nat * device_info))
    (ins : list input_event) (s : state)
  : outcome device_info * list input_event :=
  match ins with
  | [] => (Raise EOFError s, [])
  | CtrlC :: ins' => (Raise (SystemExit 0) (print CancelledByUser s), ins')
  | Typed line :: ins' =>
      match Py.int (Py.strip line) with
      | None => select_device input_devices ins' (print EnterValidNumber s)
      | Some device_idx =>
          match find_device device_idx input_devices with
          | Some (idx, d) => (Return d (set_device (Some idx) s), ins')
          | None =>
              select_device input_devices ins' (print InvalidDeviceNumber s)
          end
      end
  end.

(** [sample_rates.get(n)] *)
Definition sample_rates (n : Z) : option Z :=
  if n =? 1 then Some 44100
  else if n =? 2 then Some 48000
  else if n =? 3 then Some 96000
  else None.

(** The sample-rate loop of [configure_recording]. *)
Fixpoint select_samplerate (e : env) (d : device_info)
    (ins : list input_event) (s : state)
  : outcome unit * list input_event :=
  match ins with
  | [] => (Raise EOFError s, [])
  | CtrlC :: ins' => (Raise (SystemExit 0) (print CancelledByUser s), ins')
  | Typed line :: ins' =>
      let choice := Py.or_default (Py.strip line) "2" in
      match Py.int choice with
      | None => select_samplerate e d ins' (print InvalidInput s)
      | Some n =>
          let s1 := set_samplerate (sample_rates n) s in
          match sample_rates n with
          | Some rate =>
              if check_input_settings e (device s1) rate
              then (Return tt (print (SampleRateOk rate) s1), ins')
              else
                let s2 := print (DeviceDoesNotSupport rate) s1 in
                let s3 := set_samplerate (Some (default_samplerate d)) s2 in
                (Return tt (print (UsingDeviceDefault (default_samplerate d)) s3),
                 ins')
          | None => select_samplerate e d ins' (print InvalidRateChoice s1)
          end
      end
  end.

(** The channel loop of [configure_recording]. *)
Fixpoint select_channels (d : device_info)
    (ins : list input_event) (s : state)
  : outcome unit * list input_event :=
  match ins with
  | [] => (Raise EOFError s, [])
  | CtrlC :: ins' => (Raise (SystemExit 0) (print CancelledByUser s), ins')
  | Typed line :: ins' =>
      let max_channels := max_input_channels d in
      let default := if 2 <=? max_channels then "2" else "1" in
      let choice := Py.or_default (Py.strip line) default in
      match Py.int choice with
      | None => select_channels d ins' (print InvalidInput s)
      | Some n =>
          if n =? 1 then
            (Return tt (print (ChannelsOk 1) (set_channels 1 s)), ins')
          else if (n =? 2) && (2 <=? max_channels) then
            (Return tt (print (ChannelsOk 2) (set_channels 2 s)), ins')
          else select_channels d ins' (print InvalidChannelChoice s)
      end
  end.

(** [configure_recording] *)
Definition configure_recording (e : env) (d : device_info)
    (ins : list input_event) (s : state)
  : outcome unit * list input_event :=
  match select_samplerate e d ins s with
  | (Return _ s1, ins1) =>
      match select_channels d ins1 s1 with
      | (Return _ s2, ins2) => (Return tt (print ConfigurationComplete s2), ins2)
      | r => r
      end
  | r => r
  end.

(** [record]: the stream is opened inside [try]; the wait loop ends only
    with Ctrl+C or an error; [finally] clears the flag on every path. *)
Definition record (e : env) (s : state) : outcome bool :=
  let s1 := set_recording true (set_frames [] s) in
  let p := mk_stream (samplerate s1) (device s1) (channels s1) (dtype s1) None in
  let s2 := log_stream p (print (OpeningStream p) s1) in
  if opens (capture e) then
    let s3 := print RecordingStarted s2 in
    let s4 := fold_left (fun st indata => callback indata st)
                        (delivered (capture e)) s3 in
    match ending (capture e) with
    | Interrupted =>
        let s5 := set_recording false (print RecordingStoppedByUser s4) in
        Return true (print (RecordingCompleted (length (frames s5))) s5)
    | StreamFailed =>
        Return false (set_recording false (print (RecordingError PortAudioError) s4))
    end
  else
    Return false (set_recording false (print (RecordingError PortAudioError) s2)).

(** [wavfile.write(path, self.samplerate, data)] followed by
    [os.path.getsize(path)]. *)
Definition write_wav (e : env) (path : string) (audio : sample_block) (s : state)
  : outcome unit :=
  match samplerate s with
  | None => Raise TypeError s
  | Some rate =>
      let f := if String.eqb (dtype s) "float32"
               then wav_of_int16 rate (Quantize.quantize audio)
               else wav_of_float32 rate audio in
      if writable e path then Return tt (set_fs (<[path := f]> (fs s)) s)
      else Raise OSError s
  end.

(** [_save_as_wav] *)
Definition _save_as_wav (e : env) (audio : sample_block) (output_path : string)
    (s : state) : outcome bool :=
  match write_wav e output_path audio (print (SavingAsWav output_path) s) with
  | Return _ s1 => Return true (print (FileSaved output_path "16-bit PCM WAV") s1)
  | Raise x s1 => Raise x s1
  end.

(** [if os.path.exists(temp_wav): os.remove(temp_wav)] *)
Definition remove_if_exists (path : string) (s : state) : state :=
  match fs s !! path with
  | Some _ => set_fs (delete path (fs s)) s
  | None => s
  end.

(** What the encoder leaves at its output path. *)
Definition ffmpeg_output (written : option file) (output_path : string)
    (s : state) : state :=
  match written with
  | Some f => set_fs (<[output_path := f]> (fs s)) s
  | None => s
  end.

(** The [except Exception] handler of [_save_as_aac]. *)
Definition aac_failed (x : exn) (temp_wav : string) (s : state)
  : outcome bool :=
  Return false (remove_if_exists temp_wav (print (AacConversionError x) s)).

(** [_save_as_aac] *)
Definition _save_as_aac (e : env) (audio : sample_block) (output_path : string)
    (s : state) : outcome bool :=
  if negb (has_ffmpeg s) then
    let s1 := print FallingBackToWav (print FfmpegNotAvailable s) in
    let wav_path := Py.rsplit_dot_head output_path ++ ".wav" in
    _save_as_wav e audio wav_path s1
  else
    let s1 := print (SavingAsAac output_path) s in
    let temp_wav := Py.rsplit_dot_head output_path ++ "_temp.wav" in
    match write_wav e temp_wav audio s1 with
    | Raise x s2 => Raise x s2
    | Return _ s2 =>
        match ffmpeg e with
        | Exited returncode stderr written =>
            let s3 := ffmpeg_output written output_path s2 in
            if negb (returncode =? 0) then
              Return false (print (FfmpegError stderr) s3)
            else
              match fs s3 !! temp_wav with
              | None => aac_failed OSError temp_wav s3
              | Some _ =>
                  let s4 := set_fs (delete temp_wav (fs s3)) s3 in
                  match fs s4 !! output_path with
                  | None => aac_failed OSError temp_wav s4
                  | Some _ =>
                      Return true
                        (print (FileSaved output_path "AAC (M4A) @ 192 kbps") s4)
                  end
              end
        | TimedOut written =>
            let s3 := ffmpeg_output written output_path s2 in
            Return false (remove_if_exists temp_wav (print FfmpegTimedOut s3))
        | NotStarted => aac_failed OSError temp_wav s2
        end
    end.

(** The body of the [try] of [save_recording]. *)
Definition save_body (e : env) (output_path : string) (s : state)
  : outcome bool :=
  match np_concatenate (frames s) with
  | None => Raise ValueError s
  | Some audio =>
      match samplerate s with
      | None => Raise TypeError s
      | Some rate =>
          if rate =? 0 then Raise ZeroDivisionError s
          else
            let s1 := print (AudioData (nd_len audio)) s in
            let ext := if String.eqb (output_format s1) "aac"
                       then ".m4a" else ".wav" in
            let output_path :=
              if String.eqb output_path EmptyString
              then "recording_" ++ timestamp e ++ ext
              else output_path in
            if Py.endswith (Py.lower output_path) ".m4a"
               || Py.endswith (Py.lower output_path) ".aac"
            then _save_as_aac e audio output_path s1
            else
              let output_path :=
                if Py.endswith (Py.lower output_path) ".wav" then output_path
                else output_path ++ ".wav" in
              _save_as_wav e audio output_path s1
      end
  end.

(** [save_recording]; the empty string stands for no [output_path]. *)
Definition save_recording (e : env) (output_path : string) (s : state)
  : outcome bool :=
  match frames s with
  | [] => Return false (print NoFramesToSave s)
  | _ =>
      match save_body e output_path s with
      | Raise x s1 =>
          if is_Exception x then Return false (print (ErrorSavingFile x) s1)
          else Raise x s1
      | r => r
      end
  end.

(** The [input()] call for the output filename. *)
Definition ask_filename (e : env) (ins : list input_event) (s : state)
  : outcome string * list input_event :=
  match ins with
  | [] => (Raise EOFError s, [])
  | CtrlC :: ins' => (Raise KeyboardInterrupt s, ins')
  | Typed line :: ins' =>
      let ext := if String.eqb (output_format s) "aac" then ".m4a" else ".wav" in
      let default_filename := "recording_" ++ timestamp e ++ ext in
      (Return (Py.or_default (Py.strip line) default_filename) s, ins')
  end.

(** The body of the [try] of [run]. *)
Definition run_body (e : env) (ins : list input_event) (s : state)
  : outcome Z :=
  match list_devices e s with
  | ([], s1) => Return 1 s1
  | (input_devices, s1) =>
      match select_device input_devices ins s1 with
      | (Raise x s2, _) => Raise x s2
      | (Return d s2, ins2) =>
          match configure_recording e d ins2 s2 with
          | (Raise x s3, _) => Raise x s3
          | (Return _ s3, ins3) =>
              match ask_filename e ins3 s3 with
              | (Raise x s4, _) => Raise x s4
              | (Return output_path s4, _) =>
                  match record e s4 with
                  | Raise x s5 => Raise x s5
                  | Return false s5 => Return 1 s5
                  | Return true s5 =>
                      match save_recording e output_path s5 with
                      | Raise x s6 => Raise x s6
                      | Return false s6 => Return 1 s6
                      | Return true s6 => Return 0 (print AllDone s6)
                      end
                  end
              end
          end
      end
  end.

(** [run]: [KeyboardInterrupt] and [Exception] are turned into the return
    value 1; [SystemExit] passes through both handlers. *)
Definition run (e : env) (ins : list input_event) (s : state) : outcome Z :=
  match run_body e ins s with
  | Raise KeyboardInterrupt s1 => Return 1 (print CancelledByUserRun s1)
  | Raise x s1 =>
      if is_Exception x then Return 1 (print (FatalError x) s1)
      else Raise x s1
  | r => r
  end.

(** [main]: [sys.exit(recorder.run())].  The exit status of the process
    is the value returned by [run], or the code of a [SystemExit] raised
    inside it. *)
Definition main (e : env) (ins : list input_event) : Z * state :=
  match run e ins (init e) with
  | Return code s => (code, s)
  | Raise (SystemExit code) s => (code, s)
  | Raise KeyboardInterrupt s => (130, s)
  | Raise _ s => (1, s)
  end.

Definition exit_code (e : env) (ins : list input_event) : Z :=
  fst (main e ins).

End Cli.

(** ** The GUI front-end ([audio_recorder.py]) *)

Module Gui.

Local Open Scope string_scope.
Local Open Scope Z_scope.

(** [messagebox] calls, in the order they are made. *)
Inductive dialog : Type :=
  | WarnSelectDevice
  | ErrDeviceNotFound
  | InfoSampleRateAdjusted (requested used : Z)
  | InfoChannelsAdjusted (max_channels : Z)
  | ErrQueryingDevice
  | ErrRecording
  | WarnNoAudioRecorded
  | InfoSaved (path : string)
  | WarnSaveCancelled
  | ErrSavingFile.

(** The text of the status label. *)
Inductive status_text : Type :=
  | StatusReady
  | StatusRecording
  | StatusStopping
  | StatusProcessing
  | StatusErrorReady.

(** The level meter shows [min(100, rms * 1000)] of the last block; the
    number plays no role below, so it is kept symbolic. *)
Inductive level : Type :=
  | LevelZero
  | LevelOf (indata : sample_block).

(** Where the consumer thread stands in
    [while self.recording: self.frames.append(self.q.get())]. *)
Inductive consumer_pc : Type :=
  | NoThread       (* no recording thread has been created *)
  | Launched       (* [self.thread.start()] done, stream not open yet *)
  | AtWhile        (* about to test [self.recording] *)
  | AtGet          (* inside [self.q.get()] *)
  | Finished.      (* left the loop, stream closed *)

(** The world outside the program. *)
Record env : Type := mk_env {
  query_device : nat -> option device_info;   (* [sd.query_devices(i, 'input')] *)
  check_input_settings : nat -> Z -> bool;
  stream_opens : bool;
  lambda_in_time : bool;                      (* see [stream_error] *)
  asksaveasfilename : string;                 (* empty when cancelled *)
  writable : string -> bool
}.

Record state : Type := mk_state {
  recording : bool;
  frames : list sample_block;
  device : option nat;
  samplerate : Z;
  channels : Z;
  dtype : string;
  q : list sample_block;                      (* [queue.Queue], head first *)
  input_devices : list (nat * device_info);
  device_var : string;
  samplerate_var : string;
  channels_var : string;
  level_var : level;
  status : status_text;
  start_btn : bool;                           (* enabled? *)
  stop_btn : bool;
  thread : consumer_pc;
  dialogs : list dialog;
  streams : list stream_params;
  fs : filesystem
}.

Definition set_recording (b : bool) (s : state) : state :=
  mk_state b (frames s) (device s) (samplerate s) (channels s) (dtype s)
    (q s) (input_devices s) (device_var s) (samplerate_var s) (channels_var s)
    (level_var s) (status s) (start_btn s) (stop_btn s) (thread s)
    (dialogs s) (streams s) (fs s).
Definition set_frames (l : list sample_block) (s : state) : state :=
  mk_state (recording s) l (device s) (samplerate s) (channels s) (dtype s)
    (q s) (input_devices s) (device_var s) (samplerate_var s) (channels_var s)
    (level_var s) (status s) (start_btn s) (stop_btn s) (thread s)
    (dialogs s) (streams s) (fs s).
Definition set_device (d : option nat) (s : state) : state :=
  mk_state (recording s) (frames s) d (samplerate s) (channels s) (dtype s)
    (q s) (input_devices s) (device_var s) (samplerate_var s) (channels_var s)
    (level_var s) (status s) (start_btn s) (stop_btn s) (thread s)
    (dialogs s) (streams s) (fs s).
Definition set_samplerate (r : Z) (s : state) : state :=
  mk_state (recording s) (frames s) (device s) r (channels s) (dtype s)
    (q s) (input_devices s) (device_var s) (samplerate_var s) (channels_var s)
    (level_var s) (status s) (start_btn s) (stop_btn s) (thread s)
    (dialogs s) (streams s) (fs s).
Definition set_channels (c : Z) (s : state) : state :=
  mk_state (recording s) (frames s) (device s) (samplerate s) c (dtype s)
    (q s) (input_devices s) (device_var s) (samplerate_var s) (channels_var s)
    (level_var s) (status s) (start_btn s) (stop_btn s) (thread s)
    (dialogs s) (streams s) (fs s).
Definition set_q (l : list sample_block) (s : state) : state :=
  mk_state (recording s) (frames s) (device s) (samplerate s) (channels s)
    (dtype s) l (input_devices s) (device_var s) (samplerate_var s)
    (channels_var s) (level_var s) (status s) (start_btn s) (stop_btn s)
    (thread s) (dialogs s) (streams s) (fs s).
Definition set_level (v : level) (s : state) : state :=
  mk_state (recording s) (frames s) (device s) (samplerate s) (channels s)
    (dtype s) (q s) (input_devices s) (device_var s) (samplerate_var s)
    (channels_var s) v (status s) (start_btn s) (stop_btn s)
    (thread s) (dialogs s) (streams s) (fs s).
Definition set_status (t : status_text) (s : state) : state :=
  mk_state (recording s) (frames s) (device s) (samplerate s) (channels s)
    (dtype s) (q s) (input_devices s) (device_var s) (samplerate_var s)
    (channels_var s) (level_var s) t (start_btn s) (stop_btn s)
    (thread s) (dialogs s) (streams s) (fs s).
Definition set_buttons (start stop : bool) (s : state) : state :=
  mk_state (recording s) (frames s) (device s) (samplerate s) (channels s)
    (dtype s) (q s) (input_devices s) (device_var s) (samplerate_var s)
    (channels_var s) (level_var s) (status s) start stop
    (thread s) (dialogs s) (streams s) (fs s).
Definition set_thread (pc : consumer_pc) (s : state) : state :=
  mk_state (recording s) (frames s) (device s) (samplerate s) (channels s)
    (dtype s) (q s) (input_devices s) (device_var s) (samplerate_var s)
    (channels_var s) (level_var s) (status s) (start_btn s) (stop_btn s)
    pc (dialogs s) (streams s) (fs s).
Definition show (d : dialog) (s : state) : state :=
  mk_state (recording s) (frames s) (device s) (samplerate s) (channels s)
    (dtype s) (q s) (input_devices s) (device_var s) (samplerate_var s)
    (channels_var s) (level_var s) (status s) (start_btn s) (stop_btn s)
    (thread s) (dialogs s ++ [d]) (streams s) (fs s).
Definition log_stream (p : stream_params) (s : state) : state :=
  mk_state (recording s) (frames s) (device s) (samplerate s) (channels s)
    (dtype s) (q s) (input_devices s) (device_var s) (samplerate_var s)
    (channels_var s) (level_var s) (status s) (start_btn s) (stop_btn s)
    (thread s) (dialogs s) (streams s ++ [p]) (fs s).
Definition set_fs (f : filesystem) (s : state) : state :=
  mk_state (recording s) (frames s) (device s) (samplerate s) (channels s)
    (dtype s) (q s) (input_devices s) (device_var s) (samplerate_var s)
    (channels_var s) (level_var s) (status s) (start_btn s) (stop_btn s)
    (thread s) (dialogs s) (streams s) f.

(** [__init__] followed by [setup_ui], for the devices found at start. *)
Definition init (device_list : list device_info) : state :=
  let input_devices := input_devices_of device_list in
  mk_state false [] None 48000 2 "float32" [] input_devices
    (match input_devices with
     | (_, d) :: _ => name d
     | [] => "No devices found"
     end)
    "48000" "2 (Stereo)" LevelZero StatusReady true false NoThread [] [] ∅.

(** [refresh_devices], for the device list the driver reports now.  The
    list of input devices is replaced and the device variable is set to
    the first name of the new list.  The function ends with the "Devices
    Refreshed" box, which no other function shows; the number in it is
    returned beside the state. *)
Definition refresh_devices (device_list : list device_info) (s : state)
  : nat * state :=
  let input_devices := input_devices_of device_list in
  let device_names := map (fun p => name (snd p)) input_devices in
  (length device_names,
   mk_state (recording s) (frames s) (device s) (samplerate s) (channels s)
     (dtype s) (q s) input_devices
     (match device_names with
      | n :: _ => n
      | [] => "No devices found"
      end)
     (samplerate_var s) (channels_var s) (level_var s) (status s)
     (start_btn s) (stop_btn s) (thread s) (dialogs s) (streams s) (fs s)).

(** [callback]: runs on the driver's thread, once per block. *)
Definition callback (indata : sample_block) (s : state) : state :=
  set_q (q s ++ [indata]) (set_level (LevelOf indata) s).

(** [next((idx for idx, d in self.input_devices if d['name'] == device_name),
          None)] *)
Fixpoint find_by_name (device_name : string)
    (input_devices : list (nat * device_info)) : option nat :=
  match input_devices with
  | [] => None
  | (idx, d) :: rest =>
      if String.eqb (name d) device_name then Some idx
      else find_by_name device_name rest
  end.

(** The [try] block of [start_recording]: [None] when it raises. *)
Definition negotiate (e : env) (idx : nat) (s : state) : option state :=
  match query_device e idx with
  | None => None
  | Some device_info =>
      match Py.int (samplerate_var s) with
      | None => None
      | Some requested_rate =>
          let s1 :=
            if check_input_settings e idx requested_rate
            then set_samplerate requested_rate s
            else
              let s' := set_samplerate (default_samplerate device_info) s in
              show (InfoSampleRateAdjusted requested_rate (samplerate s')) s' in
          let s2 :=
            set_channels (if Py.contains "Mono" (channels_var s1) then 1 else 2) s1 in
          let max_channels := max_input_channels device_info in
          if max_channels <? channels s2
          then Some (show (InfoChannelsAdjusted max_channels)
                          (set_channels max_channels s2))
          else Some s2
      end
  end.

(** [start_recording] *)
Definition start_recording (e : env) (s : state) : state :=
  let device_name := device_var s in
  if String.eqb device_name EmptyString || String.eqb device_name "No devices found"
  then show WarnSelectDevice s
  else
    let s1 := set_device (find_by_name device_name (input_devices s)) s in
    match device s1 with
    | None => show ErrDeviceNotFound s1
    | Some idx =>
        match negotiate e idx s1 with
        | None => show ErrQueryingDevice s1
        | Some s2 =>
            let s3 := set_recording true (set_frames [] (set_q [] s2)) in
            let s4 := set_thread Launched s3 in
            set_status StatusRecording (set_buttons false true s4)
        end
    end.

(** The arguments of the [sd.InputStream(...)] call of [recording_thread]. *)
Definition stream_request (s : state) : stream_params :=
  mk_stream (Some (samplerate s)) (device s) (channels s) (dtype s) (Some 1024).

(** [wavfile.write(file_path, self.samplerate, ...)] *)
Definition write_wav (e : env) (path : string) (audio : sample_block)
    (s : state) : option state :=
  let f := if String.eqb (dtype s) "float32"
           then wav_of_int16 (samplerate s) (Quantize.quantize audio)
           else wav_of_float32 (samplerate s) audio in
  if writable e path then Some (set_fs (<[path := f]> (fs s)) s) else None.

(** The [try] block of [stop_recording]: [None] when it raises. *)
Definition flush (e : env) (s : state) : option state :=
  match np_concatenate (frames s) with
  | None => None
  | Some audio =>
      if samplerate s =? 0 then None
      else
        let file_path := asksaveasfilename e in
        if String.eqb file_path EmptyString then
          Some (set_status StatusReady (show WarnSaveCancelled s))
        else
          match write_wav e file_path audio s with
          | None => None
          | Some s1 =>
              Some (set_status StatusReady (show (InfoSaved file_path) s1))
          end
  end.

(** [stop_recording] runs on the Tk thread and waits in the middle, in
    [self.thread.join(timeout=2.0)], while the consumer thread and the
    driver go on.  It is therefore modelled in two parts, with the actions
    of the other threads in between (see [step]).

    The first part, up to the [join]: a call while not recording returns
    at once; otherwise the flag is cleared and the status label says
    "Stopping recording...". *)
Definition stop_recording_enter (s : state) : state :=
  if negb (recording s) then s
  else set_status StatusStopping (set_recording false s).

(** The second part, from the end of the [join]: the buttons and the level
    meter are reset, and the frames are tested and concatenated as they
    are now, after whatever the consumer appended during the [join]. *)
Definition stop_recording_exit (e : env) (s : state) : state :=
  let s2 := set_level LevelZero (set_buttons true false s) in
  match frames s2 with
  | [] => set_status StatusReady (show WarnNoAudioRecorded s2)
  | _ =>
      let s3 := set_status StatusProcessing s2 in
      match flush e s3 with
      | Some s4 => s4
      | None => set_status StatusErrorReady (show ErrSavingFile s3)
      end
  end.

(** A call of [stop_recording] during which no other thread acts: it
    returns at its first test when the flag is clear, and runs both parts
    otherwise. *)
Definition stop_recording (e : env) (s : state) : state :=
  if negb (recording s) then s
  else stop_recording_exit e (stop_recording_enter s).

(** The [except] handler of [recording_thread].  It clears the flag and
    schedules two calls on the Tk loop.  The first is a lambda that builds
    the text of the "Recording Error" box from the handler's variable [e],
    which Python unbinds when the handler ends: the box appears only if
    Tk runs the lambda before that ([lambda_in_time]); otherwise the
    lambda raises [NameError], which Tk reports on the console.  The
    second is [stop_recording], which finds the flag already clear. *)
Definition stream_error (e : env) (s : state) : state :=
  let s1 := set_thread Finished (set_recording false s) in
  let s2 := if lambda_in_time e then show ErrRecording s1 else s1 in
  stop_recording e s2.

(** What the three parties of a session do, one atomic action at a time. *)
Inductive event : Type :=
  | ThreadStarts                              (* thread opens the stream *)
  | Callback (indata : sample_block)          (* driver delivers a block *)
  | ConsumerStep                              (* consumer thread moves on *)
  | StopPressed                               (* the Stop button, when enabled *)
  | JoinReturns.                              (* the [join] of [stop_recording] ends *)

(** One action; [None] when the action cannot happen in that state (no
    callback without an open stream, no progress of a consumer waiting on
    an empty queue).  The Stop button runs [stop_recording] up to its
    [join].  The [join] ends when the thread has finished or when the two
    seconds are over; the model has no clock, so it may end at any moment
    while the status label says "Stopping recording...", which it does
    exactly between the two parts.  A thread whose stream fails to open
    while the Tk thread waits in the [join] cannot get its two calls
    scheduled before the [join] is over, so its failure is placed after
    it. *)
Definition step (e : env) (s : state) (ev : event) : option state :=
  match ev with
  | ThreadStarts =>
      match thread s with
      | Launched =>
          if stream_opens e
          then Some (set_thread AtWhile (log_stream (stream_request s) s))
          else
            match status s with
            | StatusStopping => None
            | _ => Some (stream_error e (log_stream (stream_request s) s))
            end
      | _ => None
      end
  | Callback indata =>
      match thread s with
      | AtWhile | AtGet => Some (callback indata s)
      | _ => None
      end
  | ConsumerStep =>
      match thread s with
      | AtWhile =>
          if recording s then Some (set_thread AtGet s)
          else Some (set_thread Finished s)
      | AtGet =>
          match q s with
          | [] => None
          | indata :: rest =>
              Some (set_thread AtWhile
                      (set_frames (frames s ++ [indata]) (set_q rest s)))
          end
      | _ => None
      end
  | StopPressed =>
      if stop_btn s then Some (stop_recording_enter s) else None
  | JoinReturns =>
      match status s with
      | StatusStopping => Some (stop_recording_exit e s)
      | _ => None
      end
  end.

Fixpoint run (e : env) (s : state) (evs : list event) : option state :=
  match evs with
  | [] => Some s
  | ev :: evs' =>
      match step e s ev with
      | Some s' => run e s' evs'
      | None => None
      end
  end.

(** The whole life of the window: the Start button (when enabled) and
    the actions of the sessions it starts. *)
Inductive action : Type :=
  | StartPressed
  | During (ev : event).

Definition act (e : env) (s : state) (a : action) : option state :=
  match a with
  | StartPressed =>
      if start_btn s then Some (start_recording e s) else None
  | During ev => step e s ev
  end.

Fixpoint lifetime (e : env) (s : state) (acts : list action) : option state :=
  match acts with
  | [] => Some s
  | a :: acts' =>
      match act e s a with
      | Some s' => lifetime e s' acts'
      | None => None
      end
  end.

(** A schedule in which the consumer takes each block off the queue
    before the driver delivers the next one. *)
Definition lockstep (bs : list sample_block) : list event :=
  flat_map (fun indata => [Callback indata; ConsumerStep; ConsumerStep]) bs.

(** The blocks handed to the callback during a run, in order. *)
Fixpoint pushed (evs : list event) : list sample_block :=
  match evs with
  | [] => []
  | Callback indata :: evs' => indata :: pushed evs'
  | _ :: evs' => pushed evs'
  end.

End Gui.

(** ** Concrete situations used to exercise the statements below *)

Module Scenario.

Local Open Scope string_scope.
Local Open Scope Z_scope.

(** A stereo microphone whose only supported rate is its default. *)
Definition mic : device_info := mk_device "Built-in Microphone" 2 44100.

(** Two stereo blocks of two frames each. *)
Definition block1 : sample_block :=
  mk_ndarray 2 [[Quantize.half; Float32.one]; [S754_zero false; Quantize.half]].
Definition block2 : sample_block :=
  mk_ndarray 2 [[SFopp Float32.one; Quantize.half]; [Quantize.half; Quantize.half]].

(** A machine without ffmpeg; the user stops the recording with Ctrl+C
    after two blocks. *)
Definition cli_env : Cli.env :=
  Cli.mk_env false [mic] (fun _ rate => rate =? 44100)
    (Cli.mk_session true [block1; block2] Cli.Interrupted)
    (fun _ => true) Cli.NotStarted "20240101_120000".

(** The same machine with ffmpeg installed but failing with status 1. *)
Definition cli_env_ffmpeg_fails : Cli.env :=
  Cli.mk_env true [mic] (fun _ rate => rate =? 44100)
    (Cli.mk_session true [block1; block2] Cli.Interrupted)
    (fun _ => true) (Cli.Exited 1 "Conversion failed!" None)
    "20240101_120000".

(** ... and with ffmpeg exceeding the time limit. *)
Definition cli_env_ffmpeg_hangs : Cli.env :=
  Cli.mk_env true [mic] (fun _ rate => rate =? 44100)
    (Cli.mk_session true [block1; block2] Cli.Interrupted)
    (fun _ => true) (Cli.TimedOut None) "20240101_120000".

(** The user picks device 0, accepts the default rate and channel count
    and names the output file. *)
Definition cli_inputs : list Cli.input_event :=
  [Cli.Typed "0"; Cli.Typed EmptyString; Cli.Typed EmptyString; Cli.Typed "take1.wav"].

(** The recorder after a session of two blocks at 44100 Hz, without and
    with ffmpeg. *)
Definition cli_recorded : Cli.state :=
  Cli.set_samplerate (Some 44100)
    (Cli.set_frames [block1; block2] (Cli.init cli_env)).
Definition cli_recorded_ffmpeg : Cli.state :=
  Cli.set_samplerate (Some 44100)
    (Cli.set_frames [block1; block2] (Cli.init cli_env_ffmpeg_fails)).

(** The two blocks as one array. *)
Definition recorded_audio : sample_block :=
  mk_ndarray 2 (rows block1 ++ rows block2).

Definition gui_env : Gui.env :=
  Gui.mk_env (fun _ => Some mic) (fun _ rate => rate =? 44100) true false
    "take1.wav" (fun _ => true).

(** The same machine with a device that cannot be opened. *)
Definition gui_env_broken : Gui.env :=
  Gui.mk_env (fun _ => Some mic) (fun _ rate => rate =? 44100) false false
    "take1.wav" (fun _ => true).

(** The window after Start has been pressed. *)
Definition gui_started : Gui.state :=
  Gui.start_recording gui_env (Gui.init [mic]).

(** The consumer waits on the queue, which holds one block. *)
Definition gui_waiting : Gui.state :=
  Gui.set_thread Gui.AtGet (Gui.set_q [block1] gui_started).

(** A session in which both blocks go through the queue before Stop; the
    consumer then leaves its loop and the [join] returns. *)
Definition gui_session : list Gui.event :=
  [Gui.ThreadStarts; Gui.Callback block1; Gui.ConsumerStep; Gui.ConsumerStep;
   Gui.Callback block2; Gui.ConsumerStep; Gui.ConsumerStep; Gui.StopPressed;
   Gui.ConsumerStep; Gui.JoinReturns].

End Scenario.

(** ** Predicates used in the statements and proofs below *)

(** A stream request as the GUI makes it. *)
Definition gui_stream_ok (p : stream_params) : Prop :=
  sp_blocksize p = Some 1024 /\ sp_dtype p = "float32"%string.

Definition gui_streams_inv (s : Gui.state) : Prop :=
  Gui.dtype s = "float32"%string /\ Forall gui_stream_ok (Gui.streams s).

(** What a save step of the CLI may produce. *)
Definition save_outcome_ok (s : Cli.state) (r : Cli.outcome bool) : Prop :=
  match r with
  | Cli.Return true s' =>
      Cli.console s `prefix_of` Cli.console s'
      /\ exists path format,
           last (Cli.console s') = Some (Cli.FileSaved path format)
  | Cli.Return false s' =>
      exists m, last (Cli.console s') = Some m
                /\ Cli.is_failure_notice m = true
  | Cli.Raise x _ => Cli.is_Exception x = true
  end.

(** What the console shows when [run] hands back a status. *)
Definition exit_status_ok (code : Z) (s : Cli.state) : Prop :=
  (code = 0
   /\ last (Cli.console s) = Some Cli.AllDone
   /\ In Cli.RecordingStoppedByUser (Cli.console s)
   /\ exists path format, In (Cli.FileSaved path format) (Cli.console s))
  \/ (code = 1
      /\ exists m, last (Cli.console s) = Some m
                   /\ Cli.is_failure_notice m = true).

(** The lines [select_device] prints for a rejected answer. *)
Definition device_retry (m : Cli.msg) : Prop :=
  m = Cli.EnterValidNumber \/ m = Cli.InvalidDeviceNumber.



Definition gui_in_session (s : Gui.state) : Prop :=
  Gui.start_btn s = false /\ Gui.stop_btn s = true
  /\ Gui.recording s = true /\ Gui.status s = Gui.StatusRecording.



(** The window after a failed stream: the session is over, but the label
    and the buttons are those of a running session. *)
Definition gui_stuck (s : Gui.state) : Prop :=
  Gui.recording s = false /\ Gui.status s = Gui.StatusRecording
  /\ Gui.start_btn s = false /\ Gui.stop_btn s = true
  /\ Gui.thread s = Gui.Finished.

(** The dialogs with which [start_recording] refuses to start. *)
Definition start_refusal (d : Gui.dialog) : Prop :=
  d = Gui.WarnSelectDevice \/ d = Gui.ErrDeviceNotFound
  \/ d = Gui.ErrQueryingDevice.

(** The dialogs with which [stop_recording] ends. *)
Definition stop_notice (e : Gui.env) (d : Gui.dialog) : Prop :=
  d = Gui.WarnNoAudioRecorded \/ d = Gui.InfoSaved (Gui.asksaveasfilename e)
  \/ d = Gui.WarnSaveCancelled \/ d = Gui.ErrSavingFile.

(** * Theorems *)

Lemma iter_pos_nat {A} (f : A -> A) (p : positive) (x : A) :
  SpecFloat.iter_pos f p x = Nat.iter (Pos.to_nat p) f x.
Proof.
  revert x; induction p as [p IH | p IH |]; intros x; cbn [SpecFloat.iter_pos].
  - rewrite !IH, Pos2Nat.inj_xI, <- Nat.iter_add.
    replace (S (2 * Pos.to_nat p)) with (S (Pos.to_nat p + Pos.to_nat p))%nat by lia.
    rewrite Nat.iter_succ_r. reflexivity.
  - rewrite !IH, Pos2Nat.inj_xO, <- Nat.iter_add. f_equal. lia.
  - reflexivity.
Qed.


Lemma shr_1_m mrs : 0 <= shr_m mrs -> shr_m (shr_1 mrs) = shr_m mrs / 2.
Proof.
  destruct mrs as [m r s]; cbn [shr_m]; intros Hm.
  destruct m as [|[p|p|]|p]; cbn [shr_1 shr_m]; try lia.
  - reflexivity.
  - apply Z.div_unique with 1; lia.
  - apply Z.div_unique with 0; lia.
  - reflexivity.
Qed.

Lemma shr_1_inexact mrs :
  0 <= shr_m mrs ->
  inexact (shr_1 mrs) = negb (shr_m mrs mod 2 =? 0) || inexact mrs.
Proof.
  destruct mrs as [m r s]; unfold inexact; cbn [shr_m]; intros Hm.
  destruct m as [|[p|p|]|p]; cbn [shr_1 shr_m shr_r shr_s]; try lia;
    try reflexivity.
  - replace (Z.pos p~1 mod 2) with 1
      by (apply Z.mod_unique with (Z.pos p); lia).
    reflexivity.
  - replace (Z.pos p~0 mod 2) with 0
      by (apply Z.mod_unique with (Z.pos p); lia).
    reflexivity.
Qed.

Lemma shr_iter_spec (n : nat) (mrs : shr_record) :
  0 <= shr_m mrs ->
  shr_m (Nat.iter n shr_1 mrs) = shr_m mrs / 2 ^ Z.of_nat n /\
  inexact (Nat.iter n shr_1 mrs)
    = negb (shr_m mrs mod 2 ^ Z.of_nat n =? 0) || inexact mrs.
Proof.
  intros Hm. induction n as [|n [IHm IHi]].
  - simpl. rewrite Z.div_1_r, Z.mod_1_r. auto.
  - rewrite Nat2Z.inj_succ, Z.pow_succ_r by lia.
    assert (Hp : 0 < 2 ^ Z.of_nat n) by (apply Z.pow_pos_nonneg; lia).
    assert (H0 : 0 <= shr_m (Nat.iter n shr_1 mrs))
      by (rewrite IHm; apply Z.div_pos; lia).
    simpl Nat.iter. split.
    + rewrite shr_1_m, IHm by assumption.
      rewrite Z.div_div by lia. f_equal. lia.
    + rewrite shr_1_inexact, IHm, IHi by assumption.
      rewrite orb_assoc. f_equal.
      set (m := shr_m mrs) in *. set (k := 2 ^ Z.of_nat n) in *.
      rewrite (Z.mul_comm 2 k), Z.rem_mul_r by lia.
      pose proof (Z.mod_pos_bound m k Hp).
      pose proof (Z.mod_pos_bound (m / k) 2 ltac:(lia)).
      destruct (Z.eqb_spec ((m / k) mod 2) 0), (Z.eqb_spec (m mod k) 0),
        (Z.eqb_spec (m mod k + k * ((m / k) mod 2)) 0); simpl; try reflexivity; nia.
Qed.

Lemma digits2_pos_le (m : positive) (k : Z) :
  0 <= k -> Z.pos m < 2 ^ k -> Z.pos (digits2_pos m) <= k.
Proof.
  revert k; induction m as [m IH | m IH |]; intros k Hk Hlt; cbn [digits2_pos].
  - assert (k <> 0) by (intros ->; simpl in Hlt; lia).
    replace k with (Z.succ (k - 1)) in Hlt by lia.
    rewrite Z.pow_succ_r in Hlt by lia.
    specialize (IH (k - 1)). lia.
  - assert (k <> 0) by (intros ->; simpl in Hlt; lia).
    replace k with (Z.succ (k - 1)) in Hlt by lia.
    rewrite Z.pow_succ_r in Hlt by lia.
    specialize (IH (k - 1)). lia.
  - assert (k <> 0) by (intros ->; simpl in Hlt; lia). lia.
Qed.


Lemma shr_record_of_loc_m m l : shr_m (shr_record_of_loc m l) = m.
Proof. destruct l as [|[]]; reflexivity. Qed.

Lemma shr_record_of_loc_inexact m l :
  inexact (shr_record_of_loc m l) = negb (is_exact l).
Proof. destruct l as [|[]]; reflexivity. Qed.

Lemma loc_of_shr_record_exact mrs :
  is_exact (loc_of_shr_record mrs) = negb (inexact mrs).
Proof. destruct mrs as [m [] []]; reflexivity. Qed.

Lemma shr_spec (mrs : shr_record) (e n : Z) :
  0 <= shr_m mrs ->
  let k := Z.max 0 n in
  shr_m (fst (shr mrs e n)) = shr_m mrs / 2 ^ k /\
  snd (shr mrs e n) = e + k /\
  inexact (fst (shr mrs e n)) = negb (shr_m mrs mod 2 ^ k =? 0) || inexact mrs.
Proof.
  intros Hm k. destruct n as [|p|p]; cbn [shr fst snd].
  - subst k. simpl Z.max. rewrite Z.pow_0_r, Z.div_1_r, Z.mod_1_r.
    repeat split; auto. lia.
  - subst k. rewrite Z.max_r by lia.
    rewrite iter_pos_nat.
    destruct (shr_iter_spec (Pos.to_nat p) mrs Hm) as [H1 H2].
    rewrite positive_nat_Z in H1, H2. auto.
  - subst k. rewrite Z.max_l by lia. rewrite Z.pow_0_r, Z.div_1_r, Z.mod_1_r.
    repeat split; auto. lia.
Qed.

Lemma round_nearest_even_bounds m l :
  m <= round_nearest_even m l <= m + 1 /\
  (is_exact l = true -> round_nearest_even m l = m).
Proof.
  destruct l as [|[]]; cbn [round_nearest_even is_exact].
  - split; [lia | reflexivity].
  - destruct (Z.even m); split; try lia; discriminate.
  - split; [lia | discriminate].
  - split; [lia | discriminate].
Qed.

Lemma Zdigits2_le (m k : Z) :
  0 <= m -> 0 <= k -> m < 2 ^ k -> Zdigits2 m <= k.
Proof.
  intros Hm Hk Hlt. destruct m as [|p|p]; cbn [Zdigits2]; try lia.
  now apply digits2_pos_le.
Qed.

Lemma fexp_le_0 (d e : Z) :
  d + e <= 24 -> fexp Float32.prec Float32.emax (d + e) <= 0.
Proof. unfold fexp, emin, Float32.prec, Float32.emax. lia. Qed.

Lemma pow2_split (a b : Z) : 0 <= a -> 0 <= b -> 2 ^ (a + b) = 2 ^ a * 2 ^ b.
Proof. intros. apply Z.pow_add_r; lia. Qed.

(** One rounding step: shifting [m] right to exponent [e'] and rounding to
    nearest stays below any bound that lies on the grid of [e']. *)
Lemma shift_round_le (m g k : Z) (mrs : shr_record) :
  0 <= m -> 0 <= k -> m <= g * 2 ^ k ->
  shr_m mrs = m / 2 ^ k ->
  inexact mrs = negb (m mod 2 ^ k =? 0) ->
  0 <= round_nearest_even (shr_m mrs) (loc_of_shr_record mrs) <= g.
Proof.
  intros Hm Hk Hle Hq Hi.
  assert (Hp : 0 < 2 ^ k) by (apply Z.pow_pos_nonneg; lia).
  pose proof (round_nearest_even_bounds (shr_m mrs) (loc_of_shr_record mrs))
    as [[Hlo Hhi] Hex].
  rewrite loc_of_shr_record_exact, Hi, negb_involutive in Hex.
  pose proof (Z.div_pos m (2 ^ k) Hm Hp) as Hq0.
  assert (Hqg : m / 2 ^ k <= g) by (apply Z.div_le_upper_bound; lia).
  rewrite Hq in *. split; [lia|].
  destruct (Z.eq_dec (m / 2 ^ k) g) as [Heq | Hne]; [|lia].
  rewrite Hex; [lia|]. apply Z.eqb_eq.
  pose proof (Z.div_mod m (2 ^ k) ltac:(lia)) as Hdm.
  pose proof (Z.mod_pos_bound m (2 ^ k) Hp).
  rewrite Heq in Hdm. nia.
Qed.

Lemma binary_round_aux_le (s : bool) (P : positive) (E G : Z) :
  E <= 0 -> 0 < G < 2 ^ 24 -> Z.pos P <= G * 2 ^ (- E) ->
  exists t,
    Float32.trunc
      (binary_round_aux Float32.prec Float32.emax s (Z.pos P) E loc_Exact)
    = Some (cond_Zopp s t) /\ 0 <= t <= G.
Proof.
  intros HE HG HP.
  unfold binary_round_aux, shr_fexp.
  set (n1 := fexp Float32.prec Float32.emax (Zdigits2 (Z.pos P) + E) - E).
  pose proof (shr_spec (shr_record_of_loc (Z.pos P) loc_Exact) E n1) as S1.
  rewrite shr_record_of_loc_m, shr_record_of_loc_inexact in S1.
  cbn [is_exact negb] in S1. rewrite orb_false_r in S1.
  specialize (S1 ltac:(lia)). cbv zeta in S1.
  destruct (shr (shr_record_of_loc (Z.pos P) loc_Exact) E n1) as [mrs1 e1].
  cbn [fst snd] in S1. destruct S1 as (Hm1 & He1 & Hi1).
  set (k1 := Z.max 0 n1) in *.
  assert (Hk1 : 0 <= k1) by lia.
  assert (Hpow : 0 < 2 ^ (- E)) by (apply Z.pow_pos_nonneg; lia).
  (* the first exponent stays non-positive *)
  assert (He1' : e1 <= 0).
  { assert (Zdigits2 (Z.pos P) <= 24 - E).
    { apply Zdigits2_le; try lia.
      replace (24 - E) with (24 + - E) by lia.
      rewrite pow2_split by lia. nia. }
    pose proof (fexp_le_0 (Zdigits2 (Z.pos P)) E ltac:(lia)). lia. }
  assert (Hgrid : G * 2 ^ (- E) = G * 2 ^ (- e1) * 2 ^ k1).
  { replace (- E) with (- e1 + k1) by lia. rewrite pow2_split by lia. ring. }
  pose proof (shift_round_le (Z.pos P) (G * 2 ^ (- e1)) k1 mrs1
                ltac:(lia) Hk1 ltac:(lia) Hm1 Hi1) as HM.
  set (M := round_nearest_even (shr_m mrs1) (loc_of_shr_record mrs1)) in *.
  (* the second, exact, shift *)
  set (n2 := fexp Float32.prec Float32.emax (Zdigits2 M + e1) - e1).
  pose proof (shr_spec (shr_record_of_loc M loc_Exact) e1 n2) as S2.
  rewrite shr_record_of_loc_m in S2.
  specialize (S2 ltac:(lia)). cbv zeta in S2.
  destruct (shr (shr_record_of_loc M loc_Exact) e1 n2) as [mrs2 e2].
  cbn [fst snd] in S2. destruct S2 as (Hm2 & He2 & _).
  set (k2 := Z.max 0 n2) in *.
  assert (Hk2 : 0 <= k2) by lia.
  assert (Hpow1 : 0 < 2 ^ (- e1)) by (apply Z.pow_pos_nonneg; lia).
  assert (He2' : e2 <= 0).
  { assert (Zdigits2 M <= 24 - e1).
    { apply Zdigits2_le; try lia.
      replace (24 - e1) with (24 + - e1) by lia.
      rewrite pow2_split by lia. nia. }
    pose proof (fexp_le_0 (Zdigits2 M) e1 ltac:(lia)). lia. }
  assert (Hp2 : 0 < 2 ^ k2) by (apply Z.pow_pos_nonneg; lia).
  assert (Hpow2 : 0 < 2 ^ (- e2)) by (apply Z.pow_pos_nonneg; lia).
  assert (Hm2' : 0 <= shr_m mrs2 <= G * 2 ^ (- e2)).
  { rewrite Hm2. split; [apply Z.div_pos; lia|].
    apply Z.div_le_upper_bound; [lia|].
    replace (- e1) with (- e2 + k2) in HM by lia.
    rewrite pow2_split in HM by lia. nia. }
  destruct (shr_m mrs2) as [|m|m]; [| |lia].
  - exists 0. destruct s; cbn; split; auto; lia.
  - replace (e2 <=? Float32.emax - Float32.prec) with true
      by (symmetry; apply Z.leb_le; unfold Float32.emax, Float32.prec; lia).
    cbn [Float32.trunc]. eexists; split; [reflexivity|].
    unfold Float32.trunc_mag. destruct e2 as [|p|p]; [| lia |].
    + rewrite Z.pow_0_r in Hm2'. lia.
    + change (- Z.neg p) with (Z.pos p) in Hm2'.
      assert (0 < 2 ^ Z.pos p) by (apply Z.pow_pos_nonneg; lia).
      split; [apply Z.div_pos; lia|].
      apply Z.div_le_upper_bound; lia.
Qed.

Lemma digits2_pos_gt (m : positive) : Z.pos m < 2 ^ Z.pos (digits2_pos m).
Proof.
  induction m as [m IH | m IH |]; cbn [digits2_pos].
  - rewrite Pos2Z.inj_succ, Z.pow_succ_r by lia. lia.
  - rewrite Pos2Z.inj_succ, Z.pow_succ_r by lia. lia.
  - reflexivity.
Qed.

(** A valid binary32 mantissa has at most 24 bits. *)
Lemma valid_mantissa_lt (s : bool) (m : positive) (e : Z) :
  Float32.valid (S754_finite s m e) = true -> Z.pos m < 2 ^ 24.
Proof.
  unfold Float32.valid, valid_binary, bounded, canonical_mantissa.
  intros H. apply andb_prop in H as [H _]. apply Z.eqb_eq in H.
  unfold fexp, emin, Float32.prec, Float32.emax in H.
  pose proof (digits2_pos_gt m) as Hd.
  eapply Z.lt_le_trans; [exact Hd|].
  apply Z.pow_le_mono_r; lia.
Qed.

(** Comparing the magnitude of a finite float with a positive finite one. *)
Lemma SFleb_abs_finite (s : bool) (m m' : positive) (e e' : Z) :
  SFleb (SFabs (S754_finite s m e)) (S754_finite false m' e') = true ->
  e < e' \/ (e = e' /\ (m <= m')%positive).
Proof.
  unfold SFleb, SFabs, SFcompare.
  destruct (Z.compare_spec e e') as [-> | Hlt | Hgt]; intros H.
  - right. split; [reflexivity|].
    change (Pos.compare_cont Eq m m') with (Pos.compare m m') in H.
    unfold Pos.le. destruct (m ?= m')%positive; [discriminate.. | discriminate H].
  - left. exact Hlt.
  - discriminate H.
Qed.

(** [|x| <= 1] read off the representation: [m * 2^e <= 1]. *)
Lemma unit_mantissa_le (s : bool) (m : positive) (e : Z) :
  Float32.valid (S754_finite s m e) = true ->
  Float32.leb (Float32.abs (S754_finite s m e)) Float32.one = true ->
  e <= -23 /\ Z.pos m <= 2 ^ (- e).
Proof.
  intros Hv Hle. pose proof (valid_mantissa_lt s m e Hv) as Hm.
  apply (SFleb_abs_finite s m 8388608 e (-23)) in Hle.
  destruct Hle as [Hlt | [-> Hle]].
  - split; [lia|].
    apply Z.lt_le_incl. eapply Z.lt_le_trans; [exact Hm|].
    apply Z.pow_le_mono_r; lia.
  - split; [apply Z.le_refl|]. change (2 ^ (- -23)) with (Z.pos 8388608).
    apply Pos2Z.pos_le_pos. exact Hle.
Qed.

Lemma wrap16_small (z : Z) : -32768 <= z <= 32767 -> Cast.wrap16 z = z.
Proof.
  intros H. unfold Cast.wrap16. rewrite Z.mod_small by lia. lia.
Qed.

Lemma wrap16_range (z : Z) : -32768 <= Cast.wrap16 z <= 32767.
Proof.
  unfold Cast.wrap16. pose proof (Z.mod_pos_bound (z + 32768) 65536). lia.
Qed.

Lemma wrap16_congr (z : Z) : (Cast.wrap16 z - z) mod 65536 = 0.
Proof.
  unfold Cast.wrap16.
  pose proof (Z.div_mod (z + 32768) 65536 ltac:(lia)) as H.
  replace ((z + 32768) mod 65536 - 32768 - z)
    with (- ((z + 32768) / 65536) * 65536) by lia.
  apply Z.mod_mul; lia.
Qed.

Lemma cvttss2si_fits (x : Float32.float32) (t : Z) :
  Float32.trunc x = Some t -> - 2 ^ 31 <= t < 2 ^ 31 -> Cast.cvttss2si x = t.
Proof.
  intros Ht Hr. unfold Cast.cvttss2si. rewrite Ht.
  destruct (Z.leb_spec (- 2 ^ 31) t), (Z.ltb_spec t (2 ^ 31)); simpl; lia.
Qed.


Lemma quantize_sample_unit (x : Float32.float32) :
  Quantize.in_unit x ->
  Float32.trunc (Float32.mul x Quantize.scale) = Some (Quantize.quantize_sample x)
  /\ -32767 <= Quantize.quantize_sample x <= 32767.
Proof.
  intros [Hv Hle]. unfold Quantize.quantize_sample, Cast.np_int16.
  assert (exists t, Float32.trunc (Float32.mul x Quantize.scale) = Some t
                    /\ -32767 <= t <= 32767) as (t & Ht & Hr).
  { destruct x as [s | s | | s m e].
    - exists 0. split; [reflexivity | lia].
    - destruct s; discriminate.
    - discriminate.
    - destruct (unit_mantissa_le s m e Hv Hle) as [He Hm].
      unfold Float32.mul, Quantize.scale, SFmul.
      destruct (binary_round_aux_le (xorb s false) (m * 16776704) (e + -9) 32767)
        as (t & Ht & Hr); try lia.
      + rewrite Pos2Z.inj_mul.
        replace (- (e + -9)) with (- e + 9) by lia.
        rewrite pow2_split by lia. change (2 ^ 9) with 512. lia.
      + exists (cond_Zopp (xorb s false) t). split; [exact Ht|].
        destruct (xorb s false); cbn; lia. }
  rewrite (cvttss2si_fits _ t Ht) by (change (2 ^ 31) with 2147483648; lia).
  rewrite wrap16_small by lia. auto.
Qed.

(** The truncation is the integer part: for a finite float of magnitude
    [m * 2^e] it is the largest integer not above that magnitude. *)
Lemma trunc_mag_spec (m : positive) (e : Z) :
  match e with
  | Zneg p =>
      Float32.trunc_mag m e * 2 ^ Z.pos p <= Z.pos m
      < (Float32.trunc_mag m e + 1) * 2 ^ Z.pos p
  | _ => Float32.trunc_mag m e = Z.pos m * 2 ^ e
  end.
Proof.
  destruct e as [|p|p]; cbn [Float32.trunc_mag].
  - rewrite Z.pow_0_r. lia.
  - reflexivity.
  - assert (Hp : 0 < 2 ^ Z.pos p) by (apply Z.pow_pos_nonneg; lia).
    pose proof (Z.div_mod (Z.pos m) (2 ^ Z.pos p) ltac:(lia)).
    pose proof (Z.mod_pos_bound (Z.pos m) (2 ^ Z.pos p) Hp). nia.
Qed.

Lemma quantize_rows (audio : sample_block) :
  rows (Quantize.quantize audio)
  = map (map Quantize.quantize_sample) (rows audio).
Proof. reflexivity. Qed.

(** C4: on a buffer whose samples are valid floats in [-1, 1], the written
    16-bit value of every sample is the integer part (rounding toward zero)
    of the single-precision product [x * 32767]; it lies in
    [-32767, 32767], so the 16-bit conversion loses nothing; the shape is
    kept, and the result is a function of the input buffer alone. *)
Theorem C4_quantize_unit_range (audio : sample_block) :
  Forall (Forall Quantize.in_unit) (rows audio) ->
  Forall2 (Forall2 (fun x z =>
             Float32.trunc (Float32.mul x Quantize.scale) = Some z
             /\ -32767 <= z <= 32767))
          (rows audio) (rows (Quantize.quantize audio))
  /\ ncols (Quantize.quantize audio) = ncols audio
  /\ (forall audio' : sample_block,
        rows audio' = rows audio ->
        rows (Quantize.quantize audio') = rows (Quantize.quantize audio)).
Proof.
  intros Hunit. split; [|split].
  - rewrite quantize_rows.
    induction Hunit as [|row rest Hrow _ IH]; cbn [map]; constructor; [|exact IH].
    induction Hrow as [|x xs Hx _ IHrow]; cbn [map]; constructor; [|exact IHrow].
    apply quantize_sample_unit, Hx.
  - reflexivity.
  - intros audio' Hrows. rewrite !quantize_rows, Hrows. reflexivity.
Qed.


Lemma C4_quantize_unit_range_witness :
  Forall2 (Forall2 (fun x z =>
             Float32.trunc (Float32.mul x Quantize.scale) = Some z
             /\ -32767 <= z <= 32767))
          [[Quantize.half; SFopp Float32.one]; [S754_zero false; Float32.one]]
          [[16383; -32767]; [0; 32767]].
Proof.
  apply (C4_quantize_unit_range
           (mk_ndarray 2 [[Quantize.half; SFopp Float32.one];
                          [S754_zero false; Float32.one]])).
  repeat constructor.
Defined.

Lemma wrap16_indefinite : Cast.wrap16 (- 2 ^ 31) = 0.
Proof. reflexivity. Qed.

(** The sample 70000.0: the product with 32767 truncates to 2293690112,
    which does not fit 32 bits.  The written value is 0: neither that
    number reduced modulo 2^16 (-4352) nor the saturated value. *)
Lemma C9_huge_sample_gives_zero :
  Float32.valid Quantize.seventy_thousand = true
  /\ Float32.trunc (Float32.mul Quantize.seventy_thousand Quantize.scale)
     = Some 2293690112
  /\ Quantize.quantize_sample Quantize.seventy_thousand = 0
  /\ Cast.wrap16 2293690112 = -4352
  /\ Cast.saturate16 2293690112 = 32767.
Proof. repeat split; vm_compute; reflexivity. Qed.

(** C9 (amended): there is no clamping step.  Whenever the truncated
    product [t] fits 32 bits but not 16, the written value is [t] reduced
    modulo 2^16 into the signed range, hence differs from [t]; for [t]
    between 32768 and 65535 (samples a little above +1.0) it is
    [t - 65536], a negative number, where a saturating conversion would
    give 32767.  Whenever the product has no integer part (NaN, an
    infinity) or its integer part does not fit 32 bits, the written value
    is 0, which is not the saturated value either. *)
Theorem C9_out_of_range_wraps_or_zero (x : Float32.float32) :
  (forall t : Z,
      Float32.trunc (Float32.mul x Quantize.scale) = Some t ->
      - 2 ^ 31 <= t < 2 ^ 31 ->
      t < -32768 \/ 32767 < t ->
      Quantize.quantize_sample x = Cast.wrap16 t
      /\ -32768 <= Quantize.quantize_sample x <= 32767
      /\ (Quantize.quantize_sample x - t) mod 65536 = 0
      /\ Quantize.quantize_sample x <> t
      /\ (32767 < t < 65536 ->
          Quantize.quantize_sample x = t - 65536
          /\ Quantize.quantize_sample x < 0
          /\ Quantize.quantize_sample x <> Cast.saturate16 t))
  /\ (Float32.trunc (Float32.mul x Quantize.scale) = None ->
      Quantize.quantize_sample x = 0)
  /\ (forall t : Z,
         Float32.trunc (Float32.mul x Quantize.scale) = Some t ->
         t < - 2 ^ 31 \/ 2 ^ 31 <= t ->
         Quantize.quantize_sample x = 0
         /\ Quantize.quantize_sample x <> Cast.saturate16 t).
Proof.
  split; [|split].
  - intros t Ht Hfit Hout.
    assert (Hq : Quantize.quantize_sample x = Cast.wrap16 t).
    { unfold Quantize.quantize_sample, Cast.np_int16.
      now rewrite (cvttss2si_fits _ t Ht Hfit). }
    rewrite Hq. pose proof (wrap16_range t) as Hr.
    pose proof (wrap16_congr t) as Hc.
    split; [reflexivity|]. split; [exact Hr|]. split; [exact Hc|].
    split; [lia|].
    intros [Hlo Hhi].
    assert (Hw : Cast.wrap16 t = t - 65536).
    { unfold Cast.wrap16.
      replace (t + 32768) with ((t - 32768) + 1 * 65536) by lia.
      rewrite Z.mod_add, Z.mod_small by lia. lia. }
    rewrite Hw. unfold Cast.saturate16, Cast.int16_min, Cast.int16_max. lia.
  - intros Hn. unfold Quantize.quantize_sample, Cast.np_int16, Cast.cvttss2si.
    rewrite Hn. exact wrap16_indefinite.
  - intros t Ht Hout.
    assert (Hq : Quantize.quantize_sample x = 0).
    { unfold Quantize.quantize_sample, Cast.np_int16, Cast.cvttss2si.
      rewrite Ht.
      destruct ((- 2 ^ 31 <=? t) && (t <? 2 ^ 31)) eqn:E;
        [|exact wrap16_indefinite].
      apply andb_prop in E as [E1 E2].
      apply Z.leb_le in E1. apply Z.ltb_lt in E2. lia. }
    split; [exact Hq|]. rewrite Hq.
    unfold Cast.saturate16, Cast.int16_min, Cast.int16_max. lia.
Qed.

Lemma C9_out_of_range_wraps_or_zero_witness :
  Quantize.quantize_sample Quantize.just_above_one = -32766
  /\ Cast.saturate16 32770 = 32767
  /\ Quantize.quantize_sample Quantize.seventy_thousand = 0.
Proof.
  destruct (C9_out_of_range_wraps_or_zero Quantize.just_above_one)
    as (Hwrap & _ & _).
  destruct (Hwrap 32770) as (_ & _ & _ & _ & H).
  - vm_compute. reflexivity.
  - change (2 ^ 31) with 2147483648. lia.
  - right. lia.
  - destruct H as (H1 & _); [lia|]. split; [exact H1|].
    split; [reflexivity|].
    destruct (C9_out_of_range_wraps_or_zero Quantize.seventy_thousand)
      as (_ & _ & Hzero).
    destruct (Hzero 2293690112) as (H0 & _).
    + vm_compute. reflexivity.
    + right. change (2 ^ 31) with 2147483648. lia.
    + exact H0.
Defined.

(** *** The GUI session: what each action does to the queue and the frames *)

Lemma gui_flush_buffers (e : Gui.env) (s s' : Gui.state) :
  Gui.flush e s = Some s' ->
  Gui.frames s' = Gui.frames s /\ Gui.q s' = Gui.q s
  /\ Gui.streams s' = Gui.streams s /\ Gui.dtype s' = Gui.dtype s.
Proof.
  unfold Gui.flush, Gui.write_wav.
  destruct (np_concatenate _); [|discriminate].
  destruct (Gui.samplerate s =? 0); [discriminate|].
  destruct (String.eqb _ _); [intros [= <-]; cbn; auto|].
  destruct (Gui.writable _ _); [|discriminate].
  intros [= <-]; cbn; auto.
Qed.

Lemma gui_stop_recording_enter_buffers (s : Gui.state) :
  Gui.frames (Gui.stop_recording_enter s) = Gui.frames s
  /\ Gui.q (Gui.stop_recording_enter s) = Gui.q s
  /\ Gui.streams (Gui.stop_recording_enter s) = Gui.streams s
  /\ Gui.dtype (Gui.stop_recording_enter s) = Gui.dtype s.
Proof.
  unfold Gui.stop_recording_enter.
  destruct (Gui.recording s); cbn; auto.
Qed.

Lemma gui_stop_recording_exit_buffers (e : Gui.env) (s : Gui.state) :
  Gui.frames (Gui.stop_recording_exit e s) = Gui.frames s
  /\ Gui.q (Gui.stop_recording_exit e s) = Gui.q s
  /\ Gui.streams (Gui.stop_recording_exit e s) = Gui.streams s
  /\ Gui.dtype (Gui.stop_recording_exit e s) = Gui.dtype s.
Proof.
  unfold Gui.stop_recording_exit. cbv zeta.
  destruct (Gui.frames (Gui.set_level _ _)) eqn:Hf; [cbn; auto|].
  destruct (Gui.flush e _) as [s4|] eqn:Hfl; [|cbn; auto].
  apply gui_flush_buffers in Hfl as (-> & -> & -> & ->). cbn. auto.
Qed.

Lemma gui_stop_recording_buffers (e : Gui.env) (s : Gui.state) :
  Gui.frames (Gui.stop_recording e s) = Gui.frames s
  /\ Gui.q (Gui.stop_recording e s) = Gui.q s
  /\ Gui.streams (Gui.stop_recording e s) = Gui.streams s
  /\ Gui.dtype (Gui.stop_recording e s) = Gui.dtype s.
Proof.
  unfold Gui.stop_recording.
  destruct (Gui.recording s); cbn [negb]; [|auto].
  destruct (gui_stop_recording_exit_buffers e (Gui.stop_recording_enter s))
    as (-> & -> & -> & ->).
  apply gui_stop_recording_enter_buffers.
Qed.

Lemma gui_stream_error_buffers (e : Gui.env) (s : Gui.state) :
  Gui.frames (Gui.stream_error e s) = Gui.frames s
  /\ Gui.q (Gui.stream_error e s) = Gui.q s
  /\ Gui.streams (Gui.stream_error e s) = Gui.streams s
  /\ Gui.dtype (Gui.stream_error e s) = Gui.dtype s.
Proof.
  unfold Gui.stream_error. cbv zeta.
  match goal with
  | |- context [Gui.stop_recording e ?s2] =>
      destruct (gui_stop_recording_buffers e s2) as (-> & -> & -> & ->)
  end.
  destruct (Gui.lambda_in_time e); cbn; auto.
Qed.

(** Every action keeps [frames ++ q] as it is, except the callback, which
    adds its block at the end. *)
Lemma gui_step_buffers (e : Gui.env) (s s' : Gui.state) (ev : Gui.event) :
  Gui.step e s ev = Some s' ->
  Gui.frames s' ++ Gui.q s'
  = (Gui.frames s ++ Gui.q s) ++ Gui.pushed [ev].
Proof.
  destruct ev as [|indata| | |]; cbn [Gui.step Gui.pushed].
  - destruct (Gui.thread s); try discriminate.
    destruct (Gui.stream_opens e).
    + intros [= <-]. cbn. now rewrite app_nil_r.
    + destruct (Gui.status s); try discriminate; intros [= <-];
        destruct (gui_stream_error_buffers e
                    (Gui.log_stream (Gui.stream_request s) s)) as (-> & -> & _);
        cbn; now rewrite app_nil_r.
  - destruct (Gui.thread s); try discriminate; intros [= <-]; cbn;
      now rewrite app_assoc.
  - destruct (Gui.thread s); try discriminate.
    + destruct (Gui.recording s); intros [= <-]; cbn; now rewrite app_nil_r.
    + destruct (Gui.q s) as [|b rest] eqn:Hq; try discriminate.
      intros [= <-]. cbn. now rewrite app_nil_r, <- app_assoc.
  - destruct (Gui.stop_btn s); try discriminate. intros [= <-].
    destruct (gui_stop_recording_enter_buffers s) as (-> & -> & _).
    now rewrite app_nil_r.
  - destruct (Gui.status s); try discriminate. intros [= <-].
    destruct (gui_stop_recording_exit_buffers e s) as (-> & -> & _).
    now rewrite app_nil_r.
Qed.

Lemma gui_pushed_app (evs1 evs2 : list Gui.event) :
  Gui.pushed (evs1 ++ evs2) = Gui.pushed evs1 ++ Gui.pushed evs2.
Proof.
  induction evs1 as [|ev evs1 IH]; [reflexivity|].
  destruct ev; cbn; now rewrite IH.
Qed.

Lemma gui_run_buffers (e : Gui.env) (evs : list Gui.event) (s s' : Gui.state) :
  Gui.run e s evs = Some s' ->
  Gui.frames s' ++ Gui.q s' = (Gui.frames s ++ Gui.q s) ++ Gui.pushed evs.
Proof.
  revert s; induction evs as [|ev evs IH]; intros s; cbn [Gui.run].
  - intros [= <-]. cbn. now rewrite app_nil_r.
  - destruct (Gui.step e s ev) as [s1|] eqn:Hstep; [|discriminate].
    intros Hrun. rewrite (IH _ Hrun), (gui_step_buffers _ _ _ _ Hstep).
    change (ev :: evs) with ([ev] ++ evs).
    now rewrite gui_pushed_app, app_assoc.
Qed.

(** [np.concatenate] lays the rows of the blocks end to end, in list
    order. *)
Lemma np_concatenate_rows {A} (l : list (ndarray A)) (a : ndarray A) :
  np_concatenate l = Some a -> rows a = concat (map rows l).
Proof.
  destruct l as [|b l]; cbn; [discriminate|].
  destruct (forallb _ l); [|discriminate]. now intros [= <-].
Qed.

(** The CLI callback run over the delivered blocks appends them in order. *)
Lemma cli_callbacks_frames (bs : list sample_block) (s : Cli.state) :
  Cli.frames (fold_left (fun st indata => Cli.callback indata st) bs s)
  = Cli.frames s ++ bs.
Proof.
  revert s; induction bs as [|b bs IH]; intros s; cbn [fold_left].
  - now rewrite app_nil_r.
  - rewrite IH. cbn. now rewrite <- app_assoc.
Qed.

Lemma cli_record_frames (e : Cli.env) (s : Cli.state) :
  Cli.opens (Cli.capture e) = true ->
  exists b s', Cli.record e s = Cli.Return b s'
               /\ Cli.frames s' = Cli.delivered (Cli.capture e)
               /\ Cli.recording s' = false.
Proof.
  intros Ho. unfold Cli.record. rewrite Ho.
  destruct (Cli.ending (Cli.capture e)); eexists _, _;
    (split; [reflexivity|]); cbn; rewrite cli_callbacks_frames; auto.
Qed.

(** Blocks of one width concatenate, to an array of that width. *)
Lemma np_concatenate_uniform (c : nat) (b : sample_block) (bs : list sample_block) :
  Forall (fun x => ncols x = c) (b :: bs) ->
  np_concatenate (b :: bs)
  = Some (mk_ndarray c (concat (map rows (b :: bs)))).
Proof.
  intros H. apply Forall_cons in H as [Hb Hbs]. unfold np_concatenate.
  replace (forallb (fun x => Nat.eqb (ncols x) (ncols b)) bs) with true.
  - now rewrite Hb.
  - symmetry. apply forallb_forall. intros x Hx.
    rewrite Forall_forall in Hbs. apply Nat.eqb_eq.
    rewrite Hb. apply Hbs. now apply list_elem_of_In.
Qed.

(** What the second part of [stop_recording] writes when there are
    frames, the dialog gives a name and the file can be written. *)
Lemma gui_stop_recording_exit_saves (e : Gui.env) (s : Gui.state)
    (nchannels : nat) :
  Gui.frames s <> [] ->
  Forall (fun indata => ncols indata = nchannels) (Gui.frames s) ->
  Gui.dtype s = "float32"%string ->
  Gui.samplerate s <> 0 ->
  Gui.asksaveasfilename e <> EmptyString ->
  Gui.writable e (Gui.asksaveasfilename e) = true ->
  Gui.fs (Gui.stop_recording_exit e s)
  = <[Gui.asksaveasfilename e :=
        WavPCM (Gui.samplerate s) nchannels 16
          (map (map Quantize.quantize_sample)
               (concat (map rows (Gui.frames s))))]> (Gui.fs s)
  /\ Gui.dialogs (Gui.stop_recording_exit e s)
     = Gui.dialogs s ++ [Gui.InfoSaved (Gui.asksaveasfilename e)]
  /\ Gui.status (Gui.stop_recording_exit e s) = Gui.StatusReady.
Proof.
  intros Hne Hcols Hd Hr Hp Hw.
  unfold Gui.stop_recording_exit. cbv zeta.
  change (Gui.frames (Gui.set_level _ _)) with (Gui.frames s).
  destruct (Gui.frames s) as [|b bs] eqn:Hf; [contradiction|].
  unfold Gui.flush.
  change (Gui.frames (Gui.set_status _ _)) with (Gui.frames s).
  rewrite Hf, (np_concatenate_uniform nchannels b bs Hcols).
  change (Gui.samplerate (Gui.set_status _ _)) with (Gui.samplerate s).
  apply Z.eqb_neq in Hr. rewrite Hr.
  apply String.eqb_neq in Hp. rewrite Hp.
  unfold Gui.write_wav.
  change (Gui.dtype (Gui.set_status _ _)) with (Gui.dtype s).
  rewrite Hd, Hw. cbn. auto.
Qed.

(** A consumer that lags behind: both blocks are delivered before it takes
    the first one; after Stop it leaves its loop, and the second block is
    still in the queue when the buffer is flushed.  The file holds the rows
    of the first block only. *)
Lemma C3_queued_block_is_lost :
  exists s,
    Gui.run Scenario.gui_env Scenario.gui_started
      [Gui.ThreadStarts; Gui.Callback Scenario.block1;
       Gui.Callback Scenario.block2; Gui.ConsumerStep; Gui.ConsumerStep;
       Gui.StopPressed; Gui.ConsumerStep; Gui.JoinReturns] = Some s
    /\ Gui.thread s = Gui.Finished
    /\ Gui.q s = [Scenario.block2]
    /\ Gui.fs s !! "take1.wav"%string
       = Some (WavPCM 44100 2 16 [[16383; 32767]; [0; 16383]])
    /\ Gui.fs s !! "take1.wav"%string
       <> Some (WavPCM 44100 2 16
                  (map (map Quantize.quantize_sample)
                       (concat (map rows [Scenario.block1; Scenario.block2])))).
Proof.
  eexists. split; [vm_compute; reflexivity|].
  split; [reflexivity|]. split; [reflexivity|].
  split; [vm_compute; reflexivity|]. vm_compute. discriminate.
Qed.

(** C3 (amended): in a GUI session that starts with an empty queue and no
    frames, after any interleaving of callbacks, consumer steps, Stop and
    the end of its join, the blocks handed to the callback are, in order,
    the frames followed by what still waits in the queue.  When the join
    of [stop_recording] ends in such a state and the recording is saved,
    the file holds the quantised rows of the frames, laid end to end: the
    blocks the consumer had taken off the queue by then, in push order,
    each once.  The blocks still in the queue are not in the file; the
    file holds every pushed block exactly when the queue is empty at that
    moment.  In the CLI, which has no queue, the frames after [record] are
    the delivered blocks, in order. *)
Theorem C3_flush_writes_dequeued_blocks :
  (forall (e : Gui.env) (s0 s : Gui.state) (evs : list Gui.event),
      Gui.frames s0 = [] -> Gui.q s0 = [] ->
      Gui.run e s0 evs = Some s ->
      Gui.pushed evs = Gui.frames s ++ Gui.q s
      /\ forall (s' : Gui.state) (nchannels : nat),
           Gui.step e s Gui.JoinReturns = Some s' ->
           Gui.frames s <> [] ->
           Forall (fun indata => ncols indata = nchannels) (Gui.frames s) ->
           Gui.dtype s = "float32"%string ->
           Gui.samplerate s <> 0 ->
           Gui.asksaveasfilename e <> EmptyString ->
           Gui.writable e (Gui.asksaveasfilename e) = true ->
           Gui.fs s'
           = <[Gui.asksaveasfilename e :=
                 WavPCM (Gui.samplerate s) nchannels 16
                   (map (map Quantize.quantize_sample)
                        (concat (map rows
                                   (take (length (Gui.frames s))
                                         (Gui.pushed evs)))))]> (Gui.fs s)
           /\ (Gui.q s = [] ->
               Gui.fs s'
               = <[Gui.asksaveasfilename e :=
                     WavPCM (Gui.samplerate s) nchannels 16
                       (map (map Quantize.quantize_sample)
                            (concat (map rows (Gui.pushed evs))))]>
                   (Gui.fs s)))
  /\ (forall (e : Cli.env) (s : Cli.state),
         Cli.opens (Cli.capture e) = true ->
         exists b s', Cli.record e s = Cli.Return b s'
                      /\ Cli.frames s' = Cli.delivered (Cli.capture e)).
Proof.
  split.
  - intros e s0 s evs Hf Hq Hrun.
    pose proof (gui_run_buffers e evs s0 s Hrun) as H.
    rewrite Hf, Hq in H. cbn in H. symmetry in H. split; [exact H|].
    intros s' nchannels Hstep Hne Hcols Hd Hr Hp Hw.
    cbn [Gui.step] in Hstep.
    destruct (Gui.status s); try discriminate. injection Hstep as <-.
    destruct (gui_stop_recording_exit_saves e s nchannels Hne Hcols Hd Hr Hp Hw)
      as (Hfs & _).
    assert (Htake : take (length (Gui.frames s)) (Gui.pushed evs)
                    = Gui.frames s).
    { rewrite H. apply take_app_length. }
    split.
    + rewrite Htake. exact Hfs.
    + intros Hq'. rewrite H, Hq', app_nil_r. exact Hfs.
  - intros e s Ho. destruct (cli_record_frames e s Ho) as (b & s' & H1 & H2 & _).
    eauto.
Qed.

Lemma C3_flush_writes_dequeued_blocks_witness :
  exists s,
    Gui.run Scenario.gui_env Scenario.gui_started
      [Gui.ThreadStarts; Gui.Callback Scenario.block1; Gui.ConsumerStep;
       Gui.ConsumerStep; Gui.Callback Scenario.block2; Gui.ConsumerStep;
       Gui.ConsumerStep; Gui.StopPressed; Gui.ConsumerStep] = Some s
    /\ Gui.fs (Gui.stop_recording_exit Scenario.gui_env s) !! "take1.wav"%string
       = Some (WavPCM 44100 2 16
                 [[16383; 32767]; [0; 16383]; [-32767; 16383]; [16383; 16383]]).
Proof.
  destruct (Gui.run Scenario.gui_env Scenario.gui_started
              [Gui.ThreadStarts; Gui.Callback Scenario.block1; Gui.ConsumerStep;
               Gui.ConsumerStep; Gui.Callback Scenario.block2; Gui.ConsumerStep;
               Gui.ConsumerStep; Gui.StopPressed; Gui.ConsumerStep])
    as [s|] eqn:Hrun; [|vm_compute in Hrun; discriminate Hrun].
  exists s. split; [reflexivity|].
  destruct (proj1 C3_flush_writes_dequeued_blocks Scenario.gui_env
              Scenario.gui_started s _ eq_refl eq_refl Hrun) as [_ Hfile].
  vm_compute in Hrun. injection Hrun as <-.
  destruct (Hfile _ 2%nat eq_refl ltac:(discriminate)
              ltac:(repeat constructor) eq_refl ltac:(discriminate)
              ltac:(discriminate) eq_refl) as [_ Hall].
  rewrite (Hall eq_refl), lookup_insert_eq. vm_compute. reflexivity.
Defined.

(** Such complete runs exist for every list of blocks: with the consumer
    keeping up, all of them end up in the frames. *)
Lemma gui_lockstep_drains (e : Gui.env) (bs : list sample_block) (s : Gui.state) :
  Gui.thread s = Gui.AtWhile -> Gui.recording s = true -> Gui.q s = [] ->
  exists s', Gui.run e s (Gui.lockstep bs) = Some s'
             /\ Gui.frames s' = Gui.frames s ++ bs
             /\ Gui.q s' = [] /\ Gui.thread s' = Gui.AtWhile
             /\ Gui.recording s' = true.
Proof.
  revert s; induction bs as [|b bs IH]; intros s Ht Hr Hq.
  - exists s. cbn. rewrite app_nil_r. auto.
  - set (s1 := Gui.set_thread Gui.AtWhile
                 (Gui.set_frames (Gui.frames s ++ [b])
                    (Gui.set_q []
                       (Gui.set_thread Gui.AtGet (Gui.callback b s))))).
    assert (H3 : Gui.run e s (Gui.lockstep (b :: bs))
                 = Gui.run e s1 (Gui.lockstep bs)).
    { cbn [Gui.lockstep flat_map app Gui.run].
      cbn [Gui.step]. rewrite Ht.
      change (Gui.thread (Gui.callback b s)) with (Gui.thread s).
      rewrite Ht.
      change (Gui.recording (Gui.callback b s)) with (Gui.recording s).
      rewrite Hr.
      change (Gui.thread (Gui.set_thread Gui.AtGet (Gui.callback b s)))
        with Gui.AtGet.
      change (Gui.q (Gui.set_thread Gui.AtGet (Gui.callback b s)))
        with (Gui.q s ++ [b]).
      rewrite Hq. reflexivity. }
    destruct (IH s1) as (s' & Hrun & Hf & Hq' & Ht' & Hr');
      [reflexivity | exact Hr | reflexivity |].
    exists s'. rewrite H3. split; [exact Hrun|]. rewrite Hf.
    change (Gui.frames s1) with (Gui.frames s ++ [b]).
    rewrite <- app_assoc. auto.
Qed.




(** *** Stream parameters *)

Lemma gui_negotiate_streams (e : Gui.env) (idx : nat) (s s' : Gui.state) :
  Gui.negotiate e idx s = Some s' ->
  Gui.dtype s' = Gui.dtype s /\ Gui.streams s' = Gui.streams s.
Proof.
  unfold Gui.negotiate.
  destruct (Gui.query_device e idx); [|discriminate].
  destruct (Py.int _); [|discriminate].
  destruct (Gui.check_input_settings e idx z);
    destruct (_ <? _); intros [= <-]; cbn; auto.
Qed.

Lemma gui_start_recording_streams (e : Gui.env) (s : Gui.state) :
  Gui.dtype (Gui.start_recording e s) = Gui.dtype s
  /\ Gui.streams (Gui.start_recording e s) = Gui.streams s.
Proof.
  unfold Gui.start_recording.
  destruct (_ || _); [cbn; auto|]. cbv zeta.
  destruct (Gui.device (Gui.set_device _ s)); [|cbn; auto].
  destruct (Gui.negotiate e n _) as [s2|] eqn:Hn; [|cbn; auto].
  apply gui_negotiate_streams in Hn as [Hd Hs]. cbn in *. auto.
Qed.

Lemma gui_step_streams_inv (e : Gui.env) (s s' : Gui.state) (ev : Gui.event) :
  Gui.step e s ev = Some s' -> gui_streams_inv s -> gui_streams_inv s'.
Proof.
  intros Hstep [Hd Hs]. unfold gui_streams_inv.
  assert (Hreq : gui_stream_ok (Gui.stream_request s)) by (split; [reflexivity | exact Hd]).
  destruct ev as [|indata| | |]; cbn [Gui.step] in Hstep.
  - destruct (Gui.thread s); try discriminate.
    destruct (Gui.stream_opens e).
    + injection Hstep as <-.
      cbn. split; [exact Hd|]. apply Forall_app; split; [exact Hs|].
      constructor; [exact Hreq | constructor].
    + destruct (Gui.status s); try discriminate; injection Hstep as <-;
        destruct (gui_stream_error_buffers e
                    (Gui.log_stream (Gui.stream_request s) s))
          as (_ & _ & -> & ->);
        cbn; (split; [exact Hd|]); (apply Forall_app; split; [exact Hs|]);
        (constructor; [exact Hreq | constructor]).
  - destruct (Gui.thread s); try discriminate; injection Hstep as <-; cbn; auto.
  - destruct (Gui.thread s); try discriminate.
    + destruct (Gui.recording s); injection Hstep as <-; cbn; auto.
    + destruct (Gui.q s); [discriminate|]. injection Hstep as <-; cbn; auto.
  - destruct (Gui.stop_btn s); [|discriminate]. injection Hstep as <-.
    destruct (gui_stop_recording_enter_buffers s) as (_ & _ & -> & ->). auto.
  - destruct (Gui.status s); try discriminate. injection Hstep as <-.
    destruct (gui_stop_recording_exit_buffers e s) as (_ & _ & -> & ->). auto.
Qed.

Lemma gui_lifetime_streams_inv (e : Gui.env) (acts : list Gui.action)
    (s s' : Gui.state) :
  Gui.lifetime e s acts = Some s' -> gui_streams_inv s -> gui_streams_inv s'.
Proof.
  revert s; induction acts as [|a acts IH]; intros s; cbn [Gui.lifetime].
  - now intros [= <-].
  - destruct (Gui.act e s a) as [s1|] eqn:Hact; [|discriminate].
    intros Hrun Hinv. apply (IH s1 Hrun).
    destruct a as [|ev]; cbn [Gui.act] in Hact.
    + destruct (Gui.start_btn s); [|discriminate]. injection Hact as <-.
      destruct Hinv as [Hd Hs]. unfold gui_streams_inv.
      destruct (gui_start_recording_streams e s) as [-> ->]. auto.
    + eapply gui_step_streams_inv; eauto.
Qed.

(** The stream that the CLI opens in the concrete run carries no block
    size at all. *)
Lemma C8_cli_stream_without_blocksize :
  exists p,
    In p (Cli.streams (snd (Cli.main Scenario.cli_env Scenario.cli_inputs)))
    /\ sp_blocksize p <> Some 1024.
Proof.
  exists (mk_stream (Some 44100) (Some 0%nat) 2 "float32" None).
  split; [vm_compute; auto | discriminate].
Qed.

(** C8 (amended): whatever the user does in the GUI window, every stream
    its sessions open is requested with a block size of 1024 frames and the
    [float32] sample format.  The CLI's [record] opens its stream with the
    recorder's sample format, [float32] for a recorder as created, and
    passes no block size. *)
Theorem C8_stream_parameters :
  (forall (e : Gui.env) (device_list : list device_info)
          (acts : list Gui.action) (s : Gui.state),
      Gui.lifetime e (Gui.init device_list) acts = Some s ->
      Forall (fun p => sp_blocksize p = Some 1024
                       /\ sp_dtype p = "float32"%string) (Gui.streams s))
  /\ (forall (e : Cli.env) (s : Cli.state),
         exists b s',
           Cli.record e s = Cli.Return b s'
           /\ Cli.streams s'
              = Cli.streams s
                ++ [mk_stream (Cli.samplerate s) (Cli.device s)
                              (Cli.channels s) (Cli.dtype s) None])
  /\ (forall e : Cli.env, Cli.dtype (Cli.init e) = "float32"%string).
Proof.
  split; [|split].
  - intros e device_list acts s Hrun.
    apply (gui_lifetime_streams_inv e acts _ s Hrun).
    split; [reflexivity | constructor].
  - intros e s. unfold Cli.record.
    destruct (Cli.opens (Cli.capture e)).
    + destruct (Cli.ending (Cli.capture e)); eexists _, _;
        (split; [reflexivity|]); cbn.
      * generalize (Cli.delivered (Cli.capture e)).
        intros bs.
        match goal with
        | |- Cli.streams (fold_left ?f bs ?s0) = _ =>
            assert (H : forall l st, Cli.streams (fold_left f l st) = Cli.streams st)
            by (induction l; intros; cbn; [reflexivity | now rewrite IHl]);
            now rewrite H
        end.
      * generalize (Cli.delivered (Cli.capture e)).
        intros bs.
        match goal with
        | |- Cli.streams (fold_left ?f bs ?s0) = _ =>
            assert (H : forall l st, Cli.streams (fold_left f l st) = Cli.streams st)
            by (induction l; intros; cbn; [reflexivity | now rewrite IHl]);
            now rewrite H
        end.
    + eexists _, _. split; reflexivity.
  - reflexivity.
Qed.

Lemma C8_stream_parameters_witness :
  exists s,
    Gui.lifetime Scenario.gui_env (Gui.init [Scenario.mic])
      (Gui.StartPressed :: map Gui.During Scenario.gui_session) = Some s
    /\ Forall (fun p => sp_blocksize p = Some 1024
                        /\ sp_dtype p = "float32"%string) (Gui.streams s).
Proof.
  destruct (Gui.lifetime Scenario.gui_env (Gui.init [Scenario.mic])
              (Gui.StartPressed :: map Gui.During Scenario.gui_session))
    as [s|] eqn:Hrun; [|vm_compute in Hrun; discriminate].
  exists s. split; [reflexivity|].
  exact (proj1 C8_stream_parameters _ _ _ _ Hrun).
Defined.

(** *** The CLI prompts *)

Lemma cli_untouched_refl (s : Cli.state) : Cli.untouched_by_prompts s s.
Proof. repeat split. Qed.

Lemma cli_untouched_trans (s1 s2 s3 : Cli.state) :
  Cli.untouched_by_prompts s1 s2 -> Cli.untouched_by_prompts s2 s3 ->
  Cli.untouched_by_prompts s1 s3.
Proof.
  unfold Cli.untouched_by_prompts.
  intros (?&?&?&?&?&?&?) (?&?&?&?&?&?&?). repeat split; congruence.
Qed.

Lemma cli_select_device_untouched (devs : list (nat * device_info))
    (ins : list Cli.input_event) (s : Cli.state) :
  Cli.untouched_by_prompts s (Cli.state_of (fst (Cli.select_device devs ins s))).
Proof.
  revert s; induction ins as [|i ins IH]; intros s; cbn [Cli.select_device].
  - apply cli_untouched_refl.
  - destruct i as [line|]; [|repeat split].
    destruct (Py.int _) as [n|].
    + destruct (Cli.find_device n devs) as [[idx d]|]; [repeat split|].
      eapply cli_untouched_trans; [|apply IH]. repeat split.
    + eapply cli_untouched_trans; [|apply IH]. repeat split.
Qed.

Lemma cli_select_samplerate_untouched (e : Cli.env) (d : device_info)
    (ins : list Cli.input_event) (s : Cli.state) :
  Cli.untouched_by_prompts s
    (Cli.state_of (fst (Cli.select_samplerate e d ins s)))
  /\ Cli.device (Cli.state_of (fst (Cli.select_samplerate e d ins s)))
     = Cli.device s.
Proof.
  revert s; induction ins as [|i ins IH]; intros s; cbn [Cli.select_samplerate].
  - split; [apply cli_untouched_refl | reflexivity].
  - destruct i as [line|]; [|split; [repeat split | reflexivity]].
    cbv zeta. destruct (Py.int _) as [n|].
    + destruct (Cli.sample_rates n) as [rate|].
      * destruct (Cli.check_input_settings e _ rate);
          (split; [repeat split | reflexivity]).
      * destruct (IH (Cli.print Cli.InvalidRateChoice
                        (Cli.set_samplerate None s))) as [H1 H2].
        split; [|exact H2].
        eapply cli_untouched_trans; [|exact H1]. repeat split.
    + destruct (IH (Cli.print Cli.InvalidInput s)) as [H1 H2].
      split; [|exact H2].
      eapply cli_untouched_trans; [|exact H1]. repeat split.
Qed.

Lemma cli_select_channels_untouched (d : device_info)
    (ins : list Cli.input_event) (s : Cli.state) :
  Cli.untouched_by_prompts s (Cli.state_of (fst (Cli.select_channels d ins s)))
  /\ Cli.samplerate (Cli.state_of (fst (Cli.select_channels d ins s)))
     = Cli.samplerate s
  /\ Cli.device (Cli.state_of (fst (Cli.select_channels d ins s)))
     = Cli.device s.
Proof.
  revert s; induction ins as [|i ins IH]; intros s; cbn [Cli.select_channels].
  - split; [apply cli_untouched_refl | split; reflexivity].
  - destruct i as [line|]; [|split; [repeat split | split; reflexivity]].
    cbv zeta. destruct (Py.int _) as [n|].
    + destruct (n =? 1); [split; [repeat split | split; reflexivity]|].
      destruct (_ && _); [split; [repeat split | split; reflexivity]|].
      destruct (IH (Cli.print Cli.InvalidChannelChoice s)) as (H1 & H2 & H3).
      split; [|split; assumption].
      eapply cli_untouched_trans; [|exact H1]. repeat split.
    + destruct (IH (Cli.print Cli.InvalidInput s)) as (H1 & H2 & H3).
      split; [|split; assumption].
      eapply cli_untouched_trans; [|exact H1]. repeat split.
Qed.

Lemma cli_configure_recording_untouched (e : Cli.env) (d : device_info)
    (ins : list Cli.input_event) (s : Cli.state) :
  Cli.untouched_by_prompts s
    (Cli.state_of (fst (Cli.configure_recording e d ins s))).
Proof.
  unfold Cli.configure_recording.
  pose proof (cli_select_samplerate_untouched e d ins s) as [H1 _].
  destruct (Cli.select_samplerate e d ins s) as [[u s1|x s1] ins1];
    cbn [fst Cli.state_of] in *; [|exact H1].
  pose proof (cli_select_channels_untouched d ins1 s1) as [H2 _].
  destruct (Cli.select_channels d ins1 s1) as [[u2 s2|x s2] ins2];
    cbn [fst Cli.state_of] in *.
  - eapply cli_untouched_trans; [exact H1|].
    eapply cli_untouched_trans; [exact H2|]. repeat split.
  - eapply cli_untouched_trans; eassumption.
Qed.

(** No action of a session sets the recording flag. *)
Lemma gui_step_recording_false (e : Gui.env) (s s' : Gui.state)
    (ev : Gui.event) :
  Gui.step e s ev = Some s' -> Gui.recording s = false ->
  Gui.recording s' = false.
Proof.
  intros Hstep Hr. destruct ev as [|indata| | |]; cbn [Gui.step] in Hstep.
  - destruct (Gui.thread s); try discriminate.
    destruct (Gui.stream_opens e).
    + injection Hstep as <-. exact Hr.
    + destruct (Gui.status s); try discriminate; injection Hstep as <-;
        unfold Gui.stream_error, Gui.stop_recording;
        destruct (Gui.lambda_in_time e); reflexivity.
  - destruct (Gui.thread s); try discriminate; injection Hstep as <-;
      exact Hr.
  - destruct (Gui.thread s); try discriminate.
    + destruct (Gui.recording s) eqn:E; injection Hstep as <-; cbn; congruence.
    + destruct (Gui.q s); [discriminate|]. injection Hstep as <-. exact Hr.
  - destruct (Gui.stop_btn s); [|discriminate]. injection Hstep as <-.
    unfold Gui.stop_recording_enter. rewrite Hr. exact Hr.
  - destruct (Gui.status s); try discriminate. injection Hstep as <-.
    unfold Gui.stop_recording_exit. cbv zeta.
    destruct (Gui.frames _); [exact Hr|].
    destruct (Gui.flush e _) as [s4|] eqn:Hfl; [|exact Hr].
    revert Hfl. unfold Gui.flush, Gui.write_wav.
    destruct (np_concatenate _); [|discriminate].
    destruct (Gui.samplerate _ =? 0); [discriminate|].
    destruct (String.eqb _ _); [intros [= <-]; exact Hr|].
    destruct (Gui.writable _ _); [|discriminate].
    intros [= <-]; exact Hr.
Qed.

Lemma gui_run_recording_false (e : Gui.env) (evs : list Gui.event)
    (s s' : Gui.state) :
  Gui.run e s evs = Some s' -> Gui.recording s = false ->
  Gui.recording s' = false.
Proof.
  revert s; induction evs as [|ev evs IH]; intros s; cbn [Gui.run].
  - intros [= <-]. auto.
  - destruct (Gui.step e s ev) as [s1|] eqn:Hstep; [|discriminate].
    intros Hrun Hr. apply (IH _ Hrun).
    exact (gui_step_recording_false _ _ _ _ Hstep Hr).
Qed.

(** The stream of the session cannot be opened.  No block is captured and
    the session is over, yet no "No audio was recorded." warning is shown,
    the status label still says "Recording...", Start stays disabled, and
    pressing Stop changes nothing: the handler has cleared the flag before
    the [stop_recording] it schedules runs, which therefore returns at its
    first test. *)
Lemma C5_stream_error_leaves_window_stuck :
  exists s,
    Gui.lifetime Scenario.gui_env_broken (Gui.init [Scenario.mic])
      [Gui.StartPressed; Gui.During Gui.ThreadStarts] = Some s
    /\ Gui.frames s = [] /\ Gui.recording s = false
    /\ Gui.thread s = Gui.Finished
    /\ ~ In Gui.WarnNoAudioRecorded (Gui.dialogs s)
    /\ Gui.status s = Gui.StatusRecording
    /\ Gui.start_btn s = false /\ Gui.stop_btn s = true
    /\ Gui.act Scenario.gui_env_broken s Gui.StartPressed = None
    /\ Gui.act Scenario.gui_env_broken s (Gui.During Gui.StopPressed) = Some s
    /\ Gui.act Scenario.gui_env_broken s (Gui.During Gui.JoinReturns) = None.
Proof.
  eexists. split; [vm_compute; reflexivity|].
  repeat split; try (vm_compute; reflexivity).
  intros H. vm_compute in H. intuition discriminate.
Qed.

(** C5: when the user stops a session, the recording flag stays cleared
    from the press of Stop on, whatever the other threads do during the
    join; when the join ends and no block has been captured, no file is
    written, the "No audio was recorded." warning is the only new dialog
    and the window is ready again (status "Ready", Start enabled, Stop
    disabled).  In the CLI, saving with no frames writes no file, prints
    the "no audio frames" notice and reports failure, and [record] always
    leaves the recording flag cleared. *)
Theorem C5_nothing_recorded :
  (forall (e : Gui.env) (s s1 s2 s' : Gui.state) (evs : list Gui.event),
      Gui.recording s = true ->
      Gui.step e s Gui.StopPressed = Some s1 ->
      Gui.run e s1 evs = Some s2 ->
      Gui.step e s2 Gui.JoinReturns = Some s' ->
      Gui.frames s2 = [] ->
      Gui.status s1 = Gui.StatusStopping
      /\ Gui.fs s' = Gui.fs s2
      /\ Gui.dialogs s' = Gui.dialogs s2 ++ [Gui.WarnNoAudioRecorded]
      /\ Gui.status s' = Gui.StatusReady
      /\ Gui.recording s' = false
      /\ Gui.start_btn s' = true /\ Gui.stop_btn s' = false)
  /\ (forall (e : Cli.env) (output_path : string) (s : Cli.state),
         Cli.frames s = [] ->
         exists s', Cli.save_recording e output_path s = Cli.Return false s'
                    /\ Cli.fs s' = Cli.fs s
                    /\ Cli.console s' = Cli.console s ++ [Cli.NoFramesToSave])
  /\ (forall (e : Cli.env) (s : Cli.state),
         Cli.recording (Cli.state_of (Cli.record e s)) = false).
Proof.
  split; [|split].
  - intros e s s1 s2 s' evs Hr Hstop Hrun Hjoin Hf.
    cbn [Gui.step] in Hstop, Hjoin.
    destruct (Gui.stop_btn s); [|discriminate]. injection Hstop as <-.
    assert (Hr1 : Gui.recording (Gui.stop_recording_enter s) = false).
    { unfold Gui.stop_recording_enter. rewrite Hr. reflexivity. }
    pose proof (gui_run_recording_false _ _ _ _ Hrun Hr1) as Hr2.
    split; [unfold Gui.stop_recording_enter; rewrite Hr; reflexivity|].
    destruct (Gui.status s2); try discriminate. injection Hjoin as <-.
    unfold Gui.stop_recording_exit. cbv zeta.
    change (Gui.frames (Gui.set_level _ _)) with (Gui.frames s2).
    rewrite Hf. cbn. repeat split. exact Hr2.
  - intros e output_path s Hf. unfold Cli.save_recording. rewrite Hf.
    eexists. split; [reflexivity|]. cbn. repeat split.
  - intros e s. unfold Cli.record.
    destruct (Cli.opens (Cli.capture e)); [|reflexivity].
    destruct (Cli.ending (Cli.capture e)); reflexivity.
Qed.

Lemma C5_nothing_recorded_witness :
  let s := Gui.set_thread Gui.AtWhile
             (Gui.log_stream (Gui.stream_request Scenario.gui_started)
                Scenario.gui_started) in
  let s2 := Gui.set_thread Gui.Finished (Gui.stop_recording_enter s) in
  let s' := Gui.stop_recording_exit Scenario.gui_env s2 in
  Gui.run Scenario.gui_env Scenario.gui_started
    [Gui.ThreadStarts; Gui.StopPressed; Gui.ConsumerStep; Gui.JoinReturns]
  = Some s'
  /\ Gui.fs s' = Gui.fs s2
  /\ Gui.dialogs s' = Gui.dialogs s2 ++ [Gui.WarnNoAudioRecorded]
  /\ Gui.status s' = Gui.StatusReady.
Proof.
  intros s s2 s'. split; [reflexivity|].
  destruct (proj1 C5_nothing_recorded Scenario.gui_env s
              (Gui.stop_recording_enter s) s2 s' [Gui.ConsumerStep]
              eq_refl eq_refl eq_refl eq_refl eq_refl)
    as (_ & H1 & H2 & H3 & _).
  split; [exact H1|]. split; [exact H2 | exact H3].
Defined.

(** C6: when the rate chosen in the GUI is rejected, [start_recording]
    sets the session's rate to the default that the device reports, shows
    the "Sample Rate Adjusted" box naming both rates, starts the session,
    and the stream is requested at the substituted rate.  When the rate
    chosen at the CLI prompt is rejected, the recorder's rate becomes the
    device's default and two console lines say so; the channel prompt
    keeps that rate and [record] requests the stream with it. *)
Theorem C6_unsupported_rate_falls_back :
  (forall (e : Gui.env) (s : Gui.state) (idx : nat) (info : device_info)
          (requested : Z),
      Gui.device_var s <> EmptyString ->
      Gui.device_var s <> "No devices found"%string ->
      Gui.find_by_name (Gui.device_var s) (Gui.input_devices s) = Some idx ->
      Gui.query_device e idx = Some info ->
      Py.int (Gui.samplerate_var s) = Some requested ->
      Gui.check_input_settings e idx requested = false ->
      let s' := Gui.start_recording e s in
      Gui.samplerate s' = default_samplerate info
      /\ In (Gui.InfoSampleRateAdjusted requested (default_samplerate info))
            (Gui.dialogs s')
      /\ Gui.recording s' = true /\ Gui.thread s' = Gui.Launched
      /\ sp_samplerate (Gui.stream_request s')
         = Some (default_samplerate info))
  /\ (forall (e : Cli.env) (d : device_info) (line : string)
             (ins : list Cli.input_event) (s : Cli.state) (n rate : Z),
         Py.int (Py.or_default (Py.strip line) "2") = Some n ->
         Cli.sample_rates n = Some rate ->
         Cli.check_input_settings e (Cli.device s) rate = false ->
         exists s1 ins1,
           Cli.select_samplerate e d (Cli.Typed line :: ins) s
           = (Cli.Return tt s1, ins1)
           /\ Cli.samplerate s1 = Some (default_samplerate d)
           /\ Cli.console s1
              = Cli.console s
                ++ [Cli.DeviceDoesNotSupport rate;
                    Cli.UsingDeviceDefault (default_samplerate d)]
           /\ (forall s2 ins2,
                  Cli.select_channels d ins1 s1 = (Cli.Return tt s2, ins2) ->
                  Cli.samplerate s2 = Some (default_samplerate d)
                  /\ exists b s3,
                       Cli.record e s2 = Cli.Return b s3
                       /\ exists p, Cli.streams s3 = Cli.streams s2 ++ [p]
                                    /\ sp_samplerate p
                                       = Some (default_samplerate d))).
Proof.
  split.
  - intros e s idx info requested Hne1 Hne2 Hfind Hq Hint Hcheck.
    unfold Gui.start_recording.
    apply String.eqb_neq in Hne1, Hne2. rewrite Hne1, Hne2. cbn [orb].
    cbv zeta.
    change (Gui.device (Gui.set_device
              (Gui.find_by_name (Gui.device_var s) (Gui.input_devices s)) s))
      with (Gui.find_by_name (Gui.device_var s) (Gui.input_devices s)).
    rewrite Hfind. unfold Gui.negotiate. rewrite Hq.
    change (Gui.samplerate_var (Gui.set_device _ s))
      with (Gui.samplerate_var s).
    rewrite Hint, Hcheck. cbv zeta.
    destruct (_ <? _); cbn; repeat split; auto using in_or_app, in_eq.
  - intros e d line ins s n rate Hint Hrate Hcheck.
    cbn [Cli.select_samplerate]. cbv zeta. rewrite Hint, Hrate.
    change (Cli.device (Cli.set_samplerate (Some rate) s))
      with (Cli.device s).
    rewrite Hcheck. eexists _, _. split; [reflexivity|].
    split; [reflexivity|]. split; [cbn; now rewrite <- app_assoc|].
    intros s2 ins2 Hch.
    match type of Hch with
    | Cli.select_channels d ins ?st = _ =>
        pose proof (cli_select_channels_untouched d ins st) as (_ & Hsr & _)
    end.
    rewrite Hch in Hsr. cbn [fst Cli.state_of] in Hsr.
    split; [exact Hsr|].
    unfold Cli.record. destruct (Cli.opens (Cli.capture e)).
    + assert (H : forall l st,
                 Cli.streams (fold_left (fun st0 indata => Cli.callback indata st0) l st)
                 = Cli.streams st)
        by (induction l; intros; cbn; [reflexivity | now rewrite IHl]).
      destruct (Cli.ending (Cli.capture e)); eexists _, _;
        (split; [reflexivity|]); eexists; cbn; rewrite H; cbn;
        (split; [reflexivity|]); cbn; exact Hsr.
    + eexists _, _. split; [reflexivity|]. eexists. cbn.
      split; [reflexivity|]. exact Hsr.
Qed.

Lemma C6_unsupported_rate_falls_back_witness :
  Gui.samplerate Scenario.gui_started = 44100
  /\ In (Gui.InfoSampleRateAdjusted 48000 44100)
        (Gui.dialogs Scenario.gui_started).
Proof.
  destruct (proj1 C6_unsupported_rate_falls_back
              Scenario.gui_env (Gui.init [Scenario.mic]) 0%nat Scenario.mic 48000)
    as (H1 & H2 & _); try reflexivity; try discriminate.
  split; [exact H1 | exact H2].
Defined.

(** *** Paths *)

Lemma before_last_dot_split (p h : string) :
  Py.before_last_dot p = Some h ->
  exists ext, p = String.append h (String "."%char ext).
Proof.
  revert h; induction p as [|c p IH]; intros h; cbn [Py.before_last_dot].
  - discriminate.
  - destruct (Py.before_last_dot p) as [h'|].
    + intros [= <-]. destruct (IH h' eq_refl) as [ext ->].
      exists ext. reflexivity.
    + destruct (Ascii.eqb_spec c "."%char) as [->|]; [|discriminate].
      intros [= <-]. exists p. reflexivity.
Qed.

Lemma append_cancel_l (h a b : string) :
  String.append h a = String.append h b -> a = b.
Proof.
  induction h as [|c h IH]; [auto|].
  change (String c (String.append h a) = String c (String.append h b) -> a = b).
  intros [= H]. auto.
Qed.

Lemma append_length (a b : string) :
  String.length (String.append a b) = (String.length a + String.length b)%nat.
Proof.
  induction a as [|c a IH]; [reflexivity|].
  change (S (String.length (String.append a b))
          = S (String.length a + String.length b))%nat.
  now rewrite IH.
Qed.

(** The temporary file never has the name of the requested output. *)
Lemma temp_wav_not_output (p : string) :
  String.append (Py.rsplit_dot_head p) "_temp.wav" <> p.
Proof.
  unfold Py.rsplit_dot_head.
  destruct (Py.before_last_dot p) as [h|] eqn:Hd.
  - destruct (before_last_dot_split p h Hd) as [ext ->].
    intros H. apply append_cancel_l in H. discriminate.
  - intros H. apply (f_equal String.length) in H.
    rewrite append_length in H. cbn in H. lia.
Qed.

(** *** Saving *)

Lemma cli_write_wav_ok (e : Cli.env) (path : string) (audio : sample_block)
    (s : Cli.state) (rate : Z) :
  Cli.samplerate s = Some rate -> Cli.dtype s = "float32"%string ->
  Cli.writable e path = true ->
  Cli.write_wav e path audio s
  = Cli.Return tt
      (Cli.set_fs (<[path := wav_of_int16 rate (Quantize.quantize audio)]>
                     (Cli.fs s)) s).
Proof.
  intros Hr Hd Hw. unfold Cli.write_wav. now rewrite Hr, Hd, Hw.
Qed.

(** C7: without ffmpeg, saving a recording under an [.m4a] or [.aac] name
    succeeds by writing a WAV file next to it (same stem, [.wav]).  Its
    header carries the session's sample rate, as many channels as the
    blocks of the session have columns, and 16 bits; its data are the
    quantised rows of all blocks in order; and the console reports that
    ffmpeg is missing and that WAV is used instead. *)
Theorem C7_no_ffmpeg_falls_back_to_wav
    (e : Cli.env) (output_path : string) (s : Cli.state) (rate : Z)
    (nchannels : nat) :
  Cli.has_ffmpeg s = false ->
  Cli.dtype s = "float32"%string ->
  Cli.samplerate s = Some rate -> rate <> 0 ->
  Cli.frames s <> [] ->
  Z.of_nat nchannels = Cli.channels s ->
  Forall (fun indata => ncols indata = nchannels) (Cli.frames s) ->
  Py.endswith (Py.lower output_path) ".m4a"
  || Py.endswith (Py.lower output_path) ".aac" = true ->
  Cli.writable e (String.append (Py.rsplit_dot_head output_path) ".wav") = true ->
  let wav_path := String.append (Py.rsplit_dot_head output_path) ".wav" in
  let data := map (map Quantize.quantize_sample)
                  (concat (map rows (Cli.frames s))) in
  exists s',
    Cli.save_recording e output_path s = Cli.Return true s'
    /\ Cli.fs s' = <[wav_path := WavPCM rate nchannels 16 data]> (Cli.fs s)
    /\ Cli.fs s' !! wav_path = Some (WavPCM rate nchannels 16 data)
    /\ Cli.console s'
       = Cli.console s
         ++ [Cli.AudioData (length data); Cli.FfmpegNotAvailable;
             Cli.FallingBackToWav; Cli.SavingAsWav wav_path;
             Cli.FileSaved wav_path "16-bit PCM WAV"].
Proof.
  intros Hff Hd Hr Hr0 Hne Hch Hcols Hext Hw wav_path data.
  unfold Cli.save_recording.
  destruct (Cli.frames s) as [|b bs] eqn:Hf; [contradiction|].
  unfold Cli.save_body. rewrite Hf.
  rewrite (np_concatenate_uniform nchannels b bs Hcols), Hr.
  apply Z.eqb_neq in Hr0. rewrite Hr0. cbv zeta.
  assert (Hnonempty : String.eqb output_path EmptyString = false).
  { apply String.eqb_neq. intros ->. cbn in Hext. discriminate. }
  rewrite Hnonempty, Hext.
  unfold Cli._save_as_aac.
  change (Cli.has_ffmpeg (Cli.print _ s)) with (Cli.has_ffmpeg s).
  rewrite Hff. cbn [negb]. cbv zeta.
  unfold Cli._save_as_wav.
  erewrite cli_write_wav_ok; [|exact Hr | exact Hd | exact Hw].
  eexists. split; [reflexivity|].
  assert (Hfs : forall m : filesystem,
             <[String.append (Py.rsplit_dot_head output_path) ".wav" :=
                 wav_of_int16 rate
                   (Quantize.quantize
                      (mk_ndarray nchannels (concat (map rows (b :: bs)))))]> m
             = <[wav_path := WavPCM rate nchannels 16 data]> m) by reflexivity.
  split; [cbn; apply Hfs|]. split.
  - cbn. rewrite Hfs. apply lookup_insert_eq.
  - cbn. unfold nd_len, data. cbn. rewrite !length_map.
    now rewrite <- !app_assoc.
Qed.

Lemma C7_no_ffmpeg_falls_back_to_wav_witness :
  exists s',
    Cli.save_recording Scenario.cli_env "take1.m4a" Scenario.cli_recorded
    = Cli.Return true s'
    /\ Cli.fs s' !! "take1.wav"%string
       = Some (WavPCM 44100 2 16
                 [[16383; 32767]; [0; 16383]; [-32767; 16383]; [16383; 16383]]).
Proof.
  destruct (C7_no_ffmpeg_falls_back_to_wav
              Scenario.cli_env "take1.m4a" Scenario.cli_recorded 44100 2)
    as (s' & Hsave & _ & Hfile & _);
    try reflexivity; try discriminate.
  - repeat constructor.
  - exists s'. split; [exact Hsave | exact Hfile].
Defined.

Lemma cli_remove_if_exists_lookup (path : string) (s : Cli.state) :
  Cli.fs (Cli.remove_if_exists path s) !! path = None.
Proof.
  unfold Cli.remove_if_exists.
  destruct (Cli.fs s !! path) eqn:H; [cbn; apply lookup_delete_eq | exact H].
Qed.

Lemma cli_remove_if_exists_console (path : string) (s : Cli.state) :
  Cli.console (Cli.remove_if_exists path s) = Cli.console s.
Proof. unfold Cli.remove_if_exists. now destruct (Cli.fs s !! path). Qed.

(** C10: when ffmpeg runs and exits with a non-zero status, [_save_as_aac]
    returns [False] after printing the ffmpeg error; the temporary WAV it
    wrote is still on disk, and apart from whatever the encoder left at the
    output path that temporary file is the only change to the disk: no WAV
    is written as a fallback.  When ffmpeg exceeds the time limit instead,
    the temporary WAV is removed before [False] is returned. *)
Theorem C10_ffmpeg_failure_keeps_temp_wav :
  (forall (e : Cli.env) (audio : sample_block) (output_path : string)
          (s : Cli.state) (rate returncode : Z) (stderr : string)
          (written : option file),
      Cli.has_ffmpeg s = true ->
      Cli.dtype s = "float32"%string ->
      Cli.samplerate s = Some rate ->
      Cli.writable e (String.append (Py.rsplit_dot_head output_path) "_temp.wav")
      = true ->
      Cli.ffmpeg e = Cli.Exited returncode stderr written ->
      returncode <> 0 ->
      let temp_wav := String.append (Py.rsplit_dot_head output_path) "_temp.wav" in
      let wav := wav_of_int16 rate (Quantize.quantize audio) in
      exists s',
        Cli._save_as_aac e audio output_path s = Cli.Return false s'
        /\ Cli.fs s' !! temp_wav = Some wav
        /\ Cli.fs s'
           = match written with
             | Some f => <[output_path := f]> (<[temp_wav := wav]> (Cli.fs s))
             | None => <[temp_wav := wav]> (Cli.fs s)
             end
        /\ Cli.console s'
           = Cli.console s ++ [Cli.SavingAsAac output_path; Cli.FfmpegError stderr])
  /\ (forall (e : Cli.env) (audio : sample_block) (output_path : string)
             (s : Cli.state) (rate : Z) (written : option file),
         Cli.has_ffmpeg s = true ->
         Cli.dtype s = "float32"%string ->
         Cli.samplerate s = Some rate ->
         Cli.writable e (String.append (Py.rsplit_dot_head output_path) "_temp.wav")
         = true ->
         Cli.ffmpeg e = Cli.TimedOut written ->
         let temp_wav :=
           String.append (Py.rsplit_dot_head output_path) "_temp.wav" in
         exists s',
           Cli._save_as_aac e audio output_path s = Cli.Return false s'
           /\ Cli.fs s' !! temp_wav = None
           /\ Cli.console s'
              = Cli.console s ++ [Cli.SavingAsAac output_path; Cli.FfmpegTimedOut]).
Proof.
  split.
  - intros e audio output_path s rate returncode stderr written
           Hff Hd Hr Hw Hrun Hrc temp_wav wav.
    unfold Cli._save_as_aac. rewrite Hff. cbn [negb]. cbv zeta.
    erewrite cli_write_wav_ok; [|exact Hr | exact Hd | exact Hw].
    rewrite Hrun. apply Z.eqb_neq in Hrc. rewrite Hrc. cbn [negb].
    eexists. split; [reflexivity|].
    pose proof (temp_wav_not_output output_path) as Hne.
    fold temp_wav in Hne. fold temp_wav. fold wav.
    destruct written as [f|]; cbn.
    + split; [|split; [reflexivity | now rewrite <- app_assoc]].
      rewrite lookup_insert_ne by congruence. apply lookup_insert_eq.
    + split; [|split; [reflexivity | now rewrite <- app_assoc]].
      apply lookup_insert_eq.
  - intros e audio output_path s rate written Hff Hd Hr Hw Hrun temp_wav.
    unfold Cli._save_as_aac. rewrite Hff. cbn [negb]. cbv zeta.
    erewrite cli_write_wav_ok; [|exact Hr | exact Hd | exact Hw].
    rewrite Hrun. eexists. split; [reflexivity|].
    fold temp_wav. split; [apply cli_remove_if_exists_lookup|].
    rewrite cli_remove_if_exists_console.
    destruct written; cbn; now rewrite <- app_assoc.
Qed.

Lemma C10_ffmpeg_failure_keeps_temp_wav_witness :
  exists s',
    Cli._save_as_aac Scenario.cli_env_ffmpeg_fails Scenario.recorded_audio
      "take1.m4a" Scenario.cli_recorded_ffmpeg = Cli.Return false s'
    /\ Cli.fs s' !! "take1_temp.wav"%string
       = Some (WavPCM 44100 2 16
                 [[16383; 32767]; [0; 16383]; [-32767; 16383]; [16383; 16383]])
    /\ Cli.fs s' !! "take1.wav"%string = None.
Proof.
  destruct (proj1 C10_ffmpeg_failure_keeps_temp_wav
              Scenario.cli_env_ffmpeg_fails Scenario.recorded_audio "take1.m4a"
              Scenario.cli_recorded_ffmpeg 44100 1 "Conversion failed!" None)
    as (s' & Hsave & Hfile & Hfs & _);
    try reflexivity; try discriminate.
  exists s'. split; [exact Hsave|]. split; [exact Hfile|].
  rewrite Hfs. reflexivity.
Defined.

(** *** The exit status of the CLI *)

Lemma cli_last_print (m : Cli.msg) (s : Cli.state) :
  last (Cli.console (Cli.print m s)) = Some m.
Proof. cbn. apply last_snoc. Qed.

Lemma cli_print_prefix (m : Cli.msg) (s : Cli.state) :
  Cli.console s `prefix_of` Cli.console (Cli.print m s).
Proof. cbn. now apply prefix_app_r. Qed.

(** How [record] ends: [True] only after the user's Ctrl+C. *)
Lemma cli_record_outcome (e : Cli.env) (s : Cli.state) :
  (exists s', Cli.record e s = Cli.Return true s'
              /\ In Cli.RecordingStoppedByUser (Cli.console s'))
  \/ (exists s', Cli.record e s = Cli.Return false s'
                 /\ last (Cli.console s')
                    = Some (Cli.RecordingError Cli.PortAudioError)).
Proof.
  unfold Cli.record. destruct (Cli.opens (Cli.capture e)).
  - destruct (Cli.ending (Cli.capture e)).
    + left. eexists. split; [reflexivity|]. cbn.
      apply in_or_app. left. apply in_or_app. right. now left.
    + right. eexists. split; [reflexivity|]. cbn. apply last_snoc.
  - right. eexists. split; [reflexivity|]. cbn. apply last_snoc.
Qed.

Lemma save_outcome_ok_prefix (s0 s : Cli.state) (r : Cli.outcome bool) :
  Cli.console s0 `prefix_of` Cli.console s ->
  save_outcome_ok s r -> save_outcome_ok s0 r.
Proof.
  intros Hp. destruct r as [[] s'|x s']; cbn; auto.
  intros [H1 H2]. split; [|exact H2]. now transitivity (Cli.console s).
Qed.

Lemma cli_save_as_wav_outcome (e : Cli.env) (audio : sample_block)
    (path : string) (s : Cli.state) :
  save_outcome_ok s (Cli._save_as_wav e audio path s).
Proof.
  unfold Cli._save_as_wav, Cli.write_wav.
  change (Cli.samplerate (Cli.print _ s)) with (Cli.samplerate s).
  destruct (Cli.samplerate s); [|reflexivity].
  destruct (Cli.writable e path); [|reflexivity].
  cbn. split; [|eexists _, _; apply last_snoc].
  apply prefix_app_r, prefix_app_r. reflexivity.
Qed.

Lemma cli_aac_failed_outcome (x : Cli.exn) (temp : string) (s0 s : Cli.state) :
  save_outcome_ok s0 (Cli.aac_failed x temp s).
Proof.
  cbn. exists (Cli.AacConversionError x).
  rewrite cli_remove_if_exists_console. split; [apply cli_last_print | reflexivity].
Qed.

Lemma cli_ffmpeg_output_console (w : option file) (path : string) (s : Cli.state) :
  Cli.console (Cli.ffmpeg_output w path s) = Cli.console s.
Proof. now destruct w. Qed.

Lemma cli_save_as_aac_outcome (e : Cli.env) (audio : sample_block)
    (path : string) (s : Cli.state) :
  save_outcome_ok s (Cli._save_as_aac e audio path s).
Proof.
  unfold Cli._save_as_aac. destruct (Cli.has_ffmpeg s); cbn [negb].
  - cbv zeta. unfold Cli.write_wav.
    change (Cli.samplerate (Cli.print _ s)) with (Cli.samplerate s).
    destruct (Cli.samplerate s) as [rate|]; [|reflexivity].
    destruct (Cli.writable e _); [|reflexivity].
    destruct (Cli.ffmpeg e) as [rc stderr w|w|].
    + destruct (negb (rc =? 0)).
      * cbn. eexists. split; [apply last_snoc | reflexivity].
      * destruct (Cli.fs _ !! _); [|apply cli_aac_failed_outcome].
        destruct (Cli.fs _ !! _); [|apply cli_aac_failed_outcome].
        cbn. rewrite cli_ffmpeg_output_console. cbn.
        split; [|eexists _, _; apply last_snoc].
        apply prefix_app_r, prefix_app_r. reflexivity.
    + cbn. eexists. rewrite cli_remove_if_exists_console.
      split; [apply cli_last_print | reflexivity].
    + apply cli_aac_failed_outcome.
  - cbv zeta.
    eapply save_outcome_ok_prefix; [|apply cli_save_as_wav_outcome].
    cbn. apply prefix_app_r, prefix_app_r. reflexivity.
Qed.

Lemma cli_save_body_outcome (e : Cli.env) (path : string) (s : Cli.state) :
  save_outcome_ok s (Cli.save_body e path s).
Proof.
  unfold Cli.save_body.
  destruct (np_concatenate _) as [audio|]; [|reflexivity].
  destruct (Cli.samplerate s) as [rate|]; [|reflexivity].
  destruct (rate =? 0); [reflexivity|]. cbv zeta.
  destruct (_ || _).
  - eapply save_outcome_ok_prefix; [|apply cli_save_as_aac_outcome].
    apply cli_print_prefix.
  - eapply save_outcome_ok_prefix; [|apply cli_save_as_wav_outcome].
    apply cli_print_prefix.
Qed.

(** [save_recording] always returns: [True] after a "file saved" notice,
    [False] after a failure notice. *)
Lemma cli_save_recording_outcome (e : Cli.env) (path : string) (s : Cli.state) :
  exists b s', Cli.save_recording e path s = Cli.Return b s'
               /\ save_outcome_ok s (Cli.Return b s').
Proof.
  unfold Cli.save_recording. destruct (Cli.frames s) eqn:Hf.
  - eexists _, _. split; [reflexivity|]. cbn.
    eexists. split; [apply last_snoc | reflexivity].
  - pose proof (cli_save_body_outcome e path s) as H.
    destruct (Cli.save_body e path s) as [b s'|x s'].
    + eexists _, _. split; [reflexivity | exact H].
    + cbn in H. rewrite H. eexists _, _. split; [reflexivity|]. cbn.
      eexists. split; [apply last_snoc | reflexivity].
Qed.

Lemma cli_list_devices_none (e : Cli.env) (s : Cli.state) :
  fst (Cli.list_devices e s) = [] ->
  snd (Cli.list_devices e s) = Cli.print Cli.NoInputDevices s.
Proof.
  unfold Cli.list_devices.
  destruct (input_devices_of (Cli.query_devices e)); [reflexivity | discriminate].
Qed.

Lemma last_Some_In {A} (l : list A) (x : A) : last l = Some x -> In x l.
Proof.
  intros H. apply last_Some in H as [l' ->].
  apply in_or_app. right. now left.
Qed.

Lemma prefix_In {A} (l1 l2 : list A) (x : A) :
  l1 `prefix_of` l2 -> In x l1 -> In x l2.
Proof. intros [k ->] H. apply in_or_app. now left. Qed.

Lemma cli_run_body_return (e : Cli.env) (ins : list Cli.input_event)
    (s0 s : Cli.state) (code : Z) :
  Cli.run_body e ins s0 = Cli.Return code s -> exit_status_ok code s.
Proof.
  unfold Cli.run_body.
  pose proof (cli_list_devices_none e s0) as Hnone.
  destruct (Cli.list_devices e s0) as [devs s1]. cbn [fst snd] in Hnone.
  destruct devs as [|dv devs].
  - intros [= <- <-]. right. split; [reflexivity|].
    rewrite Hnone by reflexivity.
    eexists. split; [apply cli_last_print | reflexivity].
  - clear Hnone.
    destruct (Cli.select_device _ ins s1) as [[d s2|x s2] ins2]; [|discriminate].
    destruct (Cli.configure_recording e d ins2 s2) as [[u s3|x s3] ins3];
      [|discriminate].
    destruct (Cli.ask_filename e ins3 s3) as [[path s4|x s4] ins4];
      [|discriminate].
    destruct (cli_record_outcome e s4) as [(s5 & -> & Hstop)|(s5 & -> & Hlast)].
    + destruct (cli_save_recording_outcome e path s5) as (b & s6 & -> & Hok).
      destruct b; cbn in Hok.
      * destruct Hok as (Hpre & p & f & Hsaved). intros [= <- <-]. left.
        split; [reflexivity|]. split; [apply cli_last_print|]. cbn. split.
        -- apply in_or_app. left. eapply prefix_In; eauto.
        -- exists p, f. apply in_or_app. left. now apply last_Some_In.
      * intros [= <- <-]. right. split; [reflexivity | exact Hok].
    + intros [= <- <-]. right. split; [reflexivity|].
      eexists. split; [exact Hlast | reflexivity].
Qed.

(** C1 (amended): whenever [run] hands a status back to [main], it is 0 or
    1.  It is 0 exactly on the path where the recording was stopped with
    Ctrl+C, a file was saved and "All done" is the last line; it is 1 when
    the last line announces a failure or a cancellation (no input device,
    recording error, nothing or nothing saved, Ctrl+C at the file-name
    prompt, an unexpected exception). *)
Theorem C1_exit_status (e : Cli.env) (ins : list Cli.input_event)
    (s0 s : Cli.state) (code : Z) :
  Cli.run e ins s0 = Cli.Return code s ->
  (code = 0
   /\ last (Cli.console s) = Some Cli.AllDone
   /\ In Cli.RecordingStoppedByUser (Cli.console s)
   /\ exists path format, In (Cli.FileSaved path format) (Cli.console s))
  \/ (code = 1
      /\ last (Cli.console s) <> Some Cli.AllDone
      /\ exists m, last (Cli.console s) = Some m
                   /\ Cli.is_failure_notice m = true).
Proof.
  unfold Cli.run.
  destruct (Cli.run_body e ins s0) as [c s1|x s1] eqn:Hbody.
  - intros [= <- <-].
    destruct (cli_run_body_return e ins s0 s1 c Hbody)
      as [H|(Hc & m & Hl & Hm)]; [now left|].
    right. split; [exact Hc|]. split; [|eauto].
    rewrite Hl. intros [= ->]. discriminate.
  - assert (Hfail : forall m, Cli.is_failure_notice m = true ->
              1 = 1 /\ last (Cli.console (Cli.print m s1)) <> Some Cli.AllDone
              /\ exists m', last (Cli.console (Cli.print m s1)) = Some m'
                            /\ Cli.is_failure_notice m' = true).
    { intros m Hm. split; [reflexivity|]. rewrite cli_last_print. split; [|eauto].
      intros [= ->]. discriminate. }
    destruct x; cbn; try discriminate;
      intros [= <- <-]; right; now apply Hfail.
Qed.

Lemma C1_exit_status_witness :
  exists s, Cli.run Scenario.cli_env Scenario.cli_inputs
              (Cli.init Scenario.cli_env) = Cli.Return 0 s
            /\ last (Cli.console s) = Some Cli.AllDone.
Proof.
  destruct (Cli.run Scenario.cli_env Scenario.cli_inputs
              (Cli.init Scenario.cli_env)) as [code s|x s] eqn:Hrun;
    [|vm_compute in Hrun; discriminate].
  assert (Hcode : code = 0)
    by (vm_compute in Hrun; now injection Hrun as <- _).
  subst code. exists s. split; [reflexivity|].
  destruct (C1_exit_status _ _ _ _ _ Hrun) as [(_ & H & _)|(H & _)];
    [exact H | discriminate].
Defined.

(** The user stops the recording with Ctrl+C, the file is saved, and the
    process ends with status 0, not 1. *)
Lemma C1_ctrl_c_during_recording_exits_0 :
  Cli.ending (Cli.capture Scenario.cli_env) = Cli.Interrupted
  /\ In Cli.RecordingStoppedByUser
        (Cli.console (snd (Cli.main Scenario.cli_env Scenario.cli_inputs)))
  /\ Cli.exit_code Scenario.cli_env Scenario.cli_inputs = 0
  /\ Cli.exit_code Scenario.cli_env Scenario.cli_inputs <> 1.
Proof.
  split; [reflexivity|]. split; [vm_compute; tauto|].
  split; [reflexivity | discriminate].
Qed.

(** For the record: Ctrl+C at the device, rate or channel prompt ends the
    process through [sys.exit(0)], whereas at the file-name prompt it is
    turned into status 1 by the handler of [run]. *)
Lemma cli_prompt_cancel_statuses :
  Cli.exit_code Scenario.cli_env [Cli.CtrlC] = 0
  /\ Cli.exit_code Scenario.cli_env [Cli.Typed "0"; Cli.CtrlC] = 0
  /\ Cli.exit_code Scenario.cli_env [Cli.Typed "0"; Cli.Typed EmptyString; Cli.CtrlC] = 0
  /\ Cli.exit_code Scenario.cli_env
       [Cli.Typed "0"; Cli.Typed EmptyString; Cli.Typed EmptyString; Cli.CtrlC] = 1.
Proof. repeat split. Qed.

(** ** Further properties of the code *)

(** *** Device enumeration *)

Lemma enumerate_from_In {A} (l : list A) (k i : nat) (x : A) :
  In (i, x) (enumerate_from k l) <-> (k <= i)%nat /\ l !! (i - k)%nat = Some x.
Proof.
  revert k; induction l as [|a l IH]; intros k; cbn [enumerate_from].
  - split; [intros [] | intros [_ H]; rewrite lookup_nil in H; discriminate].
  - cbn [In]. rewrite IH. split.
    + intros [H | [Hle Hl]].
      * injection H as <- <-. split; [lia|]. rewrite Nat.sub_diag. reflexivity.
      * split; [lia|]. replace (i - k)%nat with (S (i - S k)) by lia. exact Hl.
    + intros [Hle Hl]. destruct (Nat.eq_dec i k) as [-> | Hne].
      * left. rewrite Nat.sub_diag in Hl. cbn in Hl. injection Hl as ->.
        reflexivity.
      * right. split; [lia|].
        replace (i - k)%nat with (S (i - S k)) in Hl by lia. exact Hl.
Qed.

Lemma input_devices_of_In (device_list : list device_info) (i : nat)
    (d : device_info) :
  In (i, d) (input_devices_of device_list)
  <-> device_list !! i = Some d /\ 0 < max_input_channels d.
Proof.
  unfold input_devices_of.
  rewrite <- list_elem_of_In, list_elem_of_filter, list_elem_of_In.
  rewrite enumerate_from_In, Nat.sub_0_r. cbn [snd].
  rewrite Is_true_true, Z.ltb_lt. split.
  - intros (H & _ & Hl). auto.
  - intros (Hl & H). split; [exact H|]. split; [lia | exact Hl].
Qed.

(** X1: the input devices offered to the user are exactly the entries of
    the driver's device list that have at least one input channel, each
    under its position in that list; so a number names at most one
    device. *)
Theorem X1_input_devices_listed (device_list : list device_info) :
  (forall (i : nat) (d : device_info),
      In (i, d) (input_devices_of device_list)
      <-> device_list !! i = Some d /\ 0 < max_input_channels d)
  /\ (forall (i : nat) (d d' : device_info),
         In (i, d) (input_devices_of device_list) ->
         In (i, d') (input_devices_of device_list) -> d = d')
  /\ (forall (e : Cli.env) (s : Cli.state),
         Cli.query_devices e = device_list ->
         fst (Cli.list_devices e s) = input_devices_of device_list)
  /\ Gui.input_devices (Gui.init device_list) = input_devices_of device_list.
Proof.
  split; [apply input_devices_of_In|]. split; [|split].
  - intros i d d' H H'. apply input_devices_of_In in H as [H _].
    apply input_devices_of_In in H' as [H' _]. congruence.
  - intros e s <-. unfold Cli.list_devices.
    destruct (input_devices_of (Cli.query_devices e)); reflexivity.
  - reflexivity.
Qed.

Lemma X1_input_devices_listed_witness :
  input_devices_of
    [mk_device "HDMI Out" 0 48000; Scenario.mic; mk_device "USB Audio" 1 48000]
  = [(1%nat, Scenario.mic); (2%nat, mk_device "USB Audio" 1 48000)]
  /\ In (1%nat, Scenario.mic)
        (input_devices_of
           [mk_device "HDMI Out" 0 48000; Scenario.mic;
            mk_device "USB Audio" 1 48000]).
Proof.
  split; [reflexivity|].
  apply (proj1 (X1_input_devices_listed
                  [mk_device "HDMI Out" 0 48000; Scenario.mic;
                   mk_device "USB Audio" 1 48000])).
  split; [reflexivity | reflexivity].
Defined.

(** *** The prompts of the CLI *)

Lemma cli_find_device_In (device_idx : Z) (devs : list (nat * device_info))
    (idx : nat) (d : device_info) :
  Cli.find_device device_idx devs = Some (idx, d) ->
  In (idx, d) devs /\ Z.of_nat idx = device_idx.
Proof.
  induction devs as [|[i x] devs IH]; cbn [Cli.find_device]; [discriminate|].
  destruct (Z.eqb_spec (Z.of_nat i) device_idx) as [Heq | Hne].
  - intros H. injection H as <- <-. split; [left; reflexivity | exact Heq].
  - intros H. destruct (IH H) as [Hin Hz]. split; [right; exact Hin | exact Hz].
Qed.

(** X2: when [select_device] returns, the device it returns is one of the
    listed ones, the recorder's device is the number the user typed for
    it, every answer before the accepted one produced exactly one error
    line and nothing else of the recorder has changed. *)
Theorem X2_select_device_returns_listed (devs : list (nat * device_info))
    (ins ins' : list Cli.input_event) (s s' : Cli.state) (d : device_info) :
  Cli.select_device devs ins s = (Cli.Return d s', ins') ->
  exists (idx : nat) (errs : list Cli.msg),
    In (idx, d) devs
    /\ Cli.device s' = Some idx
    /\ Cli.console s' = Cli.console s ++ errs
    /\ Forall device_retry errs
    /\ length ins = (length errs + 1 + length ins')%nat
    /\ Cli.samplerate s' = Cli.samplerate s
    /\ Cli.channels s' = Cli.channels s
    /\ Cli.frames s' = Cli.frames s
    /\ Cli.fs s' = Cli.fs s.
Proof.
  revert s; induction ins as [|[line|] ins IH]; intros s;
    cbn [Cli.select_device]; [discriminate | | discriminate].
  destruct (Py.int (Py.strip line)) as [device_idx|].
  - destruct (Cli.find_device device_idx devs) as [[idx x]|] eqn:Hf.
    + intros H. injection H as <- <- <-.
      apply cli_find_device_In in Hf as [Hin _].
      exists idx, []. cbn. rewrite app_nil_r.
      repeat split; auto.
    + intros H. destruct (IH _ H) as (idx & errs & Hin & Hd & Hc & Hf' & Hl & Hr).
      exists idx, (Cli.InvalidDeviceNumber :: errs).
      split; [exact Hin|]. split; [exact Hd|].
      split; [rewrite Hc; cbn; rewrite <- app_assoc; reflexivity|].
      split; [constructor; [right; reflexivity | exact Hf']|].
      split; [cbn; cbn in Hl; lia | exact Hr].
  - intros H. destruct (IH _ H) as (idx & errs & Hin & Hd & Hc & Hf' & Hl & Hr).
    exists idx, (Cli.EnterValidNumber :: errs).
    split; [exact Hin|]. split; [exact Hd|].
    split; [rewrite Hc; cbn; rewrite <- app_assoc; reflexivity|].
    split; [constructor; [left; reflexivity | exact Hf']|].
    split; [cbn; cbn in Hl; lia | exact Hr].
Qed.

Lemma X2_select_device_returns_listed_witness :
  exists (idx : nat) (errs : list Cli.msg),
    In (idx, Scenario.mic) (input_devices_of [Scenario.mic])
    /\ Cli.device
         (Cli.state_of
            (fst (Cli.select_device (input_devices_of [Scenario.mic])
                    [Cli.Typed "x"; Cli.Typed "7"; Cli.Typed " 0 "]
                    (Cli.init Scenario.cli_env)))) = Some idx
    /\ errs = [Cli.EnterValidNumber; Cli.InvalidDeviceNumber].
Proof.
  destruct (X2_select_device_returns_listed
              (input_devices_of [Scenario.mic])
              [Cli.Typed "x"; Cli.Typed "7"; Cli.Typed " 0 "] []
              (Cli.init Scenario.cli_env)
              (Cli.set_device (Some 0%nat)
                 (Cli.print Cli.InvalidDeviceNumber
                    (Cli.print Cli.EnterValidNumber (Cli.init Scenario.cli_env))))
              Scenario.mic eq_refl)
    as (idx & errs & Hin & Hd & Hc & _).
  exists idx, errs. split; [exact Hin|]. split; [exact Hd|].
  cbn in Hc. symmetry. exact Hc.
Defined.

Lemma cli_sample_rates_menu (n rate : Z) :
  Cli.sample_rates n = Some rate -> In rate [44100; 48000; 96000].
Proof.
  unfold Cli.sample_rates.
  destruct (n =? 1); [intros H; injection H as <-; cbn; auto|].
  destruct (n =? 2); [intros H; injection H as <-; cbn; auto|].
  destruct (n =? 3); [intros H; injection H as <-; cbn; auto|].
  discriminate.
Qed.

Lemma cli_select_samplerate_return (e : Cli.env) (d : device_info)
    (ins ins' : list Cli.input_event) (s s' : Cli.state) (u : unit) :
  Cli.select_samplerate e d ins s = (Cli.Return u s', ins') ->
  exists rate,
    Cli.samplerate s' = Some rate
    /\ ((In rate [44100; 48000; 96000]
         /\ Cli.check_input_settings e (Cli.device s) rate = true)
        \/ rate = default_samplerate d).
Proof.
  revert s; induction ins as [|[line|] ins IH]; intros s;
    cbn [Cli.select_samplerate]; [discriminate | | discriminate].
  destruct (Py.int _) as [n|]; [|intros H; exact (IH _ H)].
  destruct (Cli.sample_rates n) as [rate|] eqn:Hr; [|intros H; exact (IH _ H)].
  cbn [Cli.device Cli.set_samplerate].
  destruct (Cli.check_input_settings e (Cli.device s) rate) eqn:Hc;
    intros H; injection H as _ <- _.
  - exists rate. split; [reflexivity|]. left.
    split; [exact (cli_sample_rates_menu n rate Hr) | exact Hc].
  - exists (default_samplerate d). split; [reflexivity | right; reflexivity].
Qed.

Lemma cli_select_channels_return (d : device_info)
    (ins ins' : list Cli.input_event) (s s' : Cli.state) (u : unit) :
  Cli.select_channels d ins s = (Cli.Return u s', ins') ->
  Cli.channels s' = 1
  \/ (Cli.channels s' = 2 /\ 2 <= max_input_channels d).
Proof.
  revert s; induction ins as [|[line|] ins IH]; intros s;
    cbn [Cli.select_channels]; [discriminate | | discriminate].
  destruct (Py.int _) as [n|]; [|intros H; exact (IH _ H)].
  destruct (n =? 1).
  - intros H; injection H as _ <- _. left. reflexivity.
  - destruct (n =? 2); cbn [andb]; [|intros H; exact (IH _ H)].
    destruct (Z.leb_spec 2 (max_input_channels d)) as [Hle | Hgt];
      [|intros H; exact (IH _ H)].
    intros H; injection H as _ <- _. right. split; [reflexivity | exact Hle].
Qed.

(** X3: a bare Enter (or a line of blanks) takes the offered defaults: at
    the sample-rate prompt it selects 48000 Hz, kept when the device
    accepts it; at the channel prompt it selects stereo on a device with
    two or more input channels and mono otherwise.  Each prompt consumes
    exactly that one line. *)
Theorem X3_enter_selects_defaults (e : Cli.env) (d : device_info)
    (line : string) (ins : list Cli.input_event) (s : Cli.state) :
  Py.strip line = EmptyString ->
  (Cli.check_input_settings e (Cli.device s) 48000 = true ->
   exists s1,
     Cli.select_samplerate e d (Cli.Typed line :: ins) s = (Cli.Return tt s1, ins)
     /\ Cli.samplerate s1 = Some 48000
     /\ Cli.console s1 = Cli.console s ++ [Cli.SampleRateOk 48000])
  /\ exists s2,
       Cli.select_channels d (Cli.Typed line :: ins) s = (Cli.Return tt s2, ins)
       /\ Cli.channels s2 = (if 2 <=? max_input_channels d then 2 else 1)
       /\ Cli.console s2 = Cli.console s ++ [Cli.ChannelsOk (Cli.channels s2)].
Proof.
  intros Hs. split.
  - intros Hc. cbn [Cli.select_samplerate]. rewrite Hs.
    change (Py.int (Py.or_default EmptyString "2")) with (Some 2).
    cbv beta iota. change (Cli.sample_rates 2) with (Some 48000).
    cbv beta iota. cbn [Cli.device Cli.set_samplerate]. rewrite Hc.
    eexists. split; [reflexivity|]. split; reflexivity.
  - cbn [Cli.select_channels]. rewrite Hs.
    destruct (2 <=? max_input_channels d) eqn:Hm.
    + change (Py.int (Py.or_default EmptyString "2")) with (Some 2).
      cbv beta iota. change (2 =? 1) with false.
      change (2 =? 2) with true. cbn [andb]. cbv beta iota.
      eexists. split; [reflexivity|]. split; reflexivity.
    + change (Py.int (Py.or_default EmptyString "1")) with (Some 1).
      cbv beta iota. change (1 =? 1) with true. cbv beta iota.
      eexists. split; [reflexivity|]. split; reflexivity.
Qed.

Lemma X3_enter_selects_defaults_witness :
  exists s2,
    Cli.select_channels Scenario.mic [Cli.Typed "  "] (Cli.init Scenario.cli_env)
    = (Cli.Return tt s2, [])
    /\ Cli.channels s2 = 2.
Proof.
  destruct (proj2 (X3_enter_selects_defaults Scenario.cli_env Scenario.mic "  "
                     [] (Cli.init Scenario.cli_env) eq_refl))
    as (s2 & H & Hc & _).
  exists s2. split; [exact H | exact Hc].
Defined.

(** X4: when [configure_recording] returns, the recorder's sample rate is
    either one of the three rates of the menu, accepted by the device
    check, or the default rate of the device; the channel count is 1 or
    2, and 2 only on a device with at least two input channels; the
    selected device, the frames and the disk are as before. *)
Theorem X4_configuration_is_valid (e : Cli.env) (d : device_info)
    (ins ins' : list Cli.input_event) (s s' : Cli.state) :
  Cli.configure_recording e d ins s = (Cli.Return tt s', ins') ->
  (exists rate,
      Cli.samplerate s' = Some rate
      /\ ((In rate [44100; 48000; 96000]
           /\ Cli.check_input_settings e (Cli.device s) rate = true)
          \/ rate = default_samplerate d))
  /\ (Cli.channels s' = 1
      \/ (Cli.channels s' = 2 /\ 2 <= max_input_channels d))
  /\ Cli.device s' = Cli.device s
  /\ Cli.frames s' = Cli.frames s
  /\ Cli.fs s' = Cli.fs s
  /\ last (Cli.console s') = Some Cli.ConfigurationComplete.
Proof.
  unfold Cli.configure_recording.
  destruct (Cli.select_samplerate e d ins s) as [[u1 s1 | x s1] ins1] eqn:H1;
    [|discriminate].
  destruct (Cli.select_channels d ins1 s1) as [[u2 s2 | x s2] ins2] eqn:H2;
    [|discriminate].
  intros H; injection H as <- <-.
  destruct (cli_select_samplerate_return _ _ _ _ _ _ _ H1) as (rate & Hr & Hcase).
  pose proof (cli_select_channels_return _ _ _ _ _ _ H2) as Hch.
  pose proof (cli_select_samplerate_untouched e d ins s) as [U1 D1].
  rewrite H1 in U1, D1. cbn [fst Cli.state_of] in U1, D1.
  pose proof (cli_select_channels_untouched d ins1 s1) as (U2 & R2 & D2).
  rewrite H2 in U2, R2, D2. cbn [fst Cli.state_of] in U2, R2, D2.
  destruct U1 as (_ & F1 & _ & _ & _ & _ & S1).
  destruct U2 as (_ & F2 & _ & _ & _ & _ & S2).
  split; [exists rate; split; [cbn; congruence | exact Hcase]|].
  split; [exact Hch|].
  split; [cbn; congruence|]. split; [cbn; congruence|].
  split; [cbn; congruence|]. apply cli_last_print.
Qed.

Lemma X4_configuration_is_valid_witness :
  Cli.samplerate
    (Cli.state_of
       (fst (Cli.configure_recording Scenario.cli_env Scenario.mic
               [Cli.Typed "9"; Cli.Typed "3"; Cli.Typed "two"; Cli.Typed "1"]
               (Cli.init Scenario.cli_env)))) = Some 44100
  /\ last (Cli.console
             (Cli.state_of
                (fst (Cli.configure_recording Scenario.cli_env Scenario.mic
                        [Cli.Typed "9"; Cli.Typed "3"; Cli.Typed "two";
                         Cli.Typed "1"]
                        (Cli.init Scenario.cli_env)))))
     = Some Cli.ConfigurationComplete.
Proof.
  split; [reflexivity|].
  apply (X4_configuration_is_valid Scenario.cli_env Scenario.mic
           [Cli.Typed "9"; Cli.Typed "3"; Cli.Typed "two"; Cli.Typed "1"]
           [] (Cli.init Scenario.cli_env)).
  reflexivity.
Defined.

(** *** What leaves [run] *)








(** *** A recording that fails *)

Lemma cli_record_fs (e : Cli.env) (s : Cli.state) :
  Cli.fs (Cli.state_of (Cli.record e s)) = Cli.fs s.
Proof.
  unfold Cli.record.
  assert (Hfold : forall bs st,
             Cli.fs (fold_left (fun st indata => Cli.callback indata st) bs st)
             = Cli.fs st).
  { induction bs as [|b bs IH]; intros st; [reflexivity|].
    cbn [fold_left]. rewrite IH. reflexivity. }
  destruct (Cli.opens (Cli.capture e)); [|reflexivity].
  destruct (Cli.ending (Cli.capture e)); cbn; rewrite Hfold; reflexivity.
Qed.

Lemma cli_record_fails (e : Cli.env) (s : Cli.state) :
  Cli.opens (Cli.capture e) = false
  \/ Cli.ending (Cli.capture e) = Cli.StreamFailed ->
  exists s', Cli.record e s = Cli.Return false s'
             /\ last (Cli.console s')
                = Some (Cli.RecordingError Cli.PortAudioError).
Proof.
  intros H. unfold Cli.record.
  destruct (Cli.opens (Cli.capture e)) eqn:Ho.
  - destruct H as [H | H]; [discriminate|]. rewrite H.
    eexists. split; [reflexivity|]. cbn. apply last_snoc.
  - eexists. split; [reflexivity|]. cbn. apply last_snoc.
Qed.

Lemma cli_list_devices_fs (e : Cli.env) (s : Cli.state) :
  Cli.fs (snd (Cli.list_devices e s)) = Cli.fs s.
Proof.
  unfold Cli.list_devices.
  destruct (input_devices_of (Cli.query_devices e)); reflexivity.
Qed.

(** X6: when the stream cannot be opened, or fails during the session,
    nothing is saved: whatever the user types, [run] leaves the disk as it
    was, and a status it returns is 1. *)
Theorem X6_failed_recording_saves_nothing (e : Cli.env)
    (ins : list Cli.input_event) (s : Cli.state) :
  Cli.opens (Cli.capture e) = false
  \/ Cli.ending (Cli.capture e) = Cli.StreamFailed ->
  Cli.fs (Cli.state_of (Cli.run e ins s)) = Cli.fs s
  /\ (forall (code : Z) (s' : Cli.state),
         Cli.run e ins s = Cli.Return code s' -> code = 1).
Proof.
  intros Hfail.
  assert (Hbody : Cli.fs (Cli.state_of (Cli.run_body e ins s)) = Cli.fs s
                  /\ forall s', Cli.run_body e ins s <> Cli.Return 0 s').
  { unfold Cli.run_body.
    pose proof (cli_list_devices_fs e s) as L.
    destruct (Cli.list_devices e s) as [[|p devs] s1]; cbn [snd] in L;
      [split; [exact L | discriminate]|].
    pose proof (cli_select_device_untouched (p :: devs) ins s1) as U2.
    destruct (Cli.select_device (p :: devs) ins s1) as [[d s2 | x2 s2] ins2];
      cbn [fst Cli.state_of] in U2;
      destruct U2 as (_ & _ & _ & _ & _ & _ & F2);
      [|split; [cbn; congruence | discriminate]].
    pose proof (cli_configure_recording_untouched e d ins2 s2) as U3.
    destruct (Cli.configure_recording e d ins2 s2) as [[u s3 | x3 s3] ins3];
      cbn [fst Cli.state_of] in U3;
      destruct U3 as (_ & _ & _ & _ & _ & _ & F3);
      [|split; [cbn; congruence | discriminate]].
    unfold Cli.ask_filename.
    destruct ins3 as [|[line|] ins4];
      [split; [cbn; congruence | discriminate] |
      |split; [cbn; congruence | discriminate]].
    pose proof (cli_record_fs e s3) as F5.
    destruct (cli_record_fails e s3 Hfail) as (s5 & Hr & _).
    rewrite Hr in F5 |- *. cbn [Cli.state_of] in F5.
    split; [cbn; congruence | discriminate]. }
  destruct Hbody as [Hfs Hno]. unfold Cli.run.
  destruct (Cli.run_body e ins s) as [c s1 | x s1] eqn:Hb;
    cbn [Cli.state_of] in Hfs.
  - split; [exact Hfs|]. intros code s' H; injection H as <- <-.
    destruct (cli_run_body_return _ _ _ _ _ Hb) as [[-> _] | [-> _]];
      [exfalso; exact (Hno s1 eq_refl) | reflexivity].
  - destruct x; cbn; (split; [exact Hfs|]);
      intros cd st H; try discriminate H; injection H as <- _; reflexivity.
Qed.

Lemma X6_failed_recording_saves_nothing_witness :
  Cli.fs (snd (Cli.main
                 (Cli.mk_env false [Scenario.mic] (fun _ rate => rate =? 44100)
                    (Cli.mk_session true [Scenario.block1] Cli.StreamFailed)
                    (fun _ => true) Cli.NotStarted "20240101_120000")
                 Scenario.cli_inputs)) = ∅
  /\ Cli.fs (Cli.state_of
               (Cli.run
                  (Cli.mk_env false [Scenario.mic] (fun _ rate => rate =? 44100)
                     (Cli.mk_session true [Scenario.block1] Cli.StreamFailed)
                     (fun _ => true) Cli.NotStarted "20240101_120000")
                  Scenario.cli_inputs (Cli.init Scenario.cli_env)))
     = Cli.fs (Cli.init Scenario.cli_env).
Proof.
  split; [reflexivity|].
  apply (X6_failed_recording_saves_nothing
           (Cli.mk_env false [Scenario.mic] (fun _ rate => rate =? 44100)
              (Cli.mk_session true [Scenario.block1] Cli.StreamFailed)
              (fun _ => true) Cli.NotStarted "20240101_120000")
           Scenario.cli_inputs (Cli.init Scenario.cli_env)).
  right. reflexivity.
Defined.

(** *** The routes of [save_recording] *)

(** X7: a file name that ends neither in [.m4a] nor in [.aac] is saved as
    WAV, under the name itself when it ends in [.wav] (in any case of
    letters) and with [.wav] appended otherwise.  When that file can be
    written, it holds the session rate, the blocks' channel count, 16 bits
    and the quantised rows of all blocks; when it cannot, the error is
    reported, [False] is returned and the disk is as before. *)
Theorem X7_wav_route (e : Cli.env) (output_path : string) (s : Cli.state)
    (rate : Z) (nchannels : nat) :
  Cli.dtype s = "float32"%string ->
  Cli.samplerate s = Some rate -> rate <> 0 ->
  Cli.frames s <> [] ->
  Forall (fun indata => ncols indata = nchannels) (Cli.frames s) ->
  output_path <> EmptyString ->
  Py.endswith (Py.lower output_path) ".m4a"
  || Py.endswith (Py.lower output_path) ".aac" = false ->
  let target := if Py.endswith (Py.lower output_path) ".wav"
                then output_path else String.append output_path ".wav" in
  let data := map (map Quantize.quantize_sample)
                  (concat (map rows (Cli.frames s))) in
  (Cli.writable e target = true ->
   exists s',
     Cli.save_recording e output_path s = Cli.Return true s'
     /\ Cli.fs s' = <[target := WavPCM rate nchannels 16 data]> (Cli.fs s)
     /\ Cli.console s'
        = Cli.console s
          ++ [Cli.AudioData (length data); Cli.SavingAsWav target;
              Cli.FileSaved target "16-bit PCM WAV"])
  /\ (Cli.writable e target = false ->
      exists s',
        Cli.save_recording e output_path s = Cli.Return false s'
        /\ Cli.fs s' = Cli.fs s
        /\ Cli.console s'
           = Cli.console s
             ++ [Cli.AudioData (length data); Cli.SavingAsWav target;
                 Cli.ErrorSavingFile Cli.OSError]).
Proof.
  intros Hd Hr Hr0 Hne Hcols Hpath Hext target data.
  assert (Hsave : Cli.save_recording e output_path s
                  = match Cli._save_as_wav e
                            (mk_ndarray nchannels
                               (concat (map rows (Cli.frames s))))
                            target
                            (Cli.print (Cli.AudioData (length data)) s) with
                    | Cli.Raise x s1 =>
                        if Cli.is_Exception x
                        then Cli.Return false (Cli.print (Cli.ErrorSavingFile x) s1)
                        else Cli.Raise x s1
                    | r => r
                    end).
  { unfold Cli.save_recording.
    destruct (Cli.frames s) as [|b bs] eqn:Hf; [contradiction|].
    unfold Cli.save_body. rewrite Hf.
    rewrite (np_concatenate_uniform nchannels b bs Hcols), Hr.
    apply Z.eqb_neq in Hr0. rewrite Hr0. cbv zeta.
    apply String.eqb_neq in Hpath. rewrite Hpath, Hext.
    unfold nd_len, data. cbn [rows]. rewrite !length_map. reflexivity. }
  rewrite Hsave. unfold Cli._save_as_wav, Cli.write_wav.
  change (Cli.samplerate (Cli.print _ (Cli.print _ s))) with (Cli.samplerate s).
  change (Cli.dtype (Cli.print _ (Cli.print _ s))) with (Cli.dtype s).
  rewrite Hr, Hd. change (String.eqb "float32" "float32") with true.
  cbv beta iota.
  split; intros Hw; rewrite Hw; (eexists; split; [reflexivity|]).
  - split; [reflexivity|]. cbn. rewrite <- !app_assoc. reflexivity.
  - split; [reflexivity|]. cbn. rewrite <- !app_assoc. reflexivity.
Qed.

Lemma X7_wav_route_witness :
  exists s',
    Cli.save_recording Scenario.cli_env "Take1.WAV" Scenario.cli_recorded
    = Cli.Return true s'
    /\ Cli.fs s'
       = <[ "Take1.WAV"%string :=
              WavPCM 44100 2 16
                [[16383; 32767]; [0; 16383]; [-32767; 16383]; [16383; 16383]] ]>
           (Cli.fs Scenario.cli_recorded).
Proof.
  destruct (proj1 (X7_wav_route Scenario.cli_env "Take1.WAV"
                     Scenario.cli_recorded 44100 2 eq_refl eq_refl
                     ltac:(discriminate) ltac:(discriminate)
                     ltac:(repeat constructor) ltac:(discriminate) eq_refl)
              eq_refl)
    as (s' & Hs & Hfs & _).
  exists s'. split; [exact Hs | exact Hfs].
Defined.

(** X8: when ffmpeg exits with status 0 and has written its output,
    [_save_as_aac] returns [True]; afterwards the output path holds the
    encoder's file and the temporary WAV is gone.  Compared with the disk
    before, the output file is the only addition, and a file that already
    had the temporary name has been removed. *)
Theorem X8_aac_success (e : Cli.env) (audio : sample_block)
    (output_path : string) (s : Cli.state) (rate : Z) (stderr : string)
    (f : file) :
  Cli.has_ffmpeg s = true ->
  Cli.dtype s = "float32"%string ->
  Cli.samplerate s = Some rate ->
  Cli.writable e (String.append (Py.rsplit_dot_head output_path) "_temp.wav")
  = true ->
  Cli.ffmpeg e = Cli.Exited 0 stderr (Some f) ->
  let temp_wav := String.append (Py.rsplit_dot_head output_path) "_temp.wav" in
  exists s',
    Cli._save_as_aac e audio output_path s = Cli.Return true s'
    /\ Cli.fs s' !! output_path = Some f
    /\ Cli.fs s' !! temp_wav = None
    /\ Cli.fs s' = <[output_path := f]> (delete temp_wav (Cli.fs s))
    /\ Cli.console s'
       = Cli.console s
         ++ [Cli.SavingAsAac output_path;
             Cli.FileSaved output_path "AAC (M4A) @ 192 kbps"].
Proof.
  intros Hff Hd Hr Hw Hrun temp_wav.
  pose proof (temp_wav_not_output output_path) as Hne. fold temp_wav in Hne.
  unfold Cli._save_as_aac. rewrite Hff. cbn [negb]. cbv zeta.
  erewrite cli_write_wav_ok; [|exact Hr | exact Hd | exact Hw].
  rewrite Hrun. change (negb (0 =? 0)) with false. cbv beta iota.
  fold temp_wav. cbn [Cli.ffmpeg_output Cli.fs Cli.set_fs Cli.print].
  rewrite (lookup_insert_ne _ output_path temp_wav) by congruence.
  rewrite lookup_insert_eq.
  rewrite (delete_insert_ne _ temp_wav output_path) by exact Hne.
  rewrite delete_insert_eq, lookup_insert_eq.
  eexists. split; [reflexivity|]. cbn.
  split; [apply lookup_insert_eq|].
  split; [rewrite lookup_insert_ne by congruence; apply lookup_delete_eq|].
  split; [reflexivity|]. rewrite <- app_assoc. reflexivity.
Qed.

Lemma X8_aac_success_witness :
  exists s',
    Cli._save_as_aac
      (Cli.mk_env true [Scenario.mic] (fun _ rate => rate =? 44100)
         (Cli.mk_session true [Scenario.block1; Scenario.block2] Cli.Interrupted)
         (fun _ => true) (Cli.Exited 0 EmptyString (Some (Encoded [0; 1; 2])))
         "20240101_120000")
      Scenario.recorded_audio "take1.m4a" Scenario.cli_recorded_ffmpeg
    = Cli.Return true s'
    /\ Cli.fs s' !! "take1.m4a"%string = Some (Encoded [0; 1; 2])
    /\ Cli.fs s' !! "take1_temp.wav"%string = None.
Proof.
  destruct (X8_aac_success
              (Cli.mk_env true [Scenario.mic] (fun _ rate => rate =? 44100)
                 (Cli.mk_session true [Scenario.block1; Scenario.block2]
                    Cli.Interrupted)
                 (fun _ => true)
                 (Cli.Exited 0 EmptyString (Some (Encoded [0; 1; 2])))
                 "20240101_120000")
              Scenario.recorded_audio "take1.m4a" Scenario.cli_recorded_ffmpeg
              44100 EmptyString (Encoded [0; 1; 2])
              eq_refl eq_refl eq_refl eq_refl eq_refl)
    as (s' & Hs & Ho & Ht & _).
  exists s'. split; [exact Hs|]. split; [exact Ho | exact Ht].
Defined.

(** X9: on the AAC route, when the temporary WAV cannot be written the
    encoder is never run: [save_recording] reports the error, returns
    [False] and leaves the disk as it was.  When the temporary WAV is
    written but ffmpeg cannot be started, the conversion error is
    reported, the temporary WAV is removed again and [False] is
    returned. *)
Theorem X9_aac_route_errors (e : Cli.env) (output_path : string)
    (s : Cli.state) (rate : Z) (nchannels : nat) :
  Cli.has_ffmpeg s = true ->
  Cli.dtype s = "float32"%string ->
  Cli.samplerate s = Some rate -> rate <> 0 ->
  Cli.frames s <> [] ->
  Forall (fun indata => ncols indata = nchannels) (Cli.frames s) ->
  Py.endswith (Py.lower output_path) ".m4a"
  || Py.endswith (Py.lower output_path) ".aac" = true ->
  let temp_wav := String.append (Py.rsplit_dot_head output_path) "_temp.wav" in
  let nrows := length (concat (map rows (Cli.frames s))) in
  (Cli.writable e temp_wav = false ->
   exists s',
     Cli.save_recording e output_path s = Cli.Return false s'
     /\ Cli.fs s' = Cli.fs s
     /\ Cli.console s'
        = Cli.console s
          ++ [Cli.AudioData nrows; Cli.SavingAsAac output_path;
              Cli.ErrorSavingFile Cli.OSError])
  /\ (Cli.writable e temp_wav = true -> Cli.ffmpeg e = Cli.NotStarted ->
      exists s',
        Cli.save_recording e output_path s = Cli.Return false s'
        /\ Cli.fs s' = delete temp_wav (Cli.fs s)
        /\ Cli.console s'
           = Cli.console s
             ++ [Cli.AudioData nrows; Cli.SavingAsAac output_path;
                 Cli.AacConversionError Cli.OSError]).
Proof.
  intros Hff Hd Hr Hr0 Hne Hcols Hext temp_wav nrows.
  assert (Hsave : Cli.save_recording e output_path s
                  = match Cli._save_as_aac e
                            (mk_ndarray nchannels
                               (concat (map rows (Cli.frames s))))
                            output_path
                            (Cli.print (Cli.AudioData nrows) s) with
                    | Cli.Raise x s1 =>
                        if Cli.is_Exception x
                        then Cli.Return false (Cli.print (Cli.ErrorSavingFile x) s1)
                        else Cli.Raise x s1
                    | r => r
                    end).
  { unfold Cli.save_recording.
    destruct (Cli.frames s) as [|b bs] eqn:Hf; [contradiction|].
    unfold Cli.save_body. rewrite Hf.
    rewrite (np_concatenate_uniform nchannels b bs Hcols), Hr.
    apply Z.eqb_neq in Hr0. rewrite Hr0. cbv zeta.
    assert (Hnonempty : String.eqb output_path EmptyString = false).
    { apply String.eqb_neq. intros ->. cbn in Hext. discriminate. }
    rewrite Hnonempty, Hext. reflexivity. }
  rewrite Hsave. unfold Cli._save_as_aac.
  change (Cli.has_ffmpeg (Cli.print _ s)) with (Cli.has_ffmpeg s).
  rewrite Hff. cbn [negb]. cbv zeta. fold temp_wav.
  split.
  - intros Hw. unfold Cli.write_wav.
    change (Cli.samplerate (Cli.print _ (Cli.print _ s)))
      with (Cli.samplerate s).
    rewrite Hr, Hw.
    eexists. split; [reflexivity|]. split; [reflexivity|].
    cbn. rewrite <- !app_assoc. reflexivity.
  - intros Hw Hrun.
    erewrite cli_write_wav_ok; [|exact Hr | exact Hd | exact Hw].
    rewrite Hrun. unfold Cli.aac_failed, Cli.remove_if_exists.
    cbn [Cli.fs Cli.set_fs Cli.print]. rewrite lookup_insert_eq.
    eexists. split; [reflexivity|]. cbn.
    split; [apply delete_insert_eq|]. rewrite <- !app_assoc. reflexivity.
Qed.

Lemma X9_aac_route_errors_witness :
  exists s',
    Cli.save_recording
      (Cli.mk_env true [Scenario.mic] (fun _ _ => true)
         (Cli.mk_session true [] Cli.Interrupted)
         (fun _ => false) Cli.NotStarted "20240101_120000")
      "take1.m4a" Scenario.cli_recorded_ffmpeg
    = Cli.Return false s'
    /\ Cli.fs s' = Cli.fs Scenario.cli_recorded_ffmpeg.
Proof.
  destruct (proj1 (X9_aac_route_errors
                     (Cli.mk_env true [Scenario.mic] (fun _ _ => true)
                        (Cli.mk_session true [] Cli.Interrupted)
                        (fun _ => false) Cli.NotStarted "20240101_120000")
                     "take1.m4a" Scenario.cli_recorded_ffmpeg
                     44100 2 eq_refl eq_refl eq_refl
                     ltac:(discriminate) ltac:(discriminate)
                     ltac:(repeat constructor) eq_refl)
              eq_refl)
    as (s' & Hs & Hfs & _).
  exists s'. split; [exact Hs | exact Hfs].
Defined.

(** *** A status of 0 means a file on disk *)

Lemma cli_save_as_wav_true (e : Cli.env) (audio : sample_block) (path : string)
    (s s' : Cli.state) :
  Cli._save_as_wav e audio path s = Cli.Return true s' ->
  last (Cli.console s') = Some (Cli.FileSaved path "16-bit PCM WAV")
  /\ is_Some (Cli.fs s' !! path).
Proof.
  unfold Cli._save_as_wav, Cli.write_wav.
  change (Cli.samplerate (Cli.print _ s)) with (Cli.samplerate s).
  destruct (Cli.samplerate s) as [rate|]; [|discriminate].
  destruct (Cli.writable e path); [|discriminate].
  intros H; injection H as <-. split; [apply cli_last_print|].
  cbn. rewrite lookup_insert_eq. eexists; reflexivity.
Qed.

Lemma cli_save_as_aac_true (e : Cli.env) (audio : sample_block) (path : string)
    (s s' : Cli.state) :
  Cli._save_as_aac e audio path s = Cli.Return true s' ->
  exists p format,
    last (Cli.console s') = Some (Cli.FileSaved p format)
    /\ is_Some (Cli.fs s' !! p).
Proof.
  unfold Cli._save_as_aac.
  destruct (Cli.has_ffmpeg s); cbn [negb]; cbv zeta.
  2:{ intros H. apply cli_save_as_wav_true in H. eauto. }
  destruct (Cli.write_wav e _ audio _) as [u s2 | x s2]; [|discriminate].
  destruct (Cli.ffmpeg e) as [rc stderr written | written |];
    [| discriminate | discriminate].
  destruct (negb (rc =? 0)); [discriminate|].
  destruct (Cli.fs (Cli.ffmpeg_output written path s2) !! _); [|discriminate].
  match goal with
  | |- context [Cli.fs ?s4 !! path] =>
      destruct (Cli.fs s4 !! path) as [fo|] eqn:Hout; [|discriminate]
  end.
  intros H; injection H as <-. exists path, "AAC (M4A) @ 192 kbps"%string.
  split; [apply cli_last_print|]. cbn in Hout |- *. rewrite Hout.
  eexists; reflexivity.
Qed.

Lemma cli_save_recording_true (e : Cli.env) (path : string)
    (s s' : Cli.state) :
  Cli.save_recording e path s = Cli.Return true s' ->
  exists p format,
    last (Cli.console s') = Some (Cli.FileSaved p format)
    /\ is_Some (Cli.fs s' !! p).
Proof.
  unfold Cli.save_recording.
  destruct (Cli.frames s) as [|b bs]; [discriminate|].
  destruct (Cli.save_body e path s) as [r s1 | x s1] eqn:Hb.
  2:{ destruct (Cli.is_Exception x); discriminate. }
  intros H; injection H as -> ->. revert Hb. unfold Cli.save_body.
  destruct (np_concatenate _) as [audio|]; [|discriminate].
  destruct (Cli.samplerate s) as [rate|]; [|discriminate].
  destruct (rate =? 0); [discriminate|]. cbv zeta.
  destruct (_ || _).
  - apply cli_save_as_aac_true.
  - intros H. apply cli_save_as_wav_true in H. eauto.
Qed.

(** X10: when [run] returns 0, the last file announced on the console as
    saved is on the disk at that moment. *)
Theorem X10_status_0_means_file (e : Cli.env) (ins : list Cli.input_event)
    (s s' : Cli.state) :
  Cli.run e ins s = Cli.Return 0 s' ->
  exists p format,
    In (Cli.FileSaved p format) (Cli.console s')
    /\ is_Some (Cli.fs s' !! p).
Proof.
  unfold Cli.run.
  destruct (Cli.run_body e ins s) as [code s1 | x s1] eqn:Hb.
  2:{ destruct x; cbn; discriminate. }
  intros H; injection H as -> ->. revert Hb. unfold Cli.run_body.
  destruct (Cli.list_devices e s) as [[|p devs] s1]; [discriminate|].
  destruct (Cli.select_device _ ins s1) as [[d s2 | x2 s2] ins2];
    [|discriminate].
  destruct (Cli.configure_recording e d ins2 s2) as [[u s3 | x3 s3] ins3];
    [|discriminate].
  destruct (Cli.ask_filename e ins3 s3) as [[path s4 | x4 s4] ins4];
    [|discriminate].
  destruct (Cli.record e s4) as [[|] s5 | x5 s5]; [|discriminate..].
  destruct (Cli.save_recording e path s5) as [[|] s6 | x6 s6] eqn:Hs;
    [|discriminate..].
  intros H; injection H as <-.
  destruct (cli_save_recording_true _ _ _ _ Hs) as (p0 & format & Hl & Hf).
  exists p0, format. split; [|exact Hf].
  cbn. apply in_or_app. left. exact (last_Some_In _ _ Hl).
Qed.

Lemma X10_status_0_means_file_witness :
  exists p format,
    In (Cli.FileSaved p format)
       (Cli.console (Cli.state_of
                       (Cli.run Scenario.cli_env Scenario.cli_inputs
                          (Cli.init Scenario.cli_env))))
    /\ is_Some (Cli.fs (Cli.state_of
                          (Cli.run Scenario.cli_env Scenario.cli_inputs
                             (Cli.init Scenario.cli_env))) !! p).
Proof.
  apply (X10_status_0_means_file Scenario.cli_env Scenario.cli_inputs
           (Cli.init Scenario.cli_env)
           (Cli.state_of
              (Cli.run Scenario.cli_env Scenario.cli_inputs
                 (Cli.init Scenario.cli_env)))).
  vm_compute. reflexivity.
Defined.

(** *** Starting a session in the GUI *)

(** What the [try] block of [start_recording] changes: the rate, the
    channel count and the dialogs. *)
Lemma gui_negotiate_frame (e : Gui.env) (idx : nat) (s s' : Gui.state) :
  Gui.negotiate e idx s = Some s' ->
  Gui.recording s' = Gui.recording s /\ Gui.frames s' = Gui.frames s
  /\ Gui.q s' = Gui.q s /\ Gui.device s' = Gui.device s
  /\ Gui.thread s' = Gui.thread s /\ Gui.start_btn s' = Gui.start_btn s
  /\ Gui.stop_btn s' = Gui.stop_btn s /\ Gui.status s' = Gui.status s
  /\ Gui.fs s' = Gui.fs s /\ Gui.streams s' = Gui.streams s.
Proof.
  unfold Gui.negotiate.
  destruct (Gui.query_device e idx) as [info|]; [|discriminate].
  destruct (Py.int (Gui.samplerate_var s)) as [r|]; [|discriminate].
  cbv zeta.
  destruct (Gui.check_input_settings e idx r);
    match goal with
    | |- context [if ?c then _ else _] => destruct c
    end; intros [= <-]; cbn; repeat split.
Qed.

Lemma gui_start_recording_cases (e : Gui.env) (s : Gui.state) :
  let s' := Gui.start_recording e s in
  (Gui.fs s' = Gui.fs s /\ Gui.streams s' = Gui.streams s)
  /\ ((Gui.recording s' = true /\ Gui.frames s' = [] /\ Gui.q s' = []
       /\ Gui.thread s' = Gui.Launched
       /\ Gui.start_btn s' = false /\ Gui.stop_btn s' = true
       /\ Gui.status s' = Gui.StatusRecording)
      \/ (exists d, start_refusal d
                    /\ Gui.dialogs s' = Gui.dialogs s ++ [d]
                    /\ Gui.recording s' = Gui.recording s
                    /\ Gui.frames s' = Gui.frames s /\ Gui.q s' = Gui.q s
                    /\ Gui.thread s' = Gui.thread s
                    /\ Gui.start_btn s' = Gui.start_btn s
                    /\ Gui.stop_btn s' = Gui.stop_btn s
                    /\ Gui.status s' = Gui.status s
                    /\ Gui.samplerate s' = Gui.samplerate s
                    /\ Gui.channels s' = Gui.channels s)).
Proof.
  unfold Gui.start_recording.
  destruct (_ || _).
  { cbn. split; [auto|]. right. exists Gui.WarnSelectDevice.
    unfold start_refusal. repeat split; auto. }
  cbv zeta.
  change (Gui.device (Gui.set_device ?d s)) with d.
  destruct (Gui.find_by_name (Gui.device_var s) (Gui.input_devices s))
    as [idx|].
  2:{ cbn. split; [auto|]. right. exists Gui.ErrDeviceNotFound.
      unfold start_refusal. repeat split; auto. }
  destruct (Gui.negotiate e idx _) as [s2|] eqn:Hn.
  2:{ cbn. split; [auto|]. right. exists Gui.ErrQueryingDevice.
      unfold start_refusal. repeat split; auto. }
  apply gui_negotiate_frame in Hn
    as (_ & _ & _ & _ & _ & _ & _ & _ & Hfs & Hst).
  cbn. split; [split; [exact Hfs | exact Hst]|]. left. repeat split.
Qed.

(** X11: [start_recording] either starts a session (flag set, frames and
    queue empty, thread launched, Start disabled, Stop enabled, status
    "Recording...") or refuses with exactly one new dialog (no device
    selected, device not found, error querying the device) and leaves the
    flag, the frames, the queue, the thread, the buttons, the status, the
    rate and the channel count as they were.  In both cases the disk and
    the streams are untouched. *)
Theorem X11_start_recording_outcomes (e : Gui.env) (s : Gui.state) :
  let s' := Gui.start_recording e s in
  (Gui.fs s' = Gui.fs s /\ Gui.streams s' = Gui.streams s)
  /\ ((Gui.recording s' = true /\ Gui.frames s' = [] /\ Gui.q s' = []
       /\ Gui.thread s' = Gui.Launched
       /\ Gui.start_btn s' = false /\ Gui.stop_btn s' = true
       /\ Gui.status s' = Gui.StatusRecording)
      \/ (exists d, start_refusal d
                    /\ Gui.dialogs s' = Gui.dialogs s ++ [d]
                    /\ Gui.recording s' = Gui.recording s
                    /\ Gui.frames s' = Gui.frames s /\ Gui.q s' = Gui.q s
                    /\ Gui.thread s' = Gui.thread s
                    /\ Gui.start_btn s' = Gui.start_btn s
                    /\ Gui.stop_btn s' = Gui.stop_btn s
                    /\ Gui.status s' = Gui.status s
                    /\ Gui.samplerate s' = Gui.samplerate s
                    /\ Gui.channels s' = Gui.channels s)).
Proof.
  exact (gui_start_recording_cases e s).
Qed.

Lemma X11_start_recording_outcomes_witness :
  Gui.dialogs (Gui.start_recording Scenario.gui_env (Gui.init []))
  = [Gui.WarnSelectDevice]
  /\ Gui.fs (Gui.start_recording Scenario.gui_env (Gui.init []))
     = Gui.fs (Gui.init []).
Proof.
  split; [vm_compute; reflexivity|].
  exact (proj1 (proj1 (X11_start_recording_outcomes Scenario.gui_env
                         (Gui.init [])))).
Defined.

(** X12: in a session that starts, the channel count is 1 when the
    channel menu says "Mono" and 2 otherwise, lowered to the device's
    maximum when that is smaller; the dialogs shown on the way are the
    "Sample Rate Adjusted" box when the requested rate was rejected,
    then the "Channels Adjusted" box when the count was lowered, and no
    others. *)
Theorem X12_channels_clamped (e : Gui.env) (idx : nat) (s s' : Gui.state)
    (info : device_info) (requested_rate : Z) :
  Gui.query_device e idx = Some info ->
  Py.int (Gui.samplerate_var s) = Some requested_rate ->
  Gui.negotiate e idx s = Some s' ->
  let requested := if Py.contains "Mono" (Gui.channels_var s) then 1 else 2 in
  Gui.channels s' = Z.min requested (max_input_channels info)
  /\ Gui.dialogs s'
     = Gui.dialogs s
       ++ (if Gui.check_input_settings e idx requested_rate then []
           else [Gui.InfoSampleRateAdjusted requested_rate
                   (default_samplerate info)])
       ++ (if max_input_channels info <? requested
           then [Gui.InfoChannelsAdjusted (max_input_channels info)]
           else []).
Proof.
  intros Hq Hi. unfold Gui.negotiate. rewrite Hq, Hi. cbv zeta.
  destruct (Gui.check_input_settings e idx requested_rate); cbn;
    destruct (Py.contains "Mono" (Gui.channels_var s)); cbn;
    match goal with
    | |- context [?a <? ?b] => destruct (Z.ltb_spec a b)
    end; intros [= <-]; cbn; rewrite ?app_nil_r, <- ?app_assoc;
    (split; [lia | reflexivity]).
Qed.

Lemma X12_channels_clamped_witness :
  exists s',
    Gui.negotiate
      (Gui.mk_env (fun _ => Some (mk_device "USB Mono Mic" 1 48000))
         (fun _ _ => true) true false "take1.wav" (fun _ => true))
      0%nat (Gui.init [mk_device "USB Mono Mic" 1 48000]) = Some s'
    /\ Gui.channels s' = 1
    /\ Gui.dialogs s' = [Gui.InfoChannelsAdjusted 1].
Proof.
  eexists. split; [vm_compute; reflexivity|].
  destruct (X12_channels_clamped
              (Gui.mk_env (fun _ => Some (mk_device "USB Mono Mic" 1 48000))
                 (fun _ _ => true) true false "take1.wav" (fun _ => true))
              0%nat (Gui.init [mk_device "USB Mono Mic" 1 48000]) _
              (mk_device "USB Mono Mic" 1 48000) 48000
              eq_refl eq_refl eq_refl) as [Hc Hd].
  split; [exact Hc | exact Hd].
Defined.

(** *** Sessions whose stream opens, and sessions whose stream does not *)

Lemma gui_flush_frame (e : Gui.env) (s s' : Gui.state) :
  Gui.flush e s = Some s' ->
  Gui.recording s' = Gui.recording s /\ Gui.start_btn s' = Gui.start_btn s
  /\ Gui.stop_btn s' = Gui.stop_btn s /\ Gui.level_var s' = Gui.level_var s
  /\ Gui.status s' = Gui.StatusReady
  /\ (exists d, Gui.dialogs s' = Gui.dialogs s ++ [d]
                /\ (d = Gui.InfoSaved (Gui.asksaveasfilename e)
                    \/ d = Gui.WarnSaveCancelled))
  /\ (forall p, p <> Gui.asksaveasfilename e -> Gui.fs s' !! p = Gui.fs s !! p)
  /\ (Gui.asksaveasfilename e = EmptyString -> Gui.fs s' = Gui.fs s).
Proof.
  unfold Gui.flush, Gui.write_wav.
  destruct (np_concatenate _); [|discriminate].
  destruct (Gui.samplerate s =? 0); [discriminate|].
  destruct (String.eqb_spec (Gui.asksaveasfilename e) EmptyString) as [He | He].
  - intros [= <-]. cbn. repeat split; eauto.
  - destruct (Gui.writable _ _); [|discriminate].
    intros [= <-]. cbn. repeat split; eauto.
    + intros p Hp. apply lookup_insert_ne. congruence.
    + intros H. contradiction.
Qed.

(** X13: whatever the second part of [stop_recording] meets (no frames, a
    cancelled dialog, blocks that do not fit together, a file that cannot
    be written), it re-enables Start, disables Stop, resets the level
    meter and shows exactly one dialog; the status is "Ready", or
    "Error - Ready" after the "Error saving file" box; on the disk, only
    the file named in the save dialog can have changed, and nothing when
    the dialog was cancelled. *)
Theorem X13_stop_always_resets_window (e : Gui.env) (s : Gui.state) :
  let s' := Gui.stop_recording_exit e s in
  Gui.start_btn s' = true /\ Gui.stop_btn s' = false
  /\ Gui.level_var s' = Gui.LevelZero
  /\ Gui.recording s' = Gui.recording s
  /\ (exists d, stop_notice e d /\ Gui.dialogs s' = Gui.dialogs s ++ [d]
                /\ ((d = Gui.ErrSavingFile
                     /\ Gui.status s' = Gui.StatusErrorReady)
                    \/ (d <> Gui.ErrSavingFile
                        /\ Gui.status s' = Gui.StatusReady)))
  /\ (forall p, p <> Gui.asksaveasfilename e -> Gui.fs s' !! p = Gui.fs s !! p)
  /\ (Gui.asksaveasfilename e = EmptyString -> Gui.fs s' = Gui.fs s).
Proof.
  unfold Gui.stop_recording_exit. cbv zeta.
  change (Gui.frames (Gui.set_level _ _)) with (Gui.frames s).
  destruct (Gui.frames s) as [|b bs] eqn:Hf.
  { cbn. repeat split; auto.
    exists Gui.WarnNoAudioRecorded. unfold stop_notice.
    split; [auto|]. split; [reflexivity|].
    right. split; [discriminate | reflexivity]. }
  destruct (Gui.flush e _) as [s4|] eqn:Hfl.
  - apply gui_flush_frame in Hfl
      as (Hr & Hs1 & Hs2 & Hl & Hst & (d & Hd & Hcase) & Hfs & Hfs0).
    cbn in Hr, Hs1, Hs2, Hl, Hd, Hfs, Hfs0.
    repeat split; auto.
    exists d. unfold stop_notice. split; [tauto|]. split; [exact Hd|].
    right. split; [|exact Hst].
    destruct Hcase as [-> | ->]; discriminate.
  - cbn. repeat split; auto.
    exists Gui.ErrSavingFile. unfold stop_notice.
    split; [tauto|]. split; [reflexivity|].
    left. split; reflexivity.
Qed.

Lemma X13_stop_always_resets_window_witness :
  Gui.start_btn
    (Gui.stop_recording_exit Scenario.gui_env_broken Scenario.gui_waiting)
  = true
  /\ Gui.stop_btn
       (Gui.stop_recording_exit Scenario.gui_env_broken Scenario.gui_waiting)
     = false.
Proof.
  destruct (X13_stop_always_resets_window Scenario.gui_env_broken
              Scenario.gui_waiting) as (H1 & H2 & _).
  split; [exact H1 | exact H2].
Defined.







Lemma gui_stuck_act (e : Gui.env) (s s' : Gui.state) (a : Gui.action) :
  gui_stuck s -> Gui.act e s a = Some s' -> s' = s.
Proof.
  intros (Hr & Hst & Hb1 & Hb2 & Ht) Hact.
  destruct a as [|[|indata| | |]]; cbn [Gui.act Gui.step] in Hact.
  - rewrite Hb1 in Hact. discriminate.
  - rewrite Ht in Hact. discriminate.
  - rewrite Ht in Hact. discriminate.
  - rewrite Ht in Hact. discriminate.
  - rewrite Hb2 in Hact. injection Hact as <-.
    unfold Gui.stop_recording_enter. rewrite Hr. reflexivity.
  - rewrite Hst in Hact. discriminate.
Qed.

(** X15: when the stream of a running session fails to open, the handler
    leaves the window for good in the state of a running session that is
    over: the flag is clear and the thread has finished, but the status
    still says "Recording...", Start is disabled and Stop is enabled; the
    only action the window still accepts is Stop, which changes nothing.
    So no later sequence of actions changes the state, and no further
    session can be started. *)
Theorem X15_stream_failure_is_final (e : Gui.env) (s : Gui.state) :
  Gui.stream_opens e = false ->
  gui_in_session s -> Gui.thread s = Gui.Launched ->
  exists s1,
    Gui.step e s Gui.ThreadStarts = Some s1
    /\ gui_stuck s1
    /\ Gui.frames s1 = Gui.frames s /\ Gui.fs s1 = Gui.fs s
    /\ (forall d, In d (Gui.dialogs s1) ->
                  In d (Gui.dialogs s) \/ d = Gui.ErrRecording)
    /\ forall (acts : list Gui.action) (s2 : Gui.state),
         Gui.lifetime e s1 acts = Some s2 -> s2 = s1.
Proof.
  intros Ho (H1 & H2 & H3 & H4) Ht.
  cbn [Gui.step]. rewrite Ht, Ho, H4.
  eexists. split; [reflexivity|].
  assert (Hstuck : gui_stuck
                     (Gui.stream_error e
                        (Gui.log_stream (Gui.stream_request s) s))).
  { unfold gui_stuck, Gui.stream_error, Gui.stop_recording.
    destruct (Gui.lambda_in_time e); cbn; auto. }
  split; [exact Hstuck|].
  split; [unfold Gui.stream_error, Gui.stop_recording;
          destruct (Gui.lambda_in_time e); reflexivity|].
  split; [unfold Gui.stream_error, Gui.stop_recording;
          destruct (Gui.lambda_in_time e); reflexivity|].
  split.
  - intros d. unfold Gui.stream_error, Gui.stop_recording.
    destruct (Gui.lambda_in_time e); cbn; [|auto].
    intros Hin. apply in_app_or in Hin as [Hin | [<- | []]]; auto.
  - intros acts. induction acts as [|a acts IH]; intros s2;
      cbn [Gui.lifetime].
    + intros [= <-]. reflexivity.
    + destruct (Gui.act e _ a) as [s'|] eqn:Hact; [|discriminate].
      rewrite (gui_stuck_act _ _ _ _ Hstuck Hact). apply IH.
Qed.

Lemma X15_stream_failure_is_final_witness :
  exists s1,
    Gui.step Scenario.gui_env_broken
      (Gui.start_recording Scenario.gui_env_broken (Gui.init [Scenario.mic]))
      Gui.ThreadStarts = Some s1
    /\ gui_stuck s1.
Proof.
  destruct (X15_stream_failure_is_final Scenario.gui_env_broken
              (Gui.start_recording Scenario.gui_env_broken
                 (Gui.init [Scenario.mic])))
    as (s1 & Hs & Hk & _).
  - reflexivity.
  - vm_compute. repeat split.
  - vm_compute. reflexivity.
  - exists s1. split; [exact Hs | exact Hk].
Defined.

(** *** The device selected at start-up *)

Lemma gui_find_by_name_head (i : nat) (d : device_info)
    (rest : list (nat * device_info)) :
  Gui.find_by_name (name d) ((i, d) :: rest) = Some i.
Proof. cbn. rewrite String.eqb_refl. reflexivity. Qed.

Lemma gui_negotiate_dialogs (e : Gui.env) (idx : nat) (s s' : Gui.state)
    (d : Gui.dialog) :
  Gui.negotiate e idx s = Some s' ->
  In d (Gui.dialogs s') ->
  In d (Gui.dialogs s)
  \/ (exists r r', d = Gui.InfoSampleRateAdjusted r r')
  \/ (exists c, d = Gui.InfoChannelsAdjusted c).
Proof.
  unfold Gui.negotiate.
  destruct (Gui.query_device e idx) as [info|]; [|discriminate].
  destruct (Py.int (Gui.samplerate_var s)) as [r|]; [|discriminate].
  cbv zeta.
  destruct (Gui.check_input_settings e idx r);
    match goal with
    | |- context [if ?c then _ else _] => destruct c
    end; intros [= <-]; cbn; intros Hin;
    repeat (apply in_app_or in Hin as [Hin | Hin]);
    repeat match goal with
           | H : In _ [_] |- _ => destruct H as [<- | []]
           | H : In _ [] |- _ => destruct H
           end; eauto.
Qed.

(** X16: at start-up the device menu shows the first input device, and
    pressing Start then finds that device under its own number, so neither
    the "select an input device" warning nor the "device not found" error
    can appear; without any input device the menu shows "No devices
    found" and Start only shows the "select an input device" warning. *)
Theorem X16_initial_selection (e : Gui.env)
    (device_list : list device_info) :
  (forall (i : nat) (d : device_info) (rest : list (nat * device_info)),
      input_devices_of device_list = (i, d) :: rest ->
      name d <> EmptyString -> name d <> "No devices found"%string ->
      let s' := Gui.start_recording e (Gui.init device_list) in
      Gui.device_var (Gui.init device_list) = name d
      /\ device_list !! i = Some d
      /\ Gui.device s' = Some i
      /\ ~ In Gui.WarnSelectDevice (Gui.dialogs s')
      /\ ~ In Gui.ErrDeviceNotFound (Gui.dialogs s'))
  /\ (input_devices_of device_list = [] ->
      Gui.device_var (Gui.init device_list) = "No devices found"%string
      /\ Gui.start_recording e (Gui.init device_list)
         = Gui.show Gui.WarnSelectDevice (Gui.init device_list)).
Proof.
  split.
  - intros i d rest Hl Hn1 Hn2.
    assert (Hv : Gui.device_var (Gui.init device_list) = name d).
    { unfold Gui.init. rewrite Hl. reflexivity. }
    assert (Hi : Gui.input_devices (Gui.init device_list) = (i, d) :: rest).
    { unfold Gui.init. rewrite Hl. reflexivity. }
    assert (Hd : Gui.dialogs (Gui.init device_list) = []) by reflexivity.
    cbv zeta. split; [exact Hv|]. split.
    { apply (input_devices_of_In device_list i d). rewrite Hl. left.
      reflexivity. }
    unfold Gui.start_recording. rewrite Hv, Hi.
    apply String.eqb_neq in Hn1, Hn2. rewrite Hn1, Hn2. cbn [orb].
    cbv zeta. rewrite gui_find_by_name_head.
    change (Gui.device (Gui.set_device ?x ?s)) with x. cbv beta iota.
    destruct (Gui.negotiate e i _) as [s2|] eqn:Hn.
    + pose proof (gui_negotiate_frame _ _ _ _ Hn) as (_ & _ & _ & Hdev & _).
      split; [cbn; rewrite Hdev; reflexivity|].
      cbn. split; intros Hin;
        destruct (gui_negotiate_dialogs _ _ _ _ _ Hn Hin)
          as [[] | [(r & r' & H) | (c & H)]]; discriminate H.
    + split; [reflexivity|]. cbn.
      split; (intros [H | []]; discriminate H).
  - intros Hl. unfold Gui.start_recording, Gui.init. rewrite Hl.
    split; reflexivity.
Qed.

Lemma X16_initial_selection_witness :
  Gui.device (Gui.start_recording Scenario.gui_env (Gui.init [Scenario.mic]))
  = Some 0%nat
  /\ Gui.device_var (Gui.init []) = "No devices found"%string.
Proof.
  split.
  - refine (proj1 (proj2 (proj2
              (proj1 (X16_initial_selection Scenario.gui_env [Scenario.mic])
                 0%nat Scenario.mic [] eq_refl _ _)))); discriminate.
  - exact (proj1 (proj2 (X16_initial_selection Scenario.gui_env [])
                    eq_refl)).
Defined.

(** *** Refreshing the device list *)

Lemma gui_refresh_flush (e : Gui.env) (device_list : list device_info)
    (s : Gui.state) :
  Gui.flush e (snd (Gui.refresh_devices device_list s))
  = option_map (fun s' => snd (Gui.refresh_devices device_list s'))
      (Gui.flush e s).
Proof.
  unfold Gui.flush.
  change (Gui.frames (snd (Gui.refresh_devices device_list s)))
    with (Gui.frames s).
  change (Gui.samplerate (snd (Gui.refresh_devices device_list s)))
    with (Gui.samplerate s).
  destruct (np_concatenate (Gui.frames s)) as [audio|]; [|reflexivity].
  destruct (Gui.samplerate s =? 0); [reflexivity|]. cbv zeta.
  destruct (String.eqb (Gui.asksaveasfilename e) EmptyString);
    [reflexivity|].
  unfold Gui.write_wav.
  destruct (Gui.writable e (Gui.asksaveasfilename e)); reflexivity.
Qed.

Lemma gui_refresh_stop_recording_exit (e : Gui.env)
    (device_list : list device_info) (s : Gui.state) :
  Gui.stop_recording_exit e (snd (Gui.refresh_devices device_list s))
  = snd (Gui.refresh_devices device_list (Gui.stop_recording_exit e s)).
Proof.
  unfold Gui.stop_recording_exit. cbv zeta.
  change (Gui.frames (Gui.set_level ?v (Gui.set_buttons ?a ?b ?x)))
    with (Gui.frames x).
  change (Gui.frames (snd (Gui.refresh_devices device_list s)))
    with (Gui.frames s).
  destruct (Gui.frames s) as [|b bs]; [reflexivity|].
  change (Gui.set_status Gui.StatusProcessing
            (Gui.set_level Gui.LevelZero
               (Gui.set_buttons true false
                  (snd (Gui.refresh_devices device_list s)))))
    with (snd (Gui.refresh_devices device_list
                 (Gui.set_status Gui.StatusProcessing
                    (Gui.set_level Gui.LevelZero
                       (Gui.set_buttons true false s))))).
  rewrite gui_refresh_flush.
  destruct (Gui.flush e _) as [s4|]; reflexivity.
Qed.

Lemma gui_refresh_stop_recording_enter (device_list : list device_info)
    (s : Gui.state) :
  Gui.stop_recording_enter (snd (Gui.refresh_devices device_list s))
  = snd (Gui.refresh_devices device_list (Gui.stop_recording_enter s)).
Proof.
  unfold Gui.stop_recording_enter.
  change (Gui.recording (snd (Gui.refresh_devices device_list s)))
    with (Gui.recording s).
  destruct (Gui.recording s); reflexivity.
Qed.

Lemma gui_refresh_stream_error (e : Gui.env)
    (device_list : list device_info) (s : Gui.state) :
  Gui.stream_error e (snd (Gui.refresh_devices device_list s))
  = snd (Gui.refresh_devices device_list (Gui.stream_error e s)).
Proof.
  unfold Gui.stream_error, Gui.stop_recording. cbv zeta.
  destruct (Gui.lambda_in_time e); reflexivity.
Qed.

Lemma gui_refresh_devices_step (e : Gui.env) (device_list : list device_info)
    (s : Gui.state) (ev : Gui.event) :
  Gui.step e (snd (Gui.refresh_devices device_list s)) ev
  = option_map (fun s' => snd (Gui.refresh_devices device_list s'))
      (Gui.step e s ev).
Proof.
  destruct ev as [|indata| | |]; cbn [Gui.step].
  - change (Gui.thread (snd (Gui.refresh_devices device_list s)))
      with (Gui.thread s).
    change (Gui.status (snd (Gui.refresh_devices device_list s)))
      with (Gui.status s).
    destruct (Gui.thread s); try reflexivity.
    destruct (Gui.stream_opens e); [reflexivity|].
    change (Gui.log_stream
              (Gui.stream_request (snd (Gui.refresh_devices device_list s)))
              (snd (Gui.refresh_devices device_list s)))
      with (snd (Gui.refresh_devices device_list
                   (Gui.log_stream (Gui.stream_request s) s))).
    rewrite gui_refresh_stream_error.
    destruct (Gui.status s); reflexivity.
  - change (Gui.thread (snd (Gui.refresh_devices device_list s)))
      with (Gui.thread s).
    destruct (Gui.thread s); reflexivity.
  - change (Gui.thread (snd (Gui.refresh_devices device_list s)))
      with (Gui.thread s).
    change (Gui.recording (snd (Gui.refresh_devices device_list s)))
      with (Gui.recording s).
    change (Gui.q (snd (Gui.refresh_devices device_list s)))
      with (Gui.q s).
    destruct (Gui.thread s); try reflexivity.
    + destruct (Gui.recording s); reflexivity.
    + destruct (Gui.q s); reflexivity.
  - change (Gui.stop_btn (snd (Gui.refresh_devices device_list s)))
      with (Gui.stop_btn s).
    destruct (Gui.stop_btn s); [|reflexivity].
    rewrite gui_refresh_stop_recording_enter. reflexivity.
  - change (Gui.status (snd (Gui.refresh_devices device_list s)))
      with (Gui.status s).
    destruct (Gui.status s); try reflexivity.
    rewrite gui_refresh_stop_recording_exit. reflexivity.
Qed.

Lemma gui_refresh_devices_run (e : Gui.env) (device_list : list device_info)
    (evs : list Gui.event) (s : Gui.state) :
  Gui.run e (snd (Gui.refresh_devices device_list s)) evs
  = option_map (fun s' => snd (Gui.refresh_devices device_list s'))
      (Gui.run e s evs).
Proof.
  revert s; induction evs as [|ev evs IH]; intros s; cbn [Gui.run];
    [reflexivity|].
  rewrite gui_refresh_devices_step.
  destruct (Gui.step e s ev) as [s1|]; cbn [option_map]; [apply IH|].
  reflexivity.
Qed.

(** X17: [refresh_devices] reports the number of input devices of the new
    list and resets the selection to the first of them, whatever was
    selected before, so that Start then uses that device; it can be
    pressed at any moment of a session without disturbing it: every
    schedule of the driver, the consumer thread and the Stop button runs
    after a refresh exactly as without it, and ends in the same state up
    to the refreshed device list and selection; so the same file is
    written and the same boxes are shown. *)
Theorem X17_refresh_devices (e : Gui.env) (device_list : list device_info)
    (s : Gui.state) :
  let s' := snd (Gui.refresh_devices device_list s) in
  fst (Gui.refresh_devices device_list s)
  = length (input_devices_of device_list)
  /\ (forall evs : list Gui.event,
         Gui.run e s' evs
         = option_map (fun s2 => snd (Gui.refresh_devices device_list s2))
             (Gui.run e s evs))
  /\ (forall (evs : list Gui.event) (s2 : Gui.state),
         Gui.run e s evs = Some s2 ->
         exists s2', Gui.run e s' evs = Some s2'
                     /\ Gui.fs s2' = Gui.fs s2
                     /\ Gui.dialogs s2' = Gui.dialogs s2
                     /\ Gui.frames s2' = Gui.frames s2
                     /\ Gui.streams s2' = Gui.streams s2)
  /\ (forall (i : nat) (d : device_info) (rest : list (nat * device_info)),
         input_devices_of device_list = (i, d) :: rest ->
         name d <> EmptyString -> name d <> "No devices found"%string ->
         Gui.device (Gui.start_recording e s') = Some i)
  /\ (input_devices_of device_list = [] ->
      Gui.start_recording e s' = Gui.show Gui.WarnSelectDevice s').
Proof.
  cbv zeta. split; [|split; [|split; [|split]]].
  - unfold Gui.refresh_devices. cbn [fst]. apply length_map.
  - intros evs. apply gui_refresh_devices_run.
  - intros evs s2 Hrun. rewrite gui_refresh_devices_run, Hrun.
    eexists. split; [reflexivity|]. repeat split.
  - intros i d rest Hl Hn1 Hn2. unfold Gui.start_recording.
    assert (Hv : Gui.device_var (snd (Gui.refresh_devices device_list s))
                 = name d).
    { unfold Gui.refresh_devices. cbn. rewrite Hl. reflexivity. }
    assert (Hi : Gui.input_devices (snd (Gui.refresh_devices device_list s))
                 = (i, d) :: rest).
    { unfold Gui.refresh_devices. cbn. exact Hl. }
    rewrite Hv, Hi. apply String.eqb_neq in Hn1, Hn2. rewrite Hn1, Hn2.
    cbn [orb]. cbv zeta. rewrite gui_find_by_name_head.
    change (Gui.device (Gui.set_device ?x ?y)) with x. cbv beta iota.
    destruct (Gui.negotiate e i _) as [s2|] eqn:Hn; [|reflexivity].
    apply gui_negotiate_frame in Hn as (_ & _ & _ & Hdev & _).
    cbn. rewrite Hdev. reflexivity.
  - intros Hl. unfold Gui.start_recording, Gui.refresh_devices.
    cbn [snd Gui.device_var]. rewrite Hl. reflexivity.
Qed.

Lemma X17_refresh_devices_witness :
  Gui.device
    (Gui.start_recording Scenario.gui_env
       (snd (Gui.refresh_devices
               [mk_device "HDMI Out" 0 48000; Scenario.mic] (Gui.init []))))
  = Some 1%nat.
Proof.
  refine (proj1 (proj2 (proj2 (proj2
            (X17_refresh_devices Scenario.gui_env
               [mk_device "HDMI Out" 0 48000; Scenario.mic] (Gui.init []))))) 
            1%nat Scenario.mic [] eq_refl _ _); discriminate.
Defined.

(** *** The 16-bit samples *)

(** X18: whatever the buffer holds (samples beyond the unit range,
    infinities and NaN included), the conversion gives a value for every
    sample, of the same shape, and every value is a 16-bit integer; on the
    unit range the most negative 16-bit value never occurs, while just
    outside it does: the sample -(1 + 2^-15) is written as -32768 and its
    opposite, too. *)
Theorem X18_quantize_total_int16 (audio : sample_block) :
  Forall2 (Forall2 (fun x z => z = Quantize.quantize_sample x
                               /\ -32768 <= z <= 32767
                               /\ (Quantize.in_unit x -> z <> -32768)))
          (rows audio) (rows (Quantize.quantize audio))
  /\ Quantize.quantize_sample (S754_finite true 8388864 (-23)) = -32768
  /\ Quantize.quantize_sample (S754_finite false 8388864 (-23)) = -32768.
Proof.
  split; [|split; vm_compute; reflexivity].
  rewrite quantize_rows.
  induction (rows audio) as [|row rest IH]; cbn [map]; constructor;
    [|exact IH].
  induction row as [|x xs IHrow]; cbn [map]; constructor; [|exact IHrow].
  split; [reflexivity|]. split.
  - apply wrap16_range.
  - intros Hx. pose proof (quantize_sample_unit x Hx) as [_ Hr]. lia.
Qed.

Lemma X18_quantize_total_int16_witness :
  Forall2 (Forall2 (fun x z => z = Quantize.quantize_sample x
                               /\ -32768 <= z <= 32767
                               /\ (Quantize.in_unit x -> z <> -32768)))
          [[Quantize.half; Quantize.seventy_thousand]]
          (rows (Quantize.quantize
                   (mk_ndarray 2
                      [[Quantize.half; Quantize.seventy_thousand]]))).
Proof.
  exact (proj1 (X18_quantize_total_int16
                  (mk_ndarray 2
                     [[Quantize.half; Quantize.seventy_thousand]]))).
Defined.
